(** * check_http_json: path resolution, threshold ranges and severity

    A shallow embedding of [check_http_json.py] (the Nagios plugin that
    checks values of a JSON document against rules) and theorems about
    its path resolver ([JsonHelper]), its rule processor
    ([JsonRuleProcessor]) and its severity aggregation ([NagiosHelper]).

    Conventions of the embedding.
    - Python [str] is [string]; the model is exact for ASCII text and
      treats the characters above 127 as Latin-1 code points.
    - A value produced by [json.loads] is a [json]: [None], a bool, an
      int, a float, a str, a list or a dict.
    - A Python [float] is a binary64 number, a [spec_float] of the
      standard library with precision 53 and maximal exponent 1024:
      [float(x)] rounds to the nearest such number, ties to even, the
      comparisons are those of IEEE 754 (every comparison with NaN is
      false), and [repr] writes the shortest digits that read back as
      the same number.
    - A Python computation is a [res]: a value, a raised exception, or
      [Unmodelled] when Python's behaviour leaves the modelled domain
      (an int written with more than 4300 digits, a size beyond 2^53
      to scale); nothing is claimed about such a run.
    - The built-ins ([float], [int], [str], [repr], slices, [find],
      [split], [base64.b64decode]) follow CPython 3.11. *)

From Stdlib Require Import ZArith List String Ascii Bool Lia DecimalString.
From Stdlib Require Import SpecFloat.
Import ListNotations.
Local Open Scope string_scope.
Local Open Scope Z_scope.

(** ** Outcomes of Python computations *)

Inductive exn : Type :=
| TypeError | ValueError | KeyError | IndexError
| AssertionError | RecursionError | BinasciiError | OverflowError.

Inductive res (A : Type) : Type :=
| Ok (a : A)
| Raise (e : exn)
| Unmodelled.
Arguments Ok {A} a.
Arguments Raise {A} e.
Arguments Unmodelled {A}.

Definition bind {A B : Type} (c : res A) (f : A -> res B) : res B :=
  match c with
  | Ok a => f a
  | Raise e => Raise e
  | Unmodelled => Unmodelled
  end.

Notation "x <- c ;; k" := (bind c (fun x => k))
  (at level 61, c at next level, right associativity).

(** ** Python strings *)

Module PyStr.

Definition len (s : string) : Z := Z.of_nat (String.length s).

(** [s.find(sub)]: the lowest index at which [sub] occurs, or -1. *)
Fixpoint find_from (sub s : string) (i : Z) : Z :=
  if prefix sub s then i
  else match s with
       | EmptyString => -1
       | String _ s' => find_from sub s' (i + 1)
       end.

Definition find (s sub : string) : Z := find_from sub s 0.

(** Bounds of a slice: a negative index counts from the end, and every
    index is clamped to the string. *)
Definition clamp (n i : Z) : Z :=
  if i <? 0 then Z.max 0 (i + n) else Z.min i n.

(** [s[a:b]] *)
Definition slice (s : string) (a b : Z) : string :=
  let a' := clamp (len s) a in
  let b' := clamp (len s) b in
  substring (Z.to_nat a') (Z.to_nat (b' - a')) s.

(** [s[a:]] *)
Definition slice_from (s : string) (a : Z) : string := slice s a (len s).

(** [s[:b]] *)
Definition slice_to (s : string) (b : Z) : string := slice s 0 b.

(** [s.split(c)] for a one-character separator. *)
Fixpoint split (c : ascii) (s : string) : list string :=
  match s with
  | EmptyString => [EmptyString]
  | String a s' =>
      if Ascii.eqb a c then EmptyString :: split c s'
      else match split c s' with
           | h :: t => String a h :: t
           | [] => [String a EmptyString]
           end
  end.

(** [s.split(c, 1)] *)
Fixpoint split1 (c : ascii) (s : string) : list string :=
  match s with
  | EmptyString => [EmptyString]
  | String a s' =>
      if Ascii.eqb a c then [EmptyString; s']
      else match split1 c s' with
           | h :: t => String a h :: t
           | [] => [String a EmptyString]
           end
  end.

(** [c in s] for a one-character [c]. *)
Fixpoint has_char (c : ascii) (s : string) : bool :=
  match s with
  | EmptyString => false
  | String a s' => Ascii.eqb a c || has_char c s'
  end.

(** [sub in s] *)
Definition contains (s sub : string) : bool := 0 <=? find s sub.

(** [s.startswith(p)] *)
Definition startswith (s p : string) : bool := prefix p s.

Definition is_digit (c : ascii) : bool :=
  let n := Z.of_N (N_of_ascii c) in (48 <=? n) && (n <=? 57).

Fixpoint all_digits (s : string) : bool :=
  match s with
  | EmptyString => true
  | String c s' => is_digit c && all_digits s'
  end.

(** [s.isdecimal()] *)
Definition isdecimal (s : string) : bool :=
  match s with
  | EmptyString => false
  | _ => all_digits s
  end.

Definition digit_val (c : ascii) : Z := Z.of_N (N_of_ascii c) - 48.

(** The number written by a string of decimal digits, most significant
    digit first; an underscore between digits is skipped as Python's
    numeric literals do. *)
Fixpoint digits_acc (s : string) (acc : Z) : Z :=
  match s with
  | EmptyString => acc
  | String c s' =>
      if is_digit c then digits_acc s' (10 * acc + digit_val c)
      else digits_acc s' acc
  end.

Definition digits_value (s : string) : Z := digits_acc s 0.

(** [str(z)] for an int. *)
Definition of_Z (z : Z) : string := NilZero.string_of_int (Z.to_int z).

Definition lower_char (c : ascii) : ascii :=
  let n := N_of_ascii c in
  if ((65 <=? n) && (n <=? 90))%N then ascii_of_N (n + 32)
  else if ((192 <=? n) && (n <=? 222) && negb (n =? 215))%N then ascii_of_N (n + 32)
  else c.

(** [s.lower()] *)
Fixpoint lower (s : string) : string :=
  match s with
  | EmptyString => EmptyString
  | String c s' => String (lower_char c) (lower s')
  end.

(** The white space that [float()] and [int()] skip around a number: tab
    to carriage return, the space, and the two Latin-1 spaces. *)
Definition is_space (c : ascii) : bool :=
  let n := Z.of_N (N_of_ascii c) in
  ((9 <=? n) && (n <=? 13)) || (n =? 32) || (n =? 133) || (n =? 160).

Fixpoint lstrip (s : string) : string :=
  match s with
  | String c s' => if is_space c then lstrip s' else s
  | EmptyString => EmptyString
  end.

Fixpoint rstrip (s : string) : string :=
  match s with
  | EmptyString => EmptyString
  | String c s' =>
      match rstrip s' with
      | EmptyString => if is_space c then EmptyString else String c EmptyString
      | r => String c r
      end
  end.

Definition strip (s : string) : string := rstrip (lstrip s).

(** [sep.join(l)] *)
Fixpoint join (sep : string) (l : list string) : string :=
  match l with
  | [] => EmptyString
  | [x] => x
  | x :: rest => x ++ sep ++ join sep rest
  end.

End PyStr.

(** ** Python floats *)

Module PyFloat.

(** binary64 *)
Definition prec : Z := 53.
Definition emax : Z := 1024.

(** The float nearest to the quotient [p / q] of two integers. *)
Definition of_ratio (neg : bool) (p q : positive) : spec_float :=
  SFdiv prec emax (S754_finite neg p 0) (S754_finite false q 0).

(** The float nearest to [m * 10^e]; too large a number is an infinity. *)
Definition of_decimal (neg : bool) (m e : Z) : spec_float :=
  match m with
  | Zpos p =>
      if 0 <=? e then binary_round prec emax neg (Z.to_pos (Zpos p * 10 ^ e)) 0
      else of_ratio neg p (Z.to_pos (10 ^ (- e)))
  | _ => S754_zero neg
  end.

(** [float(z)] of an int: the nearest float, and [OverflowError] when
    that is no finite float. *)
Definition of_int (z : Z) : res spec_float :=
  match binary_normalize prec emax z 0 false with
  | S754_infinity _ => Raise OverflowError
  | f => Ok f
  end.

(** [int(f)] of a float: the integer part. *)
Definition trunc (f : spec_float) : res Z :=
  match f with
  | S754_nan => Raise ValueError
  | S754_infinity _ => Raise OverflowError
  | S754_zero _ => Ok 0
  | S754_finite s m e =>
      Ok (cond_Zopp s (if 0 <=? e then Zpos m * 2 ^ e else Zpos m / 2 ^ (- e)))
  end.

(** [x < y], [x <= y], [x > y] and [x >= y] *)
Definition lt (x y : spec_float) : bool := SFltb x y.
Definition le (x y : spec_float) : bool := SFleb x y.
Definition gt (x y : spec_float) : bool := SFltb y x.
Definition ge (x y : spec_float) : bool := SFleb y x.

(** [0.0] *)
Definition zero : spec_float := S754_zero false.

Definition is_nan (x : spec_float) : bool :=
  match x with
  | S754_nan => true
  | _ => false
  end.

(** *** [repr]

    The digits of [repr(x)] for the float [x = m * 2^e] are those of the
    integer [d] with the largest [k] for which [d * 10^k] reads back as
    [x], that is, lies between the midpoints of [x] and its two
    neighbours (the midpoints included when [m] is even); among several
    such [d] the one nearest to [x], and the even one of two that are
    equally near. Numbers are held as numerators over the common
    denominator [den]. *)

Section Shortest.

Variable m : positive.
Variable e : Z.

Definition scale : Z := 2 ^ Z.max (e - 2) 0.
Definition den : Z := 2 ^ Z.max (2 - e) 0.

(** [x], the midpoint above and the midpoint below, which is nearer
    when [x] is a power of two. *)
Definition xn : Z := 4 * Zpos m * scale.
Definition hn : Z := (4 * Zpos m + 2) * scale.
Definition ln : Z :=
  (if (Zpos m =? 2 ^ 52) && (-1074 <? e) then 4 * Zpos m - 1
   else 4 * Zpos m - 2) * scale.
Definition inclusive : bool := Z.even (Zpos m).

(** The [d] for the exponent [k], when there is one. *)
Definition candidate (k : Z) : option Z :=
  let q := 10 ^ Z.max (- k) 0 in
  let d := den * 10 ^ Z.max k 0 in
  let lo := if inclusive then (ln * q + d - 1) / d else ln * q / d + 1 in
  let hi := if inclusive then hn * q / d else (hn * q + d - 1) / d - 1 in
  if lo <=? hi then
    let f := xn * q / d in
    let r := xn * q mod d in
    let nearest :=
      match 2 * r ?= d with
      | Lt => f
      | Gt => f + 1
      | Eq => if Z.even f then f else f + 1
      end in
    Some (if nearest <? lo then lo else if hi <? nearest then hi else nearest)
  else None.

Fixpoint search (fuel : nat) (k : Z) : Z * Z :=
  match fuel with
  | O => (0, k)
  | S fuel' =>
      match candidate k with
      | Some d => (d, k)
      | None => search fuel' (k - 1)
      end
  end.

(** An exponent above the decimal logarithm of the upper midpoint: the
    search starts there, and seventeen digits always read back. *)
Definition start : Z :=
  let l := Z.log2 hn + 1 - Z.log2 den in
  (if 0 <=? l then l * 30103 / 100000 else - ((- l) * 30102 / 100000)) + 1.

Definition shortest : Z * Z := search 40 start.

End Shortest.

Fixpoint zeros (n : nat) : string :=
  match n with
  | O => ""
  | S n' => String "0" (zeros n')
  end.

(** The digits with the decimal point after the first [decpt] of them:
    written out when [-4 < decpt <= 16], else with an exponent of at
    least two digits. *)
Definition format (digits : string) (decpt : Z) : string :=
  let n := PyStr.len digits in
  if (-4 <? decpt) && (decpt <=? 16) then
    if decpt <=? 0 then "0." ++ zeros (Z.to_nat (- decpt)) ++ digits
    else if n <=? decpt then digits ++ zeros (Z.to_nat (decpt - n)) ++ ".0"
    else PyStr.slice_to digits decpt ++ "." ++ PyStr.slice_from digits decpt
  else
    let ex := decpt - 1 in
    PyStr.slice_to digits 1
      ++ (if 1 <? n then "." ++ PyStr.slice_from digits 1 else "")
      ++ "e" ++ (if ex <? 0 then "-" else "+")
      ++ (if Z.abs ex <? 10 then "0" else "") ++ PyStr.of_Z (Z.abs ex).

(** [repr(f)] and [str(f)] of a float *)
Definition repr (f : spec_float) : string :=
  match f with
  | S754_nan => "nan"
  | S754_infinity s => if s then "-inf" else "inf"
  | S754_zero s => if s then "-0.0" else "0.0"
  | S754_finite s m e =>
      let (d, k) := shortest m e in
      let digits := PyStr.of_Z d in
      (if s then "-" else "") ++ format digits (PyStr.len digits + k)
  end.

End PyFloat.

(** ** JSON values and the Python built-ins applied to them *)

#[local] Set Warnings "-register-all".

(** What [json.loads] returns: [None], [bool], [int], [float], [str],
    [list] and [dict]. A dict lists its keys in insertion order, once
    each. The floats of a document are binary64 numbers (their mantissa
    and exponent are canonical); no theorem needs it as a hypothesis. *)
Inductive json : Type :=
| JNull
| JBool (b : bool)
| JInt (z : Z)
| JFloat (f : spec_float)
| JStr (s : string)
| JList (l : list json)
| JDict (d : list (string * json)).

(** The result of a lookup: a value of the tree, or the sentinel tuple
    [(None, 'not_found')], which no value of [json.loads] equals. *)
Inductive lookup : Type :=
| Found (v : json)
| NotFound.

Module Py.

(** [bool(v)], the test of [if v:] *)
Definition truthy (v : json) : bool :=
  match v with
  | JNull => false
  | JBool b => b
  | JInt z => negb (z =? 0)
  | JFloat f => match f with S754_zero _ => false | _ => true end
  | JStr s => negb (String.eqb s "")
  | JList l => match l with [] => false | _ => true end
  | JDict d => match d with [] => false | _ => true end
  end.

(** [len(v)] *)
Definition len (v : json) : res Z :=
  match v with
  | JStr s => Ok (PyStr.len s)
  | JList l => Ok (Z.of_nat (List.length l))
  | JDict d => Ok (Z.of_nat (List.length d))
  | _ => Raise TypeError
  end.

Definition is_str (k : string) (v : json) : bool :=
  match v with
  | JStr s => String.eqb s k
  | _ => false
  end.

Fixpoint assoc (k : string) (d : list (string * json)) : option json :=
  match d with
  | [] => None
  | (k', v) :: d' => if String.eqb k' k then Some v else assoc k d'
  end.

(** [k in v] for a string [k]: a key of a dict, an element of a list, a
    substring of a string. *)
Definition contains (k : string) (v : json) : res bool :=
  match v with
  | JDict d => Ok (match assoc k d with Some _ => true | None => false end)
  | JList l => Ok (existsb (is_str k) l)
  | JStr s => Ok (PyStr.contains s k)
  | _ => Raise TypeError
  end.

(** [v[k]] for a string [k] *)
Definition getitem (v : json) (k : string) : res json :=
  match v with
  | JDict d => match assoc k d with Some x => Ok x | None => Raise KeyError end
  | _ => Raise TypeError
  end.

(** [v[i]] for an int [i], which is never negative in this program. *)
Definition getindex (v : json) (i : Z) : res json :=
  match v with
  | JList l =>
      match nth_error l (Z.to_nat i) with
      | Some x => Ok x
      | None => Raise IndexError
      end
  | JStr s =>
      match String.get (Z.to_nat i) s with
      | Some c => Ok (JStr (String c EmptyString))
      | None => Raise IndexError
      end
  | JDict _ => Raise KeyError
  | _ => Raise TypeError
  end.

Definition hex_digit (n : N) : ascii :=
  if (n <? 10)%N then ascii_of_N (48 + n) else ascii_of_N (87 + n).

Definition printable (n : N) : bool :=
  ((32 <=? n) && (n <? 127))%N || ((161 <=? n) && negb (n =? 173))%N.

(** The escape of one character inside [repr] of a str quoted by [q]. *)
Definition repr_char (q c : ascii) : string :=
  let n := N_of_ascii c in
  if Ascii.eqb c q || Ascii.eqb c "\"%char then String "\"%char (String c EmptyString)
  else if (n =? 9)%N then "\t"
  else if (n =? 10)%N then "\n"
  else if (n =? 13)%N then "\r"
  else if printable n then String c EmptyString
  else String "\"%char (String "x"%char
         (String (hex_digit (n / 16)) (String (hex_digit (n mod 16)) EmptyString))).

Fixpoint repr_chars (q : ascii) (s : string) : string :=
  match s with
  | EmptyString => EmptyString
  | String c s' => repr_char q c ++ repr_chars q s'
  end.

(** The double quote. *)
Definition dquote : ascii := ascii_of_N 34.

(** [repr(s)] of a str: single quotes, unless the text has a single quote
    and no double quote. *)
Definition repr_str (s : string) : string :=
  let q := if PyStr.has_char "'"%char s && negb (PyStr.has_char dquote s)
           then dquote else "'"%char in
  String q (repr_chars q s ++ String q EmptyString).

(** [repr(v)] *)
Fixpoint repr (v : json) : string :=
  match v with
  | JNull => "None"
  | JBool true => "True"
  | JBool false => "False"
  | JInt z => PyStr.of_Z z
  | JFloat f => PyFloat.repr f
  | JStr s => repr_str s
  | JList l => "[" ++ PyStr.join ", " (map repr l) ++ "]"
  | JDict d =>
      "{" ++ PyStr.join ", "
               (map (fun kv => repr_str (fst kv) ++ ": " ++ repr (snd kv)) d)
          ++ "}"
  end.

(** [str(v)] *)
Definition str (v : json) : string :=
  match v with
  | JStr s => s
  | _ => repr v
  end.

(** [str(r)] of a lookup result; the sentinel prints as a tuple. *)
Definition str_lookup (r : lookup) : string :=
  match r with
  | Found v => str v
  | NotFound => "(None, 'not_found')"
  end.

(** *** Numeric literals *)

Definition skip_sign (s : string) : string :=
  match s with
  | String c s' => if Ascii.eqb c "+" || Ascii.eqb c "-" then s' else s
  | EmptyString => s
  end.

Definition negative (s : string) : bool :=
  match s with
  | String c _ => Ascii.eqb c "-"
  | EmptyString => false
  end.

(** After a digit: the rest of [digit (["_"] digit)*]; returns what
    follows the digit part. *)
Fixpoint digits_tail (s : string) : string :=
  match s with
  | String c s' =>
      if PyStr.is_digit c then digits_tail s'
      else if Ascii.eqb c "_" then
        match s' with
        | String d s'' => if PyStr.is_digit d then digits_tail s'' else s
        | EmptyString => s
        end
      else s
  | EmptyString => s
  end.

(** [digitpart]: what follows it, or [None] when there is none. *)
Definition digitpart (s : string) : option string :=
  match s with
  | String c s' => if PyStr.is_digit c then Some (digits_tail s') else None
  | EmptyString => None
  end.

(** An optional exponent, then the end of the text. *)
Definition exponent_end (s : string) : bool :=
  match s with
  | EmptyString => true
  | String c s' =>
      if Ascii.eqb c "e" || Ascii.eqb c "E" then
        match digitpart (skip_sign s') with
        | Some EmptyString => true
        | _ => false
        end
      else false
  end.

(** [floatnumber] of the grammar of [float()]:
    [digitpart ["." [digitpart]] [exponent]] or ["." digitpart [exponent]]. *)
Definition floatnumber (s : string) : bool :=
  match s with
  | String "." s' =>
      match digitpart s' with
      | Some r => exponent_end r
      | None => false
      end
  | _ =>
      match digitpart s with
      | Some (String "." r) =>
          match digitpart r with
          | Some r' => exponent_end r'
          | None => exponent_end r
          end
      | Some r => exponent_end r
      | None => false
      end
  end.

Definition inf_or_nan (s : string) : bool :=
  let l := PyStr.lower s in
  String.eqb l "inf" || String.eqb l "infinity" || String.eqb l "nan".

(** The integers binary64 holds exactly. *)
Definition exact (z : Z) : bool := (- 2 ^ 53 <=? z) && (z <=? 2 ^ 53).

Definition signed (neg : bool) (z : Z) : Z := if neg then - z else z.

(** The number of digits in a text. *)
Fixpoint count_digits (s : string) : Z :=
  match s with
  | EmptyString => 0
  | String c s' => (if PyStr.is_digit c then 1 else 0) + count_digits s'
  end.

(** The text before and the text after the first [sub], which is one
    character. *)
Definition before (s sub : string) : string :=
  let i := PyStr.find s sub in
  if i <? 0 then s else PyStr.slice_to s i.

Definition after (s sub : string) : string :=
  let i := PyStr.find s sub in
  if i <? 0 then "" else PyStr.slice_from s (i + 1).

(** The float a text of the grammar [floatnumber] writes: the digits of
    its mantissa, scaled by its exponent less the number of digits after
    the point. *)
Definition float_value (neg : bool) (body : string) : spec_float :=
  let l := PyStr.lower body in
  let mant := before l "e" in
  let ex := after l "e" in
  let e := signed (negative ex) (PyStr.digits_value ex) in
  PyFloat.of_decimal neg (PyStr.digits_value mant)
    (e - count_digits (after mant ".")).

(** [float(s)] of a str: white space is stripped and a sign is read; a
    text of the grammar is the float nearest to the number it writes,
    [inf], [infinity] and [nan] in any case are the special values; any
    other text raises [ValueError]. *)
Definition float_of_string (s : string) : res spec_float :=
  let t := PyStr.strip s in
  let body := skip_sign t in
  if floatnumber body then Ok (float_value (negative t) body)
  else if inf_or_nan body then
    Ok (if String.eqb (PyStr.lower body) "nan" then S754_nan
        else S754_infinity (negative t))
  else Raise ValueError.

(** [float(v)] *)
Definition float (v : json) : res spec_float :=
  match v with
  | JBool b => PyFloat.of_int (if b then 1 else 0)
  | JInt z => PyFloat.of_int z
  | JFloat f => Ok f
  | JStr s => float_of_string s
  | _ => Raise TypeError
  end.

Definition float_lookup (r : lookup) : res spec_float :=
  match r with
  | Found v => float v
  | NotFound => Raise TypeError
  end.

(** Python refuses to convert a str of more than 4300 digits to an int
    (unless configured otherwise); the model holds no text that long. *)
Definition max_str_digits : Z := 4300.

(** [int(s)] of a str, base 10: [[sign] digitpart] between white space. *)
Definition int_of_string (s : string) : res Z :=
  let t := PyStr.strip s in
  let body := skip_sign t in
  if max_str_digits <? PyStr.len s then Unmodelled
  else
    match digitpart body with
    | Some EmptyString => Ok (signed (negative t) (PyStr.digits_value body))
    | _ => Raise ValueError
    end.

(** [int(v)] *)
Definition int (v : json) : res Z :=
  match v with
  | JBool b => Ok (if b then 1 else 0)
  | JInt z => Ok z
  | JFloat f => PyFloat.trunc f
  | JStr s => int_of_string s
  | _ => Raise TypeError
  end.

Definition int_lookup (r : lookup) : res Z :=
  match r with
  | Found v => int v
  | NotFound => Raise TypeError
  end.

End Py.

(** ** [base64.b64decode(s).decode()] *)

Module Base64.

(** The value of a character of the base64 alphabet. *)
Definition value (c : ascii) : option Z :=
  let n := Z.of_N (N_of_ascii c) in
  if (65 <=? n) && (n <=? 90) then Some (n - 65)
  else if (97 <=? n) && (n <=? 122) then Some (n - 71)
  else if (48 <=? n) && (n <=? 57) then Some (n + 4)
  else if n =? 43 then Some 62
  else if n =? 47 then Some 63
  else None.

(** [binascii.a2b_base64] without strict mode: a character outside the
    alphabet is skipped, padding that completes a quad ends the input,
    and an incomplete quad at the end is an error. *)
Fixpoint a2b (s : string) (quad_pos leftchar pads : Z) : res (list Z) :=
  match s with
  | EmptyString => if quad_pos =? 0 then Ok [] else Raise BinasciiError
  | String c s' =>
      if Ascii.eqb c "=" then
        if 2 <=? quad_pos then
          if 4 <=? quad_pos + (pads + 1) then Ok []
          else a2b s' quad_pos leftchar (pads + 1)
        else a2b s' quad_pos leftchar pads
      else
        match value c with
        | None => a2b s' quad_pos leftchar pads
        | Some v =>
            if quad_pos =? 0 then a2b s' 1 v 0
            else if quad_pos =? 1 then
              out <- a2b s' 2 (Z.land v 15) 0 ;;
              Ok (Z.lor (Z.shiftl leftchar 2) (Z.shiftr v 4) :: out)
            else if quad_pos =? 2 then
              out <- a2b s' 3 (Z.land v 3) 0 ;;
              Ok (Z.lor (Z.shiftl leftchar 4) (Z.shiftr v 2) :: out)
            else
              out <- a2b s' 0 0 0 ;;
              Ok (Z.lor (Z.shiftl leftchar 6) v :: out)
        end
  end.

Fixpoint is_ascii (s : string) : bool :=
  match s with
  | EmptyString => true
  | String c s' => (N_of_ascii c <? 128)%N && is_ascii s'
  end.

(** [base64.b64decode(s)] of a str: the text must be ASCII. *)
Definition b64decode (s : string) : res (list Z) :=
  if is_ascii s then a2b s 0 0 0 else Raise ValueError.

(** [bytes.decode()]: bytes below 128 are their characters; any other
    byte leaves ASCII (or is not UTF-8 at all). *)
Fixpoint decode (bytes : list Z) : res string :=
  match bytes with
  | [] => Ok EmptyString
  | b :: rest =>
      if b <? 128 then
        s <- decode rest ;; Ok (String (ascii_of_N (Z.to_N b)) s)
      else Unmodelled
  end.

End Base64.

(** ** [TypeHelper] *)

(** [get_size(b, system)]; [system] is the first pair and the others.
    The loop leaves in [factor] the first factor that [b] reaches, or the
    last one. *)
Fixpoint pick_factor (b : Z) (cur : Z * string) (rest : list (Z * string))
  : Z * string :=
  if fst cur <=? b then cur
  else match rest with
       | [] => cur
       | nxt :: rest' => pick_factor b nxt rest'
       end.

(** [int(b/factor)] is the truncated quotient as long as [b] is an exact
    float. *)
Definition get_size (b : Z) (cur : Z * string) (rest : list (Z * string))
  : res string :=
  let fs := pick_factor b cur rest in
  if Py.exact b then Ok (PyStr.of_Z (Z.quot b (fst fs)) ++ snd fs)
  else Unmodelled.

Definition TypeHelper (value : lookup) (field_type : string) : res string :=
  if String.eqb field_type "size" then
    b <- Py.int_lookup value ;;
    get_size b (1024 ^ 5, " PiB")
      [(1024 ^ 4, " TiB"); (1024 ^ 3, " GiB"); (1024 ^ 2, " MiB");
       (1024 ^ 1, " KiB"); (1024 ^ 0, " bytes")]
  else if String.eqb (PyStr.lower field_type) "si" then
    b <- Py.int_lookup value ;;
    get_size b (1000 ^ 5, "P")
      [(1000 ^ 4, "T"); (1000 ^ 3, "G"); (1000 ^ 2, "M");
       (1000 ^ 1, "K"); (1000 ^ 0, "B")]
  else if String.eqb field_type "str" then Ok (Py.str_lookup value)
  else Raise AssertionError.

(** ** [NagiosHelper] *)

Definition OK_CODE : Z := 0.
Definition WARNING_CODE : Z := 1.
Definition CRITICAL_CODE : Z := 2.
Definition UNKNOWN_CODE : Z := 3.

Record NagiosHelper : Type := mkNagios {
  status_message : string;
  performance_data : string;
  warning_message : string;
  critical_message : string;
  unknown_message : string
}.

Definition nagios_init : NagiosHelper := mkNagios "" "" "" "" "".

Definition nonempty (s : string) : bool := negb (String.eqb s "").

Definition getCode (self : NagiosHelper) : Z :=
  let code := OK_CODE in
  let code := if nonempty (warning_message self) then WARNING_CODE else code in
  let code := if nonempty (critical_message self) then CRITICAL_CODE else code in
  let code := if nonempty (unknown_message self) then UNKNOWN_CODE else code in
  code.

Definition append_warning (self : NagiosHelper) (w st : string) : NagiosHelper :=
  mkNagios (status_message self ++ st) (performance_data self)
           (warning_message self ++ w) (critical_message self)
           (unknown_message self).

Definition append_critical (self : NagiosHelper) (c st : string) : NagiosHelper :=
  mkNagios (status_message self ++ st) (performance_data self)
           (warning_message self) (critical_message self ++ c)
           (unknown_message self).

Definition append_unknown (self : NagiosHelper) (u st : string) : NagiosHelper :=
  mkNagios (status_message self ++ st) (performance_data self)
           (warning_message self) (critical_message self)
           (unknown_message self ++ u).

Definition append_metrics (self : NagiosHelper) (perf w c : string) : NagiosHelper :=
  let self := mkNagios (status_message self) (performance_data self ++ perf)
                       (warning_message self) (critical_message self)
                       (unknown_message self) in
  append_critical (append_warning self w "") c "".

Definition message_prefix (code : Z) : string :=
  if code =? OK_CODE then "OK"
  else if code =? WARNING_CODE then "WARNING"
  else if code =? CRITICAL_CODE then "CRITICAL"
  else "UNKNOWN".

Definition getMessage (self : NagiosHelper) : string :=
  let text := message_prefix (getCode self) ++ ":" ++ status_message self in
  let text := text ++ critical_message self in
  let text := text ++ warning_message self in
  let text := text ++ unknown_message self in
  if nonempty (performance_data self) then text ++ "|" ++ performance_data self
  else text.

(** ** [JsonHelper] *)

Record JsonHelper : Type := mkHelper {
  data : json;
  separator : string
}.

Definition arrayOpener : string := "(".
Definition arrayCloser : string := ")".

Section Resolver.

Variable self : JsonHelper.

(** The recursive call [self.get]. *)
Variable get : string -> json -> res lookup.

Definition getSubElement (key : string) (data : json) : res lookup :=
  let separatorIndex := PyStr.find key (separator self) in
  let partialKey := PyStr.slice_to key separatorIndex in
  let remainingKey := PyStr.slice_from key (separatorIndex + 1) in
  b <- Py.contains partialKey data ;;
  if b then
    child <- Py.getitem data partialKey ;;
    get remainingKey child
  else Ok NotFound.

(** The loop of the search accessor, from index [i] on, over [count]
    elements: the first index whose element has [str(get(n, element))]
    equal to [v]. *)
Fixpoint search (n v : string) (data : json) (i : Z) (count : nat)
  : res (option Z) :=
  match count with
  | O => Ok None
  | S count' =>
      elem <- Py.getindex data i ;;
      r <- get n elem ;;
      if String.eqb (Py.str_lookup r) v then Ok (Some i)
      else search n v data (i + 1) count'
  end.

(** The element index of an accessor with content [k]: the number [k]
    writes, or the index the search finds; [None] when the search finds
    nothing. *)
Definition accessor_index (k : string) (data : json) : res (option Z) :=
  if negb (PyStr.isdecimal k) then
    match PyStr.split1 "=" k with
    | [n; v] =>
        bytes <- Base64.b64decode v ;;
        v <- Base64.decode bytes ;;
        count <- Py.len data ;;
        search n v data 0 (Z.to_nat count)
    | _ => Raise ValueError
    end
  else if Py.max_str_digits <? PyStr.len k then Unmodelled
  else Ok (Some (PyStr.digits_value k)).

(** The path handed to the recursive call after an accessor. *)
Definition remainingKey_after (key : string) : string :=
  let remainingKey :=
    PyStr.slice_from key (PyStr.find key (arrayCloser ++ separator self) + 2) in
  if PyStr.find key (arrayCloser ++ separator self) =? -1 then
    PyStr.slice_from key (PyStr.find key arrayCloser + 1)
  else remainingKey.

Definition getSubArrayElement (key : string) (data : json) : res lookup :=
  let subElemKey := PyStr.slice_to key (PyStr.find key arrayOpener) in
  let k := PyStr.slice key (PyStr.find key arrayOpener + 1)
                           (PyStr.find key arrayCloser) in
  found <- accessor_index k data ;;
  match found with
  | None => Ok NotFound
  | Some index =>
      let remainingKey := remainingKey_after key in
      b <- Py.contains subElemKey data ;;
      if b then
        sub <- Py.getitem data subElemKey ;;
        n <- Py.len sub ;;
        if index <? n then
          elem <- Py.getindex sub index ;;
          get remainingKey elem
        else Ok NotFound
      else if negb (Py.truthy (JStr subElemKey)) then
        elem <- Py.getindex data index ;;
        get remainingKey elem
      else Ok NotFound
  end.

End Resolver.

(** [JsonHelper.get(key, temp_data)]; [fuel] bounds the depth of the
    recursion, as Python's recursion limit does. *)
Fixpoint get (fuel : nat) (self : JsonHelper) (key : string) (temp_data : json)
  : res lookup :=
  match fuel with
  | O => Raise RecursionError
  | S fuel' =>
      let data := if Py.truthy temp_data then temp_data else data self in
      if PyStr.len key <=? 0 then Ok (Found data)
      else
        let sep := PyStr.find key (separator self) in
        let opn := PyStr.find key arrayOpener in
        if negb (sep =? -1) && negb (opn =? -1) then
          if sep <? opn then getSubElement self (get fuel' self) key data
          else getSubArrayElement self (get fuel' self) key data
        else if negb (sep =? -1) then
          getSubElement self (get fuel' self) key data
        else if negb (opn =? -1) then
          getSubArrayElement self (get fuel' self) key data
        else
          b <- Py.contains key data ;;
          if b then v <- Py.getitem data key ;; Ok (Found v)
          else Ok NotFound
  end.

Section Comparisons.

Variable fuel : nat.
Variable self : JsonHelper.

(** [self.get(key)]: [temp_data] takes its default, the empty str. *)
Definition get_key (key : string) : res lookup := get fuel self key (JStr "").

Definition exists_ (key : string) : res bool :=
  r <- get_key key ;;
  Ok (match r with NotFound => false | Found _ => true end).

Definition equals (key value : string) : res bool :=
  e <- exists_ key ;;
  if e then
    r <- get_key key ;;
    Ok (existsb (String.eqb (Py.str_lookup r)) (PyStr.split ":" value))
  else Ok false.

(** [self.exists(key) and float(self.get(key)) OP float(value)] *)
Definition compare (op : spec_float -> spec_float -> bool) (key : string)
  (value : json)
  : res bool :=
  e <- exists_ key ;;
  if e then
    r <- get_key key ;;
    x <- Py.float_lookup r ;;
    y <- Py.float value ;;
    Ok (op x y)
  else Ok false.

Definition lte := compare PyFloat.le.
Definition lt := compare PyFloat.lt.
Definition gte := compare PyFloat.ge.
Definition gt := compare PyFloat.gt.

End Comparisons.

Definition _getKeyAlias (original_key : string) : string * string :=
  if PyStr.has_char ">" original_key then
    match PyStr.split ">" original_key with
    | [key; alias] => (key, alias)
    | _ => (original_key, original_key)
    end
  else (original_key, original_key).

(** ** [JsonRuleProcessor] *)

(** The parsed command line ([RulesHelper] in the unit tests); a rule
    list that was not given is [None]. *)
Record Rules : Type := mkRules {
  field_type : string;
  rules_separator : option string;
  key_threshold_warning : option (list string);
  key_value_list : option (list string);
  key_list : option (list string);
  key_threshold_critical : option (list string);
  key_value_list_critical : option (list string);
  key_list_critical : option (list string);
  metric_list : option (list string)
}.

Record JsonRuleProcessor : Type := mkProcessor {
  rules : Rules;
  helper : JsonHelper
}.

(** [JsonRuleProcessor.__init__] *)
Definition processor_init (json_data : json) (rules_args : Rules)
  : JsonRuleProcessor :=
  let separator := "." in
  let separator :=
    match rules_separator rules_args with
    | Some s => if nonempty s then s else separator
    | None => separator
    end in
  mkProcessor rules_args (mkHelper json_data separator).

Section Processor.

Variable fuel : nat.
Variable self : JsonRuleProcessor.

Fixpoint checkExists_from (exists_list : list string) (failure success : string)
  : res (string * string) :=
  match exists_list with
  | [] => Ok (failure, success)
  | k :: rest =>
      let (key, alias) := _getKeyAlias k in
      e <- exists_ fuel (helper self) key ;;
      if negb e then
        checkExists_from rest (failure ++ " Key " ++ alias ++ " did not exist.") success
      else checkExists_from rest failure success
  end.

Definition checkExists (exists_list : list string) : res (string * string) :=
  checkExists_from exists_list "" "".

Definition th (x : lookup) : res string := TypeHelper x (field_type (rules self)).

Fixpoint checkEquality_from (equality_list : list string) (failure success : string)
  : res (string * string) :=
  match equality_list with
  | [] => Ok (failure, success)
  | kv :: rest =>
      match PyStr.split "," kv with
      | [k; v] =>
          let (key, alias) := _getKeyAlias k in
          r <- get_key fuel (helper self) key ;;
          key_val <- th r ;;
          e <- equals fuel (helper self) key v ;;
          if negb e then
            checkEquality_from rest
              (failure ++ " Value for key " ++ alias ++ " (" ++ key_val
                       ++ ") did not match " ++ v ++ ".") success
          else
            checkEquality_from rest failure
              (success ++ " Value for key " ++ alias ++ " (" ++ key_val
                       ++ ") does match " ++ v ++ ".")
      | _ => Raise ValueError
      end
  end.

Definition checkEquality (equality_list : list string) : res (string * string) :=
  checkEquality_from equality_list "" "".

(** [a and b], where [b] is evaluated only when [a] holds. *)
Definition and_then (a : bool) (b : res bool) : res bool :=
  if a then b else Ok false.

(** The bounds [(start, end)] that a range without its [@] denotes. *)
Definition range_bounds (r : string) : json * json :=
  let start := JInt 0 in
  let end_ := JStr "infinity" in
  let vals := PyStr.split ":" r in
  let end_ := match vals with [v0] => JStr v0 | _ => end_ end in
  match vals with
  | [v0; v1] => (JStr v0, if nonempty v1 then JStr v1 else end_)
  | _ => (start, end_)
  end.

(** [if c1: failure += m1] / [elif c2: failure += m2] /
    [else: success += m3], from empty texts. *)
Definition if_elif_else (c1 c2 : res bool) (m1 m2 m3 : res string)
  : res (string * string) :=
  b1 <- c1 ;;
  if b1 then (t <- m1 ;; Ok (t, ""))
  else
    b2 <- c2 ;;
    if b2 then (t <- m2 ;; Ok (t, ""))
    else (t <- m3 ;; Ok ("", t)).

Definition checkThreshold (key alias r : string) : res (string * string) :=
  let h := helper self in
  let invert := PyStr.startswith r "@" in
  let r := if invert then PyStr.slice_from r 1 else r in
  let (start, end_) := range_bounds r in
  v <- get_key fuel h key ;;
  key_val <- th v ;;
  let invert_str := if invert then "not" else "" in
  let head := " Value for key " ++ alias ++ " (" ++ key_val ++ ") was" in
  if Py.is_str "~" start then
    if_elif_else
      (and_then invert (lte fuel h key end_))
      (and_then (negb invert) (gt fuel h key end_))
      (e <- th (Found end_) ;;
       Ok (head ++ " less than or equal to " ++ e ++ "."))
      (e <- th (Found end_) ;;
       Ok (head ++ " greater than " ++ e ++ "."))
      (e <- th (Found end_) ;;
       Ok (head ++ invert_str ++ " in range ':" ++ e ++ "'."))
  else if Py.is_str "infinity" end_ then
    if_elif_else
      (and_then invert (gte fuel h key start))
      (and_then (negb invert) (lt fuel h key start))
      (s <- th (Found start) ;;
       Ok (head ++ " greater than or equal to " ++ s ++ "."))
      (s <- th (Found start) ;;
       Ok (head ++ " less than " ++ s ++ "."))
      (s <- th (Found start) ;;
       Ok (head ++ invert_str ++ " in range '" ++ s ++ ":'."))
  else
    if_elif_else
      (a <- and_then invert (gte fuel h key start) ;;
       and_then a (lte fuel h key end_))
      (and_then (negb invert)
         (a <- lt fuel h key start ;;
          if a then Ok true else gt fuel h key end_))
      (s <- th (Found start) ;; e <- th (Found end_) ;;
       Ok (head ++ " inside the range '" ++ s ++ " : " ++ e ++ "'."))
      (s <- th (Found start) ;; e <- th (Found end_) ;;
       Ok (head ++ " outside the range '" ++ s ++ " : " ++ e ++ "'."))
      (s <- th (Found start) ;; e <- th (Found end_) ;;
       Ok (head ++ invert_str ++ " in range '" ++ s ++ " : " ++ e ++ "'.")).

Fixpoint checkThresholds_from (threshold_list : list string)
  (failure success : string) : res (string * string) :=
  match threshold_list with
  | [] => Ok (failure, success)
  | threshold :: rest =>
      match PyStr.split "," threshold with
      | [k; r] =>
          let (key, alias) := _getKeyAlias k in
          result <- checkThreshold key alias r ;;
          checkThresholds_from rest (failure ++ fst result) (success ++ snd result)
      | _ => Raise ValueError
      end
  end.

Definition checkThresholds (threshold_list : list string) : res (string * string) :=
  checkThresholds_from threshold_list "" "".

(** One step of [checkWarning] and [checkCritical]: a rule list that was
    given is checked and its texts are appended. *)
Definition check_opt (check : list string -> res (string * string))
  (l : option (list string)) (acc : string * string) : res (string * string) :=
  match l with
  | Some l =>
      result <- check l ;;
      Ok (fst acc ++ fst result, snd acc ++ snd result)
  | None => Ok acc
  end.

Definition checkWarning : res (string * string) :=
  acc <- check_opt checkThresholds (key_threshold_warning (rules self)) ("", "") ;;
  acc <- check_opt checkEquality (key_value_list (rules self)) acc ;;
  check_opt checkExists (key_list (rules self)) acc.

Definition checkCritical : res (string * string) :=
  acc <- check_opt checkThresholds (key_threshold_critical (rules self)) ("", "") ;;
  acc <- check_opt checkEquality (key_value_list_critical (rules self)) acc ;;
  check_opt checkExists (key_list_critical (rules self)) acc.

(** The fields [checkMetrics] reads off one metric spec. *)
Record MetricSpec : Type := mkMetric {
  m_key : string;
  m_uom : string;
  m_warn_range : option string;
  m_crit_range : option string;
  m_minimum : option string;
  m_maximum : option string
}.

Definition parse_metric (metric : string) : MetricSpec :=
  let dflt := mkMetric metric "" None None None None in
  if PyStr.has_char "," metric then
    match PyStr.split "," metric with
    | [key; uom] => mkMetric key uom None None None None
    | [key; uom; w; c] => mkMetric key uom (Some w) (Some c) None None
    | [key; uom; w; c; mn; mx] =>
        mkMetric key uom (Some w) (Some c) (Some mn) (Some mx)
    | _ => dflt
    end
  else dflt.

(** [text += self.checkThreshold(key, alias, range_of b)[0]] and
    [metrics += ";%s" % b], when the bound [b] is given. *)
Definition metric_range (key alias : string) (b : option string)
  (range_of : string -> string) (text metrics : string)
  : res (string * string) :=
  match b with
  | Some b =>
      result <- checkThreshold key alias (range_of b) ;;
      Ok (text ++ fst result, metrics ++ ";" ++ b)
  | None => Ok (text, metrics)
  end.

Fixpoint checkMetrics_from (metric_list : list string)
  (metrics warning critical : string) : res (string * string * string) :=
  match metric_list with
  | [] => Ok (metrics, warning, critical)
  | metric :: rest =>
      let m := parse_metric metric in
      let (key, alias) := _getKeyAlias (m_key m) in
      e <- exists_ fuel (helper self) key ;;
      if e then
        v <- get_key fuel (helper self) key ;;
        let metrics := metrics ++ "'" ++ alias ++ "'=" ++ Py.str_lookup v in
        let metrics := if nonempty (m_uom m) then metrics ++ m_uom m else metrics in
        wm <- metric_range key alias (m_warn_range m) (fun r => r) warning metrics ;;
        cm <- metric_range key alias (m_crit_range m) (fun r => r) critical (snd wm) ;;
        cm <- metric_range key alias (m_minimum m) (fun b => b ++ ":") (fst cm) (snd cm) ;;
        cm <- metric_range key alias (m_maximum m) (fun b => "~:" ++ b) (fst cm) (snd cm) ;;
        checkMetrics_from rest (snd cm ++ " ") (fst wm) (fst cm)
      else checkMetrics_from rest (metrics ++ " ") warning critical
  end.

(** [checkMetrics]: the performance data, the warning text and the
    critical text. *)
Definition checkMetrics : res (string * string * string) :=
  match metric_list (rules self) with
  | Some l => checkMetrics_from l "" "" ""
  | None => Ok ("", "", "")
  end.

End Processor.

(** The run of the main program on a fetched document, as the unit tests
    drive it in [check_data]: the three checks feed a fresh
    [NagiosHelper]. *)
Definition check_run (fuel : nat) (args : Rules) (data : json) : res NagiosHelper :=
  let nagios := nagios_init in
  let processor := processor_init data args in
  w <- checkWarning fuel processor ;;
  let nagios := append_warning nagios (fst w) (snd w) in
  c <- checkCritical fuel processor ;;
  let nagios := append_critical nagios (fst c) (snd c) in
  m <- checkMetrics fuel processor ;;
  Ok (append_metrics nagios (fst (fst m)) (snd (fst m)) (snd m)).

Definition check_data (fuel : nat) (args : Rules) (data : json) : res Z :=
  nagios <- check_run fuel args data ;;
  Ok (getCode nagios).

(** [RulesHelper()] of the unit tests and its [dash_*] setters. *)
Definition RulesHelper : Rules :=
  mkRules "str" (Some ".") None None None None None None None.

Definition dash_m (l : list string) (r : Rules) : Rules :=
  mkRules (field_type r) (rules_separator r) (key_threshold_warning r)
    (key_value_list r) (key_list r) (key_threshold_critical r)
    (key_value_list_critical r) (key_list_critical r) (Some l).

Definition dash_e (l : list string) (r : Rules) : Rules :=
  mkRules (field_type r) (rules_separator r) (key_threshold_warning r)
    (key_value_list r) (Some l) (key_threshold_critical r)
    (key_value_list_critical r) (key_list_critical r) (metric_list r).

Definition dash_E (l : list string) (r : Rules) : Rules :=
  mkRules (field_type r) (rules_separator r) (key_threshold_warning r)
    (key_value_list r) (key_list r) (key_threshold_critical r)
    (key_value_list_critical r) (Some l) (metric_list r).

Definition dash_q (l : list string) (r : Rules) : Rules :=
  mkRules (field_type r) (rules_separator r) (key_threshold_warning r)
    (Some l) (key_list r) (key_threshold_critical r)
    (key_value_list_critical r) (key_list_critical r) (metric_list r).

Definition dash_Q (l : list string) (r : Rules) : Rules :=
  mkRules (field_type r) (rules_separator r) (key_threshold_warning r)
    (key_value_list r) (key_list r) (key_threshold_critical r)
    (Some l) (key_list_critical r) (metric_list r).

Definition dash_w (l : list string) (r : Rules) : Rules :=
  mkRules (field_type r) (rules_separator r) (Some l)
    (key_value_list r) (key_list r) (key_threshold_critical r)
    (key_value_list_critical r) (key_list_critical r) (metric_list r).

Definition dash_c (l : list string) (r : Rules) : Rules :=
  mkRules (field_type r) (rules_separator r) (key_threshold_warning r)
    (key_value_list r) (key_list r) (Some l)
    (key_value_list_critical r) (key_list_critical r) (metric_list r).

Definition with_separator (s : string) (r : Rules) : Rules :=
  mkRules (field_type r) (Some s) (key_threshold_warning r)
    (key_value_list r) (key_list r) (key_threshold_critical r)
    (key_value_list_critical r) (key_list_critical r) (metric_list r).

Definition with_field_type (ft : string) (r : Rules) : Rules :=
  mkRules ft (rules_separator r) (key_threshold_warning r)
    (key_value_list r) (key_list r) (key_threshold_critical r)
    (key_value_list_critical r) (key_list_critical r) (metric_list r).

(** ** The resolver as the specification words it

    A second resolver, written from the specification's description of
    path resolution and not from the code, for comparison with [get]:
    segments are plain keys, index accessors and search accessors; a
    plain key needs a mapping that has it; an accessor needs a sequence
    (the value at its prefix, or the current node when it has none) and
    an index inside it; the path that remains after an accessor is the
    text after its own close marker, less one separator that follows it
    directly. *)

Module Spec.

(** The prefix before the open marker, the text between the markers and
    the text after the close marker that matches. *)
Definition parse_accessor (path : string) : option (string * string * string) :=
  let o := PyStr.find path "(" in
  let tail := PyStr.slice_from path (o + 1) in
  let c := PyStr.find tail ")" in
  if c <? 0 then None
  else Some (PyStr.slice_to path o, PyStr.slice_to tail c,
             PyStr.slice_from tail (c + 1)).

(** The text after the close marker, less a separator right after it. *)
Definition skip_separator (sep after : string) : string :=
  if prefix sep after then PyStr.slice_from after (PyStr.len sep) else after.

Definition remaining (sep path : string) : string :=
  match parse_accessor path with
  | Some (_, _, after) => skip_separator sep after
  | None => EmptyString
  end.

Definition child (node : json) (key : string) : option json :=
  match node with
  | JDict d => Py.assoc key d
  | _ => None
  end.

Fixpoint resolve_fuel (n : nat) (sep : string) (node : json) (path : string)
  : res lookup :=
  match n with
  | O => Raise RecursionError
  | S n' =>
      if String.eqb path "" then Ok (Found node)
      else
        let s := PyStr.find path sep in
        let o := PyStr.find path "(" in
        if (s <? 0) && (o <? 0) then
          match child node path with
          | Some v => Ok (Found v)
          | None => Ok NotFound
          end
        else if (0 <=? s) && ((o <? 0) || (s <? o)) then
          match child node (PyStr.slice_to path s) with
          | Some v => resolve_fuel n' sep v (PyStr.slice_from path (s + PyStr.len sep))
          | None => Ok NotFound
          end
        else
          match parse_accessor path with
          | None => Ok NotFound
          | Some (subKey, content, after) =>
              let rest := skip_separator sep after in
              let target := if String.eqb subKey "" then Some node
                            else child node subKey in
              match target with
              | Some (JList l) =>
                  if PyStr.isdecimal content then
                    match nth_error l (Z.to_nat (PyStr.digits_value content)) with
                    | Some e => resolve_fuel n' sep e rest
                    | None => Ok NotFound
                    end
                  else
                    match PyStr.split1 "=" content with
                    | [name; payload] =>
                        bytes <- Base64.b64decode payload ;;
                        v <- Base64.decode bytes ;;
                        (fix scan (l : list json) : res lookup :=
                           match l with
                           | [] => Ok NotFound
                           | e :: l' =>
                               r <- resolve_fuel n' sep e name ;;
                               match r with
                               | Found x =>
                                   if String.eqb (Py.str x) v
                                   then resolve_fuel n' sep e rest
                                   else scan l'
                               | NotFound => scan l'
                               end
                           end) l
                    | _ => Ok NotFound
                    end
              | _ => Ok NotFound
              end
          end
  end.

(** Every recursive call is on a shorter path, so the length of the path
    bounds the depth. *)
Definition resolve (tree : json) (path sep : string) : res lookup :=
  resolve_fuel (S (String.length path)) sep tree path.

(** The node that plain keys lead to, one mapping after the other. *)
Fixpoint walk (node : json) (keys : list string) : option json :=
  match keys with
  | [] => Some node
  | k :: rest =>
      match child node k with
      | Some c => walk c rest
      | None => None
      end
  end.

End Spec.

(** ** Notions used in the statements *)

(** [if c1: fail] / [elif c2: fail] / [else: pass]: whether the rule
    fails. *)
Definition fails (c1 c2 : res bool) : res bool :=
  b1 <- c1 ;;
  if b1 then Ok true else c2.

(** Whether [checkThreshold] puts its text in the failure: the tests of
    its three branches, without the texts. *)
Definition threshold_fails (fuel : nat) (h : JsonHelper) (key r : string)
  : res bool :=
  let invert := PyStr.startswith r "@" in
  let r := if invert then PyStr.slice_from r 1 else r in
  let (start, end_) := range_bounds r in
  if Py.is_str "~" start then
    fails (and_then invert (lte fuel h key end_))
          (and_then (negb invert) (gt fuel h key end_))
  else if Py.is_str "infinity" end_ then
    fails (and_then invert (gte fuel h key start))
          (and_then (negb invert) (lt fuel h key start))
  else
    fails (a <- and_then invert (gte fuel h key start) ;;
           and_then a (lte fuel h key end_))
          (and_then (negb invert)
             (a <- lt fuel h key start ;;
              if a then Ok true else gt fuel h key end_)).

(** The verdicts of a range and of its inversion: whenever both checks
    return, the range passes exactly when [inside] holds and its
    inversion passes exactly when it does not, so one passes exactly
    when the other fails. *)
Definition complementary (plain inverted : res (string * string))
  (inside : Prop) : Prop :=
  forall f1 s1 f2 s2,
    plain = Ok (f1, s1) -> inverted = Ok (f2, s2) ->
    (f1 = "" <-> inside) /\ (f2 = "" <-> ~ inside) /\ (f2 = "" <-> f1 <> "").

(** A text that, when it is computed, is not empty. *)
Definition texted (m : res string) : Prop := forall t, m = Ok t -> t <> "".

(** A segment that is a plain key: it has neither the separator [c] nor
    an open marker. *)
Definition plain (c : ascii) (k : string) : Prop :=
  PyStr.has_char c k = false /\ PyStr.has_char "(" k = false.

(** The field types [TypeHelper] accepts. *)
Definition valid_field_type (ft : string) : bool :=
  String.eqb ft "size" || String.eqb (PyStr.lower ft) "si" || String.eqb ft "str".

(** ** The main program

    The part of the program entry point around the fetch: the URL it
    builds from the command line, and what it does with the outcome of
    the [try] block, which is an HTTP error, a URL error, or the document
    that [json.loads] returns. *)

(** The arguments the URL is built from; an option that was not given is
    [None]. *)
Record Endpoint : Type := mkEndpoint {
  ssl : bool;
  host : string;
  port : option string;
  path : option string
}.

(** [if x: url += sep + x] for an optional argument [x]. *)
Definition url_part (sep : string) (x : option string) : string :=
  match x with
  | Some v => if nonempty v then sep ++ v else ""
  | None => ""
  end.

Definition build_url (e : Endpoint) : string :=
  let url := (if ssl e then "https://" else "http://") ++ host e in
  let url := url ++ url_part ":" (port e) in
  url ++ url_part "/" (path e).

(** The outcome of the [try] block: [HTTPError] with its code,
    [URLError] with the text of its reason, or the parsed document. *)
Inductive fetched : Type :=
| HTTPError_raised (code : Z)
| URLError_raised (reason : string)
| Loaded (data : json).

(** What is printed and the exit code. *)
Definition program (fuel : nat) (e : Endpoint) (args : Rules) (outcome : fetched)
  : res (string * Z) :=
  let nagios := nagios_init in
  let url := build_url e in
  nagios <-
    match outcome with
    | HTTPError_raised code =>
        Ok (append_unknown nagios
              ("HTTPError[" ++ PyStr.of_Z code ++ "], url:" ++ url) "")
    | URLError_raised reason =>
        Ok (append_critical nagios
              ("URLError[" ++ reason ++ "], url:" ++ url) "")
    | Loaded data =>
        let processor := processor_init data args in
        w <- checkWarning fuel processor ;;
        let nagios := append_warning nagios (fst w) (snd w) in
        c <- checkCritical fuel processor ;;
        let nagios := append_critical nagios (fst c) (snd c) in
        m <- checkMetrics fuel processor ;;
        Ok (append_metrics nagios (fst (fst m)) (snd (fst m)) (snd m))
    end ;;
  Ok (getMessage nagios, getCode nagios).

(** The tables of [TypeHelper], largest unit first. *)
Definition size_units : list (Z * string) :=
  [(1024 ^ 5, " PiB"); (1024 ^ 4, " TiB"); (1024 ^ 3, " GiB");
   (1024 ^ 2, " MiB"); (1024 ^ 1, " KiB"); (1024 ^ 0, " bytes")].

Definition si_units : list (Z * string) :=
  [(1000 ^ 5, "P"); (1000 ^ 4, "T"); (1000 ^ 3, "G");
   (1000 ^ 2, "M"); (1000 ^ 1, "K"); (1000 ^ 0, "B")].

(** The text of a failed existence rule. *)
Definition missing_text (k : string) : string :=
  " Key " ++ snd (_getKeyAlias k) ++ " did not exist.".

(** An element of a searched list resolves [n] to a value whose text is
    not [v], and one that resolves [n] to a value whose text is [v]. *)
Definition differs (self : JsonHelper) (fuel : nat) (n v : string) (e : json)
  : Prop :=
  exists r, get fuel self n e = Ok r /\ String.eqb (Py.str_lookup r) v = false.

Definition matches (self : JsonHelper) (fuel : nat) (n v : string) (e : json)
  : Prop :=
  exists r, get fuel self n e = Ok r /\ String.eqb (Py.str_lookup r) v = true.

(** Whether the key of an existence rule is not found. *)
Definition key_missing (fuel : nat) (h : JsonHelper) (k : string) : bool :=
  match exists_ fuel h (fst (_getKeyAlias k)) with
  | Ok true => false
  | _ => true
  end.

(** ** Sample documents and processors *)

(** [{"metric": v}], the document of the unit tests. *)
Definition metric_doc (v : Z) : json := JDict [("metric", JInt v)].

(** [{"a": {}, "b": 1}] *)
Definition empty_child_doc : json := JDict [("a", JDict []); ("b", JInt 1)].

(** [{"a": [[{"c": 1}, {"c": 2}]]}] *)
Definition nested_list_doc : json :=
  JDict [("a", JList [JList [JDict [("c", JInt 1)]; JDict [("c", JInt 2)]]])].

(** [{"beans": [{"name": "x", "v": 1}, {"name": "AB", "v": 2}], "metric": 5}] *)
Definition beans_doc : json :=
  JDict [("beans", JList [JDict [("name", JStr "x"); ("v", JInt 1)];
                          JDict [("name", JStr "AB"); ("v", JInt 2)]]);
         ("metric", JInt 5)].

(** [[{"gauges": {"jvm.buffers.direct.capacity": [{"value": 215415}, {"value": 1234}]}}]] *)
Definition gauges_doc : json :=
  JList [JDict [("gauges",
    JDict [("jvm.buffers.direct.capacity",
            JList [JDict [("value", JInt 215415)]; JDict [("value", JInt 1234)]])])]].

(** The ranges of [test_warning_thresholds] and
    [test_critical_thresholds] with the value of [metric]: the first
    eight pass, the last eight fail. *)
Definition threshold_cases : list (string * Z) :=
  [("metric,5", 5); ("metric,5:", 5); ("metric,~:5", 5); ("metric,1:5", 5);
   ("metric,@5", 6); ("metric,@5:", 4); ("metric,@~:5", 6); ("metric,@1:5", 6);
   ("metric,5", 6); ("metric,5:", 4); ("metric,~:5", 6); ("metric,1:5", 6);
   ("metric,@5", 5); ("metric,@5:", 5); ("metric,@~:5", 5); ("metric,@1:5", 5)].

(** [{"a": {"b": 0}}] *)
Definition deep_doc : json := JDict [("a", JDict [("b", JInt 0)])].

(** The list at [beans] in [beans_doc]. *)
Definition bean_x : json := JDict [("name", JStr "x"); ("v", JInt 1)].
Definition bean_AB : json := JDict [("name", JStr "AB"); ("v", JInt 2)].

(** [{"metric": f}] for a float [f]. *)
Definition float_doc (f : spec_float) : json := JDict [("metric", JFloat f)].

(** The float 5.5 *)
Definition five_and_a_half : spec_float :=
  Eval vm_compute in PyFloat.of_decimal false 55 (-1).

(** [http://localhost:8080/jmx] *)
Definition sample_endpoint : Endpoint :=
  mkEndpoint false "localhost" (Some "8080") (Some "jmx").

Definition str_processor (doc : json) : JsonRuleProcessor :=
  processor_init doc RulesHelper.

Definition size_processor (doc : json) : JsonRuleProcessor :=
  processor_init doc (with_field_type "size" RulesHelper).


(** * Properties *)

(** ** The unit tests of the program, run on the embedding *)

Example test_metrics :
  map (fun m => check_data 9 (dash_m [m] RulesHelper) (metric_doc 5))
    ["metric,,1:4,1:5"; "metric,,1:5,1:4"; "metric,,1:5,1:5,6,10";
     "metric,,1:5,1:5,1,4"; "metric,s,@1:4,@6:10,1,10"]
  = [Ok WARNING_CODE; Ok CRITICAL_CODE; Ok CRITICAL_CODE; Ok CRITICAL_CODE;
     Ok OK_CODE].
Proof. vm_compute. reflexivity. Qed.

Example test_exists :
  check_data 9 (dash_e ["nothere"] RulesHelper) (metric_doc 5) = Ok WARNING_CODE
  /\ check_data 9 (dash_E ["nothere"] RulesHelper) (metric_doc 5) = Ok CRITICAL_CODE
  /\ check_data 9 (dash_e ["metric"] RulesHelper) (metric_doc 5) = Ok OK_CODE.
Proof. repeat split; vm_compute; reflexivity. Qed.

Example test_equality :
  check_data 9 (dash_q ["metric,6"] RulesHelper) (metric_doc 5) = Ok WARNING_CODE
  /\ check_data 9 (dash_Q ["metric,6"] RulesHelper) (metric_doc 5) = Ok CRITICAL_CODE
  /\ check_data 9 (dash_q ["metric,5"] RulesHelper) (metric_doc 5) = Ok OK_CODE.
Proof. repeat split; vm_compute; reflexivity. Qed.

Example test_warning_thresholds :
  map (fun rv => check_data 9 (dash_w [fst rv] RulesHelper) (metric_doc (snd rv)))
    threshold_cases
  = (repeat (Ok OK_CODE) 8 ++ repeat (Ok WARNING_CODE) 8)%list.
Proof. vm_compute. reflexivity. Qed.

Example test_critical_thresholds :
  map (fun rv => check_data 9 (dash_c [fst rv] RulesHelper) (metric_doc (snd rv)))
    threshold_cases
  = (repeat (Ok OK_CODE) 8 ++ repeat (Ok CRITICAL_CODE) 8)%list.
Proof. vm_compute. reflexivity. Qed.

Example test_separator :
  check_data 9
    (dash_q ["(0)_gauges_jvm.buffers.direct.capacity(1)_value,1234"]
       (with_separator "_" RulesHelper))
    gauges_doc = Ok OK_CODE.
Proof. vm_compute. reflexivity. Qed.

(** ** Strings *)

Lemma substring_all (s : string) : substring 0 (String.length s) s = s.
Proof. induction s as [|c s IH]; simpl; [reflexivity | now rewrite IH]. Qed.

Lemma slice_from_cons (c : ascii) (s : string) :
  PyStr.slice_from (String c s) 1 = s.
Proof.
  unfold PyStr.slice_from, PyStr.slice, PyStr.clamp, PyStr.len.
  cbn [String.length].
  replace (1 <? 0) with false by reflexivity.
  destruct (Z.ltb_spec (Z.of_nat (S (String.length s))) 0) as [H|H]; [lia|].
  rewrite Z.min_id, Z.min_l by lia.
  replace (Z.to_nat (Z.of_nat (S (String.length s)) - 1)) with (String.length s) by lia.
  change (Z.to_nat 1) with 1%nat. cbn [substring].
  apply substring_all.
Qed.

Lemma split_without (c : ascii) (s : string) :
  PyStr.has_char c s = false -> PyStr.split c s = [s].
Proof.
  induction s as [|a s IH]; simpl; intros H; [reflexivity|].
  apply orb_false_iff in H as [Ha Hs].
  rewrite Ha, (IH Hs). reflexivity.
Qed.

Lemma split_app (c : ascii) (a b : string) :
  PyStr.has_char c a = false ->
  PyStr.split c (a ++ String c b) = a :: PyStr.split c b.
Proof.
  induction a as [|x a IH]; simpl; intros H.
  - now rewrite Ascii.eqb_refl.
  - apply orb_false_iff in H as [Hx Ha].
    rewrite Hx, (IH Ha). reflexivity.
Qed.

Lemma has_char_app (c : ascii) (a b : string) :
  PyStr.has_char c (a ++ b) = PyStr.has_char c a || PyStr.has_char c b.
Proof.
  induction a as [|x a IH]; simpl; [reflexivity|].
  now rewrite IH, orb_assoc.
Qed.

Lemma nonempty_true (s : string) : nonempty s = true <-> s <> "".
Proof.
  unfold nonempty. destruct (String.eqb_spec s ""); simpl; split; congruence.
Qed.

Lemma nonempty_false (s : string) : nonempty s = false <-> s = "".
Proof.
  unfold nonempty. destruct (String.eqb_spec s ""); simpl; split; congruence.
Qed.

Lemma app_empty (a b : string) : a ++ b = "" <-> a = "" /\ b = "".
Proof.
  destruct a; simpl; split.
  - intros ->. now split.
  - now intros [_ ->].
  - discriminate.
  - intros [H _]. discriminate.
Qed.

(** ** Severity *)

(** C5. The code of a [NagiosHelper] with any texts is UNKNOWN when the
    unknown text is not empty, else CRITICAL when the critical text is
    not empty, else WARNING when the warning text is not empty, else OK.
    So a warning text together with a critical text gives CRITICAL, and
    an unknown text gives UNKNOWN whatever the other texts are. *)
Theorem getCode_precedence (self : NagiosHelper)
  (st pd w c u : string) (x y : ascii) :
  getCode self =
    (if nonempty (unknown_message self) then UNKNOWN_CODE
     else if nonempty (critical_message self) then CRITICAL_CODE
     else if nonempty (warning_message self) then WARNING_CODE
     else OK_CODE)
  /\ getCode (mkNagios st pd (String x w) (String y c) "") = CRITICAL_CODE
  /\ getCode (mkNagios st pd w c (String x u)) = UNKNOWN_CODE.
Proof.
  split; [|split].
  - unfold getCode.
    destruct (nonempty (unknown_message self)),
      (nonempty (critical_message self)), (nonempty (warning_message self));
      reflexivity.
  - reflexivity.
  - unfold getCode. cbn [unknown_message critical_message warning_message].
    change (nonempty (String x u)) with true.
    destruct (nonempty c), (nonempty w); reflexivity.
Qed.

(** ** Thresholds *)

Section ThresholdFacts.

Variable fuel : nat.
Variable self : JsonRuleProcessor.

Lemma compare_found op key value v :
  get_key fuel (helper self) key = Ok (Found v) ->
  compare fuel (helper self) op key value =
    (x <- Py.float v ;; y <- Py.float value ;; Ok (op x y)).
Proof.
  intros H. unfold compare, exists_. rewrite H. reflexivity.
Qed.

Lemma compare_notfound op key value :
  get_key fuel (helper self) key = Ok NotFound ->
  compare fuel (helper self) op key value = Ok false.
Proof.
  intros H. unfold compare, exists_. rewrite H. reflexivity.
Qed.

Lemma and_then_false (a : bool) : and_then a (Ok false) = Ok false.
Proof. now destruct a. Qed.

Lemma texted_bind (c : res string) (k : string -> string) :
  (forall x, k x <> "") -> texted (x <- c ;; Ok (k x)).
Proof.
  intros Hk t. destruct c; simpl; try discriminate.
  intros [= <-]. apply Hk.
Qed.

Lemma texted_bind2 (c d : res string) (k : string -> string -> string) :
  (forall x y, k x y <> "") -> texted (x <- c ;; y <- d ;; Ok (k x y)).
Proof.
  intros Hk t. destruct c; simpl; try discriminate.
  destruct d; simpl; try discriminate.
  intros [= <-]. apply Hk.
Qed.

Lemma if_elif_else_fails c1 c2 m1 m2 m3 f s :
  texted m1 -> texted m2 ->
  if_elif_else c1 c2 m1 m2 m3 = Ok (f, s) ->
  exists b, fails c1 c2 = Ok b /\ (f = "" <-> b = false).
Proof.
  intros H1 H2. unfold if_elif_else, fails.
  destruct c1 as [[|]| |]; simpl; try discriminate.
  - destruct m1 as [t| |] eqn:E; simpl; try discriminate.
    intros [= <- <-]. exists true. split; [reflexivity|].
    split; [intros ->; now destruct (H1 "") | discriminate].
  - destruct c2 as [[|]| |]; simpl; try discriminate.
    + destruct m2 as [t| |] eqn:E; simpl; try discriminate.
      intros [= <- <-]. exists true. split; [reflexivity|].
      split; [intros ->; now destruct (H2 "") | discriminate].
    + destruct m3 as [t| |]; simpl; try discriminate.
      intros [= <- <-]. exists false. now split.
Qed.

Lemma checkThreshold_fails key alias r f s :
  checkThreshold fuel self key alias r = Ok (f, s) ->
  exists b, threshold_fails fuel (helper self) key r = Ok b /\ (f = "" <-> b = false).
Proof.
  unfold checkThreshold, threshold_fails.
  destruct (range_bounds _) as [start end_].
  destruct (get_key fuel (helper self) key) as [v| |]; simpl; try discriminate.
  destruct (th self v) as [key_val| |]; simpl; try discriminate.
  destruct (Py.is_str "~" start); [|destruct (Py.is_str "infinity" end_)];
    apply if_elif_else_fails;
    first [apply texted_bind | apply texted_bind2]; intros; discriminate.
Qed.

End ThresholdFacts.

Lemma TypeHelper_str (x : lookup) : TypeHelper x "str" = Ok (Py.str_lookup x).
Proof. reflexivity. Qed.

Lemma prefix_empty (s : string) : prefix "" s = true.
Proof. now destruct s. Qed.

Lemma startswith_at (r : string) : PyStr.startswith ("@" ++ r) "@" = true.
Proof. unfold PyStr.startswith. cbn. apply prefix_empty. Qed.

Section ThresholdVerdicts.

Variable fuel : nat.
Variable h : JsonHelper.
Variable key : string.

Lemma threshold_fails_plain r :
  PyStr.startswith r "@" = false ->
  threshold_fails fuel h key r =
    let (start, end_) := range_bounds r in
    if Py.is_str "~" start then gt fuel h key end_
    else if Py.is_str "infinity" end_ then lt fuel h key start
    else (a <- lt fuel h key start ;; if a then Ok true else gt fuel h key end_).
Proof.
  intros H. unfold threshold_fails. rewrite H.
  destruct (range_bounds r) as [start end_]. reflexivity.
Qed.

Lemma threshold_fails_inverted r :
  threshold_fails fuel h key ("@" ++ r) =
    let (start, end_) := range_bounds r in
    if Py.is_str "~" start then
      fails (lte fuel h key end_) (Ok false)
    else if Py.is_str "infinity" end_ then
      fails (gte fuel h key start) (Ok false)
    else
      fails (a <- gte fuel h key start ;; and_then a (lte fuel h key end_))
            (Ok false).
Proof.
  unfold threshold_fails. rewrite startswith_at.
  change ("@" ++ r) with (String "@" r). rewrite slice_from_cons.
  destruct (range_bounds r) as [start end_]. reflexivity.
Qed.

Lemma fails_false (c : res bool) : fails c (Ok false) = c.
Proof. destruct c as [[|]| |]; reflexivity. Qed.

Variable v : json.
Hypothesis Hget : get_key fuel h key = Ok (Found v).

Lemma compare_value op value :
  compare fuel h op key value =
    (x <- Py.float v ;; y <- Py.float value ;; Ok (op x y)).
Proof. unfold compare, exists_. rewrite Hget. reflexivity. Qed.

End ThresholdVerdicts.

(** C10 as the code has it: in [str] mode a threshold rule on a key that
    resolves to NotFound, whatever its range, returns an empty failure
    text and a success text. *)
Theorem missing_key_passes_in_str_mode fuel self key alias r :
  field_type (rules self) = "str" ->
  get_key fuel (helper self) key = Ok NotFound ->
  exists s, checkThreshold fuel self key alias r = Ok ("", s) /\ s <> "".
Proof.
  intros Hft Hget. unfold checkThreshold.
  destruct (range_bounds _) as [start end_].
  rewrite Hget. unfold th. rewrite Hft. cbn [bind]. rewrite !TypeHelper_str. cbn [bind].
  unfold lte, lt, gte, gt. rewrite !(compare_notfound fuel self) by assumption.
  rewrite !and_then_false. cbn [bind]. rewrite !and_then_false.
  destruct (Py.is_str "~" start); [|destruct (Py.is_str "infinity" end_)];
    unfold if_elif_else; cbn [bind];
    eexists; (split; [reflexivity | discriminate]).
Qed.

(** ** Ranges and their bounds *)

Lemma range_bounds_single (A : string) :
  PyStr.has_char ":" A = false -> range_bounds A = (JInt 0, JStr A).
Proof. intros H. unfold range_bounds. now rewrite (split_without _ _ H). Qed.

Lemma range_bounds_pair (A B : string) :
  PyStr.has_char ":" A = false -> PyStr.has_char ":" B = false ->
  range_bounds (A ++ ":" ++ B) =
    (JStr A, if nonempty B then JStr B else JStr "infinity").
Proof.
  intros HA HB. unfold range_bounds.
  change (A ++ ":" ++ B) with (A ++ String ":" B).
  now rewrite (split_app _ _ _ HA), (split_without _ _ HB).
Qed.

Lemma all_digits_tail (s : string) :
  PyStr.all_digits s = true -> Py.digits_tail s = "".
Proof.
  induction s as [|c s IH]; simpl; [reflexivity|].
  intros H. apply andb_true_iff in H as [Hc Hs]. now rewrite Hc, IH.
Qed.

Lemma isdecimal_digitpart (s : string) :
  PyStr.isdecimal s = true -> Py.digitpart s = Some "".
Proof.
  destruct s as [|c s]; simpl; [discriminate|].
  intros H. apply andb_true_iff in H as [Hc Hs].
  now rewrite Hc, all_digits_tail.
Qed.

Lemma TypeHelper_returns (ft : string) (x : lookup) (z : Z) :
  valid_field_type ft = true ->
  Py.int_lookup x = Ok z -> Py.exact z = true ->
  exists t, TypeHelper x ft = Ok t.
Proof.
  unfold valid_field_type, TypeHelper, get_size. intros Hft Hx Hz.
  destruct (String.eqb ft "size").
  - rewrite Hx. cbn [bind]. rewrite Hz. eauto.
  - destruct (String.eqb (PyStr.lower ft) "si").
    + rewrite Hx. cbn [bind]. rewrite Hz. eauto.
    + simpl in Hft. rewrite Hft. eauto.
Qed.

Lemma TypeHelper_valid (ft : string) (x : lookup) (t : string) :
  TypeHelper x ft = Ok t -> valid_field_type ft = true.
Proof.
  unfold valid_field_type, TypeHelper.
  destruct (String.eqb ft "size"); [reflexivity|].
  destruct (String.eqb (PyStr.lower ft) "si"); [reflexivity|].
  destruct (String.eqb ft "str"); [reflexivity | discriminate].
Qed.

Lemma TypeHelper_zero (ft : string) :
  TypeHelper (Found (JInt 0)) ft = TypeHelper (Found (JStr "0")) ft.
Proof.
  unfold TypeHelper.
  destruct (String.eqb ft "size"); [reflexivity|].
  destruct (String.eqb (PyStr.lower ft) "si"); reflexivity.
Qed.

Lemma float_zero : Py.float (JInt 0) = Ok PyFloat.zero.
Proof. reflexivity. Qed.

Lemma float_zero_text : Py.float (JStr "0") = Ok PyFloat.zero.
Proof. vm_compute. reflexivity. Qed.

Lemma compare_zero fuel h op key :
  compare fuel h op key (JInt 0) = compare fuel h op key (JStr "0").
Proof. unfold compare. now rewrite float_zero, float_zero_text. Qed.

Lemma if_elif_else_returns c1 c2 m1 m2 m3 b t1 t2 t3 :
  fails c1 c2 = Ok b -> m1 = Ok t1 -> m2 = Ok t2 -> m3 = Ok t3 ->
  exists f s, if_elif_else c1 c2 m1 m2 m3 = Ok (f, s).
Proof.
  unfold fails, if_elif_else. intros H -> -> ->.
  destruct c1 as [[|]| |]; simpl in *; try discriminate; eauto.
  destruct c2 as [[|]| |]; simpl in *; try discriminate; eauto.
Qed.

(** The single token [A] denotes the same check as [0:A], texts and
    exceptions included. *)
Lemma single_token_same_check fuel self key alias A :
  A <> "" -> PyStr.has_char ":" A = false -> PyStr.startswith A "@" = false ->
  checkThreshold fuel self key alias A =
  checkThreshold fuel self key alias ("0:" ++ A).
Proof.
  intros HA Hc Hat. unfold checkThreshold.
  replace (PyStr.startswith ("0:" ++ A) "@") with false by reflexivity.
  rewrite Hat, (range_bounds_single A Hc).
  change ("0:" ++ A) with ("0" ++ ":" ++ A).
  rewrite (range_bounds_pair "0" A eq_refl Hc).
  apply nonempty_true in HA. rewrite HA.
  unfold lte, lt, gte, gt, th. rewrite !compare_zero, !TypeHelper_zero.
  reflexivity.
Qed.

Lemma startswith_range (A B : string) :
  PyStr.startswith A "@" = false ->
  PyStr.startswith (A ++ ":" ++ B) "@" = false.
Proof.
  unfold PyStr.startswith. destruct A as [|a A']; [reflexivity|].
  cbn [prefix append]. destruct (ascii_dec "@" a); [|reflexivity].
  now rewrite !prefix_empty.
Qed.

(** ** The order of floats *)

Lemma SFcompare_antisym (x y : spec_float) :
  SFcompare y x = option_map CompOpp (SFcompare x y).
Proof.
  destruct x as [sx|sx| |sx mx ex], y as [sy|sy| |sy my ey]; cbn [SFcompare option_map];
    try reflexivity;
    try (destruct sx, sy; reflexivity);
    try (destruct sx; reflexivity); try (destruct sy; reflexivity).
  assert (Hm : Pos.compare_cont Eq my mx = CompOpp (Pos.compare_cont Eq mx my))
    by exact (eq_sym (Pos.compare_cont_antisym mx my Eq)).
  destruct sx, sy; cbn [CompOpp]; try reflexivity;
    rewrite (Z.compare_antisym ex ey);
    destruct (ex ?= ey)%Z; cbn [CompOpp]; try reflexivity;
    now rewrite Hm.
Qed.

Lemma SFcompare_numbers (x y : spec_float) :
  PyFloat.is_nan x = false -> PyFloat.is_nan y = false -> SFcompare x y <> None.
Proof. destruct x, y; cbn; intros; discriminate. Qed.

(** For numbers, [x < y] is the negation of [x >= y] and [x > y] that
    of [x <= y]. *)
Lemma lt_not_ge (x y : spec_float) :
  PyFloat.is_nan x = false -> PyFloat.is_nan y = false ->
  PyFloat.lt x y = negb (PyFloat.ge x y).
Proof.
  intros Hx Hy. unfold PyFloat.lt, PyFloat.ge, SFltb, SFleb.
  rewrite (SFcompare_antisym x y).
  pose proof (SFcompare_numbers x y Hx Hy).
  destruct (SFcompare x y) as [[]|]; cbn; congruence.
Qed.

Lemma gt_not_le (x y : spec_float) :
  PyFloat.is_nan x = false -> PyFloat.is_nan y = false ->
  PyFloat.gt x y = negb (PyFloat.le x y).
Proof.
  intros Hx Hy. unfold PyFloat.gt, PyFloat.le, SFltb, SFleb.
  rewrite (SFcompare_antisym x y).
  pose proof (SFcompare_numbers x y Hx Hy).
  destruct (SFcompare x y) as [[]|]; cbn; congruence.
Qed.

(** Every comparison with NaN is false. *)
Lemma compare_nan (x y : spec_float) :
  PyFloat.is_nan x = true \/ PyFloat.is_nan y = true ->
  PyFloat.lt x y = false /\ PyFloat.le x y = false
  /\ PyFloat.gt x y = false /\ PyFloat.ge x y = false.
Proof.
  intros [H|H]; [destruct x; try discriminate | destruct y; try discriminate];
    unfold PyFloat.lt, PyFloat.le, PyFloat.gt, PyFloat.ge, SFltb, SFleb;
    [destruct y | destruct x]; repeat split; reflexivity.
Qed.

Lemma gt_infinity (x : spec_float) : PyFloat.gt x (S754_infinity false) = false.
Proof. destruct x as [s|[|]| |s m e]; reflexivity. Qed.

Lemma le_infinity (x : spec_float) :
  PyFloat.is_nan x = false -> PyFloat.le x (S754_infinity false) = true.
Proof. destruct x as [s|[|]| |[|] m e]; try reflexivity; discriminate. Qed.

Lemma ge_number (x y : spec_float) :
  PyFloat.ge x y = true -> PyFloat.is_nan x = false.
Proof. destruct x; try reflexivity. destruct y; discriminate. Qed.

(** ** The bands of the four range forms

    For a key that resolves to a value that [float()] converts to [x]
    and bounds that it converts to [a] and [b]: the single token [A]
    fails below 0 and above [a], [A:B] fails below [a] and above [b],
    [A:] fails below [a], [~:B] fails above [b]; the inverted forms fail
    inside these bands, bounds included. *)

Section Bands.

Variable fuel : nat.
Variable h : JsonHelper.
Variable key : string.
Variable v : json.
Variable x : spec_float.
Hypothesis Hget : get_key fuel h key = Ok (Found v).
Hypothesis Hx : Py.float v = Ok x.

Lemma compare_numbers op (bound : json) (b : spec_float) :
  Py.float bound = Ok b ->
  compare fuel h op key bound = Ok (op x b).
Proof.
  intros Hb. rewrite (compare_value _ _ _ _ Hget), Hx. cbn [bind].
  now rewrite Hb.
Qed.

Lemma float_tilde : Py.float (JStr "~") = Raise ValueError.
Proof. vm_compute. reflexivity. Qed.

Lemma float_empty : Py.float (JStr "") = Raise ValueError.
Proof. vm_compute. reflexivity. Qed.

Lemma float_infinity : Py.float (JStr "infinity") = Ok (S754_infinity false).
Proof. vm_compute. reflexivity. Qed.

Lemma numeric_not_tilde (A : string) (a : spec_float) :
  Py.float (JStr A) = Ok a -> Py.is_str "~" (JStr A) = false.
Proof.
  intros H. simpl. destruct (String.eqb_spec A "~") as [->|]; [|reflexivity].
  rewrite float_tilde in H. discriminate.
Qed.

Lemma numeric_nonempty (B : string) (b : spec_float) :
  Py.float (JStr B) = Ok b -> nonempty B = true.
Proof.
  intros H. apply nonempty_true. intros ->. rewrite float_empty in H. discriminate.
Qed.

Lemma band_single (A : string) (a : spec_float) :
  PyStr.has_char ":" A = false ->
  PyStr.startswith A "@" = false ->
  Py.float (JStr A) = Ok a ->
  threshold_fails fuel h key A
    = Ok (PyFloat.lt x PyFloat.zero || PyFloat.gt x a)
  /\ threshold_fails fuel h key ("@" ++ A)
     = Ok (PyFloat.ge x PyFloat.zero && PyFloat.le x a).
Proof.
  intros HA Hat Ha.
  rewrite threshold_fails_inverted, threshold_fails_plain by assumption.
  rewrite (range_bounds_single A HA).
  change (Py.is_str "~" (JInt 0)) with false. cbv iota.
  rewrite !fails_false. unfold lt, gt, gte, lte.
  rewrite !(compare_numbers _ (JInt 0) PyFloat.zero float_zero).
  destruct (Py.is_str "infinity" (JStr A)) eqn:Hinf.
  - simpl in Hinf. apply String.eqb_eq in Hinf. subst A.
    rewrite float_infinity in Ha. injection Ha as <-.
    rewrite gt_infinity, orb_false_r. split; [reflexivity|].
    destruct (PyFloat.ge x PyFloat.zero) eqn:G; [|reflexivity].
    now rewrite (le_infinity x (ge_number _ _ G)).
  - rewrite !(compare_numbers _ (JStr A) a Ha). cbn [bind]. split.
    + now destruct (PyFloat.lt x PyFloat.zero).
    + now destruct (PyFloat.ge x PyFloat.zero).
Qed.

Lemma band_between (A B : string) (a b : spec_float) :
  PyStr.has_char ":" A = false -> PyStr.has_char ":" B = false ->
  PyStr.startswith A "@" = false ->
  Py.float (JStr A) = Ok a -> Py.float (JStr B) = Ok b ->
  threshold_fails fuel h key (A ++ ":" ++ B)
    = Ok (PyFloat.lt x a || PyFloat.gt x b)
  /\ threshold_fails fuel h key ("@" ++ A ++ ":" ++ B)
     = Ok (PyFloat.ge x a && PyFloat.le x b).
Proof.
  intros HA HB Hat Ha Hb.
  rewrite threshold_fails_inverted, threshold_fails_plain by now apply startswith_range.
  rewrite (range_bounds_pair A B HA HB), (numeric_nonempty B b Hb),
    (numeric_not_tilde A a Ha).
  rewrite !fails_false. unfold lt, gt, gte, lte.
  rewrite !(compare_numbers _ (JStr A) a Ha).
  destruct (Py.is_str "infinity" (JStr B)) eqn:Hinf.
  - simpl in Hinf. apply String.eqb_eq in Hinf. subst B.
    rewrite float_infinity in Hb. injection Hb as <-.
    rewrite gt_infinity, orb_false_r. split; [reflexivity|].
    destruct (PyFloat.ge x a) eqn:G; [|reflexivity].
    now rewrite (le_infinity x (ge_number _ _ G)).
  - rewrite !(compare_numbers _ (JStr B) b Hb). cbn [bind]. split.
    + now destruct (PyFloat.lt x a).
    + now destruct (PyFloat.ge x a).
Qed.

Lemma band_from (A : string) (a : spec_float) :
  PyStr.has_char ":" A = false ->
  PyStr.startswith A "@" = false ->
  Py.float (JStr A) = Ok a ->
  threshold_fails fuel h key (A ++ ":") = Ok (PyFloat.lt x a)
  /\ threshold_fails fuel h key ("@" ++ A ++ ":") = Ok (PyFloat.ge x a).
Proof.
  intros HA Hat Ha.
  change (A ++ ":") with (A ++ ":" ++ "").
  rewrite threshold_fails_inverted, threshold_fails_plain by now apply startswith_range.
  rewrite (range_bounds_pair A "" HA eq_refl), (numeric_not_tilde A a Ha).
  cbn [nonempty String.eqb negb]. change (Py.is_str "infinity" (JStr "infinity")) with true.
  cbv iota. rewrite fails_false. unfold lt, gte.
  now rewrite !(compare_numbers _ (JStr A) a Ha).
Qed.

Lemma band_upto (B : string) (b : spec_float) :
  PyStr.has_char ":" B = false ->
  Py.float (JStr B) = Ok b ->
  threshold_fails fuel h key ("~:" ++ B) = Ok (PyFloat.gt x b)
  /\ threshold_fails fuel h key ("@" ++ "~:" ++ B) = Ok (PyFloat.le x b).
Proof.
  intros HB Hb.
  change ("~:" ++ B) with ("~" ++ ":" ++ B).
  rewrite threshold_fails_inverted, threshold_fails_plain by reflexivity.
  rewrite (range_bounds_pair "~" B eq_refl HB), (numeric_nonempty B b Hb).
  change (Py.is_str "~" (JStr "~")) with true. cbv iota.
  rewrite fails_false. unfold gt, lte.
  now rewrite !(compare_numbers _ (JStr B) b Hb).
Qed.

(** When [x] and the bounds are numbers, the tests of a range say
    whether [x] is in its band, and those of the inverted range are
    their negation. *)
Hypothesis x_number : PyFloat.is_nan x = false.

Lemma outside_between (a b : spec_float) :
  PyFloat.is_nan a = false -> PyFloat.is_nan b = false ->
  (PyFloat.lt x a || PyFloat.gt x b = false
   <-> PyFloat.le a x = true /\ PyFloat.le x b = true)
  /\ (PyFloat.ge x a && PyFloat.le x b = false
      <-> ~ (PyFloat.le a x = true /\ PyFloat.le x b = true)).
Proof.
  intros Ha Hb. rewrite (lt_not_ge x a x_number Ha), (gt_not_le x b x_number Hb).
  change (PyFloat.ge x a) with (PyFloat.le a x).
  destruct (PyFloat.le a x), (PyFloat.le x b); cbn; intuition congruence.
Qed.

Lemma outside_from (a : spec_float) :
  PyFloat.is_nan a = false ->
  (PyFloat.lt x a = false <-> PyFloat.le a x = true)
  /\ (PyFloat.ge x a = false <-> ~ PyFloat.le a x = true).
Proof.
  intros Ha. rewrite (lt_not_ge x a x_number Ha).
  change (PyFloat.ge x a) with (PyFloat.le a x).
  destruct (PyFloat.le a x); cbn; intuition congruence.
Qed.

Lemma outside_upto (b : spec_float) :
  PyFloat.is_nan b = false ->
  (PyFloat.gt x b = false <-> PyFloat.le x b = true)
  /\ (PyFloat.le x b = false <-> ~ PyFloat.le x b = true).
Proof.
  intros Hb. rewrite (gt_not_le x b x_number Hb).
  destruct (PyFloat.le x b); cbn; intuition congruence.
Qed.

End Bands.

Lemma complementary_verdicts fuel self key alias R (inside : Prop) b1 b2 :
  threshold_fails fuel (helper self) key R = Ok b1 ->
  threshold_fails fuel (helper self) key ("@" ++ R) = Ok b2 ->
  (b1 = false <-> inside) -> (b2 = false <-> ~ inside) ->
  complementary (checkThreshold fuel self key alias R)
    (checkThreshold fuel self key alias ("@" ++ R)) inside.
Proof.
  intros E1 E2 I1 I2 f1 s1 f2 s2 H1 H2.
  apply checkThreshold_fails in H1 as (c1 & C1 & F1).
  apply checkThreshold_fails in H2 as (c2 & C2 & F2).
  rewrite E1 in C1. rewrite E2 in C2. injection C1 as <-. injection C2 as <-.
  rewrite F1, F2. intuition.
Qed.

(** C3. A single token [A] (no colon, not inverted) is evaluated as the
    range [0:A], texts and exceptions included. For a value that
    [float()] converts to a number [x] and a token that it converts to a
    number [a], neither of them NaN, whenever [TypeHelper] forms the
    texts of the value and of the token (as it always does for the field
    type [str]), the check returns and passes exactly when
    [0 <= x <= a], so a value below 0 fails. *)
Theorem single_token_range fuel self key alias A v x a kv ta :
  PyStr.has_char ":" A = false ->
  PyStr.startswith A "@" = false ->
  get_key fuel (helper self) key = Ok (Found v) ->
  Py.float v = Ok x -> PyFloat.is_nan x = false ->
  Py.float (JStr A) = Ok a -> PyFloat.is_nan a = false ->
  th self (Found v) = Ok kv ->
  th self (Found (JStr A)) = Ok ta ->
  checkThreshold fuel self key alias A =
    checkThreshold fuel self key alias ("0:" ++ A)
  /\ exists f s,
       checkThreshold fuel self key alias A = Ok (f, s)
       /\ (f = "" <-> PyFloat.le PyFloat.zero x = true /\ PyFloat.le x a = true)
       /\ (PyFloat.lt x PyFloat.zero = true -> f <> "").
Proof.
  intros Hc Hat Hget Hx Hxn Ha Han Hkv Hta.
  pose proof (TypeHelper_valid _ _ _ Hkv) as Hft.
  assert (HA : A <> "") by (intros ->; rewrite float_empty in Ha; discriminate).
  split; [now apply single_token_same_check|].
  destruct (band_single fuel (helper self) key v x Hget Hx A a Hc Hat Ha) as [Hfails _].
  destruct (TypeHelper_returns _ (Found (JInt 0)) 0 Hft eq_refl eq_refl) as [ts Hts].
  assert (Hret : exists f s, checkThreshold fuel self key alias A = Ok (f, s)).
  { revert Hfails. unfold checkThreshold, threshold_fails.
    rewrite Hat, (range_bounds_single A Hc), Hget.
    cbn [bind]. rewrite Hkv. cbn [bind].
    change (Py.is_str "~" (JInt 0)) with false. cbv iota.
    unfold th in *. rewrite Hts, Hta. cbn [bind].
    destruct (Py.is_str "infinity" (JStr A));
      intros Hfails; eapply if_elif_else_returns; eauto. }
  destruct Hret as (f & s & Hfs). exists f, s. split; [exact Hfs|].
  apply checkThreshold_fails in Hfs as (b & Hb & Hiff).
  rewrite Hfails in Hb. injection Hb as <-.
  destruct (outside_between x Hxn PyFloat.zero a eq_refl Han) as [Hin _].
  rewrite Hiff, Hin. split; [tauto|].
  intros Hneg [Hf _].
  rewrite (lt_not_ge x PyFloat.zero Hxn eq_refl) in Hneg.
  change (PyFloat.ge x PyFloat.zero) with (PyFloat.le PyFloat.zero x) in Hneg.
  rewrite Hf in Hneg. discriminate.
Qed.

(** C4 as the code has it. For a key that resolves to a value that
    [float()] converts to a number [x], and bounds [A] and [B] that it
    converts to numbers [a] and [b], none of them NaN, each of the four
    forms, whenever it and its inversion both return, passes exactly
    when [x] is in its band, bounds included, and its inversion passes
    exactly when [x] is not: [A] has the band from 0 to [a], [A:] the
    band from [a] on, [~:B] the band up to [b], and [A:B] the band from
    [a] to [b]. *)
Theorem inverted_range_complements fuel self key alias v x A B a b :
  get_key fuel (helper self) key = Ok (Found v) ->
  Py.float v = Ok x -> PyFloat.is_nan x = false ->
  PyStr.has_char ":" A = false -> PyStr.has_char ":" B = false ->
  PyStr.startswith A "@" = false ->
  Py.float (JStr A) = Ok a -> PyFloat.is_nan a = false ->
  Py.float (JStr B) = Ok b -> PyFloat.is_nan b = false ->
  complementary (checkThreshold fuel self key alias A)
    (checkThreshold fuel self key alias ("@" ++ A))
    (PyFloat.le PyFloat.zero x = true /\ PyFloat.le x a = true)
  /\ complementary (checkThreshold fuel self key alias (A ++ ":"))
       (checkThreshold fuel self key alias ("@" ++ A ++ ":"))
       (PyFloat.le a x = true)
  /\ complementary (checkThreshold fuel self key alias ("~:" ++ B))
       (checkThreshold fuel self key alias ("@" ++ "~:" ++ B))
       (PyFloat.le x b = true)
  /\ complementary (checkThreshold fuel self key alias (A ++ ":" ++ B))
       (checkThreshold fuel self key alias ("@" ++ A ++ ":" ++ B))
       (PyFloat.le a x = true /\ PyFloat.le x b = true).
Proof.
  intros Hget Hx Hxn HA HB Hat Ha Han Hb Hbn.
  destruct (band_single fuel (helper self) key v x Hget Hx A a HA Hat Ha) as [S1 S2].
  destruct (band_from fuel (helper self) key v x Hget Hx A a HA Hat Ha) as [F1 F2].
  destruct (band_upto fuel (helper self) key v x Hget Hx B b HB Hb) as [U1 U2].
  destruct (band_between fuel (helper self) key v x Hget Hx A B a b HA HB Hat Ha Hb)
    as [B1 B2].
  destruct (outside_between x Hxn PyFloat.zero a eq_refl Han) as [OS1 OS2].
  destruct (outside_from x Hxn a Han) as [OF1 OF2].
  destruct (outside_upto x Hxn b Hbn) as [OU1 OU2].
  destruct (outside_between x Hxn a b Han Hbn) as [OB1 OB2].
  split; [|split; [|split]].
  - exact (complementary_verdicts _ _ _ _ _ _ _ _ S1 S2 OS1 OS2).
  - exact (complementary_verdicts _ _ _ _ _ _ _ _ F1 F2 OF1 OF2).
  - exact (complementary_verdicts _ _ _ _ _ _ _ _ U1 U2 OU1 OU2).
  - exact (complementary_verdicts _ _ _ _ _ _ _ _ B1 B2 OB1 OB2).
Qed.

(** ** The field type does not decide a verdict *)

Section TwoModes.

Variable fuel : nat.
Variables p1 p2 : JsonRuleProcessor.
Hypothesis same_helper : helper p1 = helper p2.

Lemma checkThreshold_same_verdict key alias r f1 s1 f2 s2 :
  checkThreshold fuel p1 key alias r = Ok (f1, s1) ->
  checkThreshold fuel p2 key alias r = Ok (f2, s2) ->
  (f1 = "" <-> f2 = "").
Proof.
  intros H1 H2.
  apply checkThreshold_fails in H1 as (b1 & E1 & F1).
  apply checkThreshold_fails in H2 as (b2 & E2 & F2).
  rewrite same_helper in E1. rewrite E1 in E2. injection E2 as ->.
  now rewrite F1, F2.
Qed.

Lemma checkThresholds_from_same_verdict l :
  forall fa1 sa1 fa2 sa2 f1 s1 f2 s2,
  (fa1 = "" <-> fa2 = "") ->
  checkThresholds_from fuel p1 l fa1 sa1 = Ok (f1, s1) ->
  checkThresholds_from fuel p2 l fa2 sa2 = Ok (f2, s2) ->
  (f1 = "" <-> f2 = "").
Proof.
  induction l as [|t l IH]; intros fa1 sa1 fa2 sa2 f1 s1 f2 s2 Hacc; simpl.
  - intros [= <- <-] [= <- <-]. exact Hacc.
  - destruct (PyStr.split "," t) as [|k [|r [|]]]; try discriminate.
    destruct (_getKeyAlias k) as [key alias].
    destruct (checkThreshold fuel p1 key alias r) as [[g1 t1]| |] eqn:E1;
      simpl; try discriminate.
    destruct (checkThreshold fuel p2 key alias r) as [[g2 t2]| |] eqn:E2;
      simpl; try discriminate.
    apply IH. rewrite !app_empty, Hacc.
    now rewrite (checkThreshold_same_verdict _ _ _ _ _ _ _ E1 E2).
Qed.

Lemma checkEquality_from_same_verdict l :
  forall fa1 sa1 fa2 sa2 f1 s1 f2 s2,
  (fa1 = "" <-> fa2 = "") ->
  checkEquality_from fuel p1 l fa1 sa1 = Ok (f1, s1) ->
  checkEquality_from fuel p2 l fa2 sa2 = Ok (f2, s2) ->
  (f1 = "" <-> f2 = "").
Proof.
  induction l as [|kv l IH]; intros fa1 sa1 fa2 sa2 f1 s1 f2 s2 Hacc; simpl.
  - intros [= <- <-] [= <- <-]. exact Hacc.
  - destruct (PyStr.split "," kv) as [|k [|v [|]]]; try discriminate.
    destruct (_getKeyAlias k) as [key alias]. rewrite same_helper.
    destruct (get_key fuel (helper p2) key) as [r| |]; simpl; try discriminate.
    destruct (th p1 r) as [kv1| |]; simpl; try discriminate.
    destruct (th p2 r) as [kv2| |]; simpl; try discriminate.
    destruct (equals fuel (helper p2) key v) as [[|]| |]; simpl; try discriminate.
    + apply IH. exact Hacc.
    + apply IH. rewrite !app_empty, Hacc.
      split; intros [_ H]; discriminate H.
Qed.

End TwoModes.

(** C9. Two processors over the same tree and separator that differ in
    the field type (str, size or SI) reach the same verdict on every list
    of threshold rules and on every list of equality rules, whenever both
    evaluations return: the failure text of one is empty exactly when the
    failure text of the other is. *)
Theorem verdict_independent_of_field_type
  fuel data args ft1 ft2 thresholds equalities tf1 ts1 tf2 ts2 ef1 es1 ef2 es2 :
  let p1 := processor_init data (with_field_type ft1 args) in
  let p2 := processor_init data (with_field_type ft2 args) in
  checkThresholds fuel p1 thresholds = Ok (tf1, ts1) ->
  checkThresholds fuel p2 thresholds = Ok (tf2, ts2) ->
  checkEquality fuel p1 equalities = Ok (ef1, es1) ->
  checkEquality fuel p2 equalities = Ok (ef2, es2) ->
  (tf1 = "" <-> tf2 = "") /\ (ef1 = "" <-> ef2 = "").
Proof.
  intros p1 p2 T1 T2 E1 E2.
  assert (Hh : helper p1 = helper p2) by reflexivity.
  split.
  - exact (checkThresholds_from_same_verdict fuel p1 p2 Hh thresholds
             "" "" "" "" _ _ _ _ (conj (fun _ => eq_refl) (fun _ => eq_refl)) T1 T2).
  - exact (checkEquality_from_same_verdict fuel p1 p2 Hh equalities
             "" "" "" "" _ _ _ _ (conj (fun _ => eq_refl) (fun _ => eq_refl)) E1 E2).
Qed.

(** ** Metric specs *)

Lemma append_assoc (a b c : string) : (a ++ b) ++ c = a ++ b ++ c.
Proof. induction a as [|x a IH]; simpl; [reflexivity | now rewrite IH]. Qed.

Lemma parse_metric_six k u w c mn mx :
  PyStr.has_char "," k = false -> PyStr.has_char "," u = false ->
  PyStr.has_char "," w = false -> PyStr.has_char "," c = false ->
  PyStr.has_char "," mn = false -> PyStr.has_char "," mx = false ->
  parse_metric (k ++ "," ++ u ++ "," ++ w ++ "," ++ c ++ "," ++ mn ++ "," ++ mx)
  = mkMetric k u (Some w) (Some c) (Some mn) (Some mx).
Proof.
  intros Hk Hu Hw Hc Hmn Hmx. unfold parse_metric.
  rewrite has_char_app, Hk. cbn [PyStr.has_char orb append].
  rewrite Ascii.eqb_refl. cbn [orb].
  rewrite (split_app _ _ _ Hk), (split_app _ _ _ Hu), (split_app _ _ _ Hw),
    (split_app _ _ _ Hc), (split_app _ _ _ Hmn), (split_without _ _ Hmx).
  reflexivity.
Qed.

Lemma append_nil_r (s : string) : s ++ "" = s.
Proof. induction s as [|c s IH]; simpl; [reflexivity | now rewrite IH]. Qed.

(** The specs of a list are evaluated one after the other. *)
Lemma checkMetrics_from_app fuel self (l1 l2 : list string) :
  forall p w c,
  checkMetrics_from fuel self (l1 ++ l2)%list p w c
  = (r <- checkMetrics_from fuel self l1 p w c ;;
     checkMetrics_from fuel self l2 (fst (fst r)) (snd (fst r)) (snd r)).
Proof.
  induction l1 as [|m l1 IH]; intros p w c; [reflexivity|].
  cbn [app checkMetrics_from].
  destruct (_getKeyAlias _) as [key alias].
  destruct (exists_ fuel (helper self) key) as [[|]| |]; cbn [bind];
    try reflexivity; [|apply IH].
  destruct (get_key fuel (helper self) key) as [v| |]; cbn [bind]; try reflexivity.
  destruct (metric_range _ _ _ _ (m_warn_range _) _ _ _) as [r1| |];
    cbn [bind]; try reflexivity.
  destruct (metric_range _ _ _ _ (m_crit_range _) _ _ _) as [r2| |];
    cbn [bind]; try reflexivity.
  destruct (metric_range _ _ _ _ (m_minimum _) _ _ _) as [r3| |];
    cbn [bind]; try reflexivity.
  destruct (metric_range _ _ _ _ (m_maximum _) _ _ _) as [r4| |];
    cbn [bind]; try reflexivity.
  apply IH.
Qed.

Ltac same_texts :=
  repeat (progress (rewrite ?append_assoc, ?append_nil_r; cbn [append])).

(** What is accumulated before a list of specs is a prefix of the three
    texts. *)
Lemma checkMetrics_from_acc fuel self (l : list string) :
  forall p w c,
  checkMetrics_from fuel self l p w c
  = (r <- checkMetrics_from fuel self l "" "" "" ;;
     Ok (p ++ fst (fst r), w ++ snd (fst r), c ++ snd r)).
Proof.
  induction l as [|m l IH]; intros p w c.
  - simpl. now rewrite !append_nil_r.
  - cbn [checkMetrics_from].
    destruct (_getKeyAlias _) as [key alias].
    destruct (exists_ fuel (helper self) key) as [[|]| |]; cbn [bind];
      try reflexivity.
    + destruct (get_key fuel (helper self) key) as [v| |]; cbn [bind];
        try reflexivity.
      unfold metric_range.
      destruct (nonempty (m_uom (parse_metric m)));
      (destruct (m_warn_range (parse_metric m)) as [b1|];
       [destruct (checkThreshold fuel self key alias b1) as [[f1 s1]| |]|];
       cbn [bind fst snd]; try reflexivity);
      (destruct (m_crit_range (parse_metric m)) as [b2|];
       [destruct (checkThreshold fuel self key alias b2) as [[f2 s2]| |]|];
       cbn [bind fst snd]; try reflexivity);
      (destruct (m_minimum (parse_metric m)) as [b3|];
       [destruct (checkThreshold fuel self key alias (b3 ++ ":")) as [[f3 s3]| |]|];
       cbn [bind fst snd]; try reflexivity);
      (destruct (m_maximum (parse_metric m)) as [b4|];
       [destruct (checkThreshold fuel self key alias ("~:" ++ b4)) as [[f4 s4]| |]|];
       cbn [bind fst snd]; try reflexivity);
      match goal with
      | |- checkMetrics_from _ _ _ ?P ?W ?C = bind (checkMetrics_from _ _ _ ?P0 ?W0 ?C0) _ =>
          rewrite (IH P W C), (IH P0 W0 C0)
      end;
      (destruct (checkMetrics_from fuel self l "" "" "") as [[[rp rw] rc]| |];
       cbn [bind fst snd]; try reflexivity);
      same_texts; reflexivity.
    + rewrite (IH (p ++ " ") w c), (IH ("" ++ " ") "" "").
      destruct (checkMetrics_from fuel self l "" "" "") as [[[rp rw] rc]| |];
        cbn [bind fst snd]; try reflexivity.
      same_texts. reflexivity.
Qed.

(** C8. For a six-part metric spec [key,uom,warn,crit,min,max] whose key
    resolves, anywhere in the list of metric specs, [checkMetrics]
    evaluates the minimum as the range [min:] and the maximum as the
    range [~:max]; of the three texts it returns, the critical text
    gets the failure text of the critical range and then those of the
    minimum and of the maximum, the warning text gets only the failure
    text of the warning range, and the performance data gets the record
    of the spec; each between the texts of the specs before and of the
    specs after. *)
Theorem six_part_metric_tiers
  fuel self k u w c mn mx before after key alias v rw rc rmn rmx rb ra :
  metric_list (rules self)
    = Some (before
            ++ (k ++ "," ++ u ++ "," ++ w ++ "," ++ c ++ "," ++ mn ++ "," ++ mx)%string
            :: after)%list ->
  PyStr.has_char "," k = false -> PyStr.has_char "," u = false ->
  PyStr.has_char "," w = false -> PyStr.has_char "," c = false ->
  PyStr.has_char "," mn = false -> PyStr.has_char "," mx = false ->
  _getKeyAlias k = (key, alias) ->
  get_key fuel (helper self) key = Ok (Found v) ->
  checkThreshold fuel self key alias w = Ok rw ->
  checkThreshold fuel self key alias c = Ok rc ->
  checkThreshold fuel self key alias (mn ++ ":") = Ok rmn ->
  checkThreshold fuel self key alias ("~:" ++ mx) = Ok rmx ->
  checkMetrics_from fuel self before "" "" "" = Ok rb ->
  checkMetrics_from fuel self after "" "" "" = Ok ra ->
  checkMetrics fuel self
  = Ok (fst (fst rb)
          ++ "'" ++ alias ++ "'=" ++ Py.str v ++ u
          ++ ";" ++ w ++ ";" ++ c ++ ";" ++ mn ++ ";" ++ mx ++ " "
          ++ fst (fst ra),
        snd (fst rb) ++ fst rw ++ snd (fst ra),
        snd rb ++ fst rc ++ fst rmn ++ fst rmx ++ snd ra).
Proof.
  intros Hl Hk Hu Hw Hc Hmn Hmx Hka Hget Hrw Hrc Hrmn Hrmx Hrb Hra.
  unfold checkMetrics. rewrite Hl, checkMetrics_from_app, Hrb.
  cbn [bind checkMetrics_from].
  rewrite (parse_metric_six k u w c mn mx Hk Hu Hw Hc Hmn Hmx).
  cbn [m_key m_uom m_warn_range m_crit_range m_minimum m_maximum].
  rewrite Hka. unfold exists_. rewrite Hget. cbn [bind].
  unfold metric_range. rewrite Hrw. cbn [bind fst snd].
  rewrite Hrc. cbn [bind fst snd]. rewrite Hrmn. cbn [bind fst snd].
  rewrite Hrmx. cbn [bind fst snd].
  rewrite checkMetrics_from_acc, Hra. cbn [bind Py.str_lookup].
  assert (Hu' : (if nonempty u
                 then (fst (fst rb) ++ "'" ++ alias ++ "'=" ++ Py.str v) ++ u
                 else fst (fst rb) ++ "'" ++ alias ++ "'=" ++ Py.str v)
                = (fst (fst rb) ++ "'" ++ alias ++ "'=" ++ Py.str v) ++ u).
  { destruct u; [now rewrite append_nil_r | reflexivity]. }
  rewrite Hu'. same_texts. reflexivity.
Qed.

(** ** A search accessor whose payload is not base64 *)

Lemma find_from_range (sub s : string) :
  forall i, 0 <= i -> PyStr.find_from sub s i = -1 \/ i <= PyStr.find_from sub s i.
Proof.
  induction s as [|c s IH]; intros i Hi; cbn [PyStr.find_from].
  - destruct (prefix sub ""); [right; lia | now left].
  - destruct (prefix sub (String c s)); [right; lia|].
    destruct (IH (i + 1)) as [H|H]; [lia | now left | right; lia].
Qed.

Lemma prefix_char (c a : ascii) (s : string) :
  prefix (String c "") (String a s) = Ascii.eqb a c.
Proof.
  cbn [prefix]. destruct (ascii_dec c a) as [->|H].
  - now rewrite prefix_empty, Ascii.eqb_refl.
  - symmetry. apply Ascii.eqb_neq. congruence.
Qed.

Lemma find_from_char (c : ascii) (a b : string) :
  PyStr.has_char c a = false ->
  forall i, PyStr.find_from (String c "") (a ++ String c b) i = i + PyStr.len a.
Proof.
  unfold PyStr.len.
  induction a as [|x a IH]; intros H i.
  - cbn [append PyStr.find_from]. rewrite prefix_char, Ascii.eqb_refl. simpl. lia.
  - cbn [PyStr.has_char] in H. apply orb_false_iff in H as [Hx Ha].
    cbn [append PyStr.find_from]. rewrite prefix_char, Hx, (IH Ha).
    cbn [String.length]. lia.
Qed.

Lemma substring_prefix (a b : string) :
  substring 0 (String.length a) (a ++ b) = a.
Proof. induction a as [|x a IH]; simpl; [now destruct b | now rewrite IH]. Qed.

Lemma length_app (a b : string) :
  String.length (a ++ b) = (String.length a + String.length b)%nat.
Proof. induction a as [|x a IH]; simpl; [reflexivity | now rewrite IH]. Qed.

(** The text between the first character and the first [c] after it. *)
Lemma slice_inside (o c : ascii) (k rest : string) :
  PyStr.slice (String o (k ++ String c rest)) 1 (1 + PyStr.len k) = k.
Proof.
  unfold PyStr.slice, PyStr.clamp, PyStr.len.
  cbn [String.length]. rewrite length_app. cbn [String.length].
  replace (1 <? 0) with false by reflexivity.
  destruct (Z.ltb_spec (1 + Z.of_nat (String.length k)) 0) as [?|_]; [lia|].
  rewrite !Z.min_l by lia.
  replace (Z.to_nat (1 + Z.of_nat (String.length k) - 1)) with (String.length k) by lia.
  change (Z.to_nat 1) with 1%nat. cbn [substring].
  apply substring_prefix.
Qed.

Lemma all_digits_app (a b : string) :
  PyStr.all_digits (a ++ b) = PyStr.all_digits a && PyStr.all_digits b.
Proof.
  induction a as [|x a IH]; simpl; [reflexivity | now rewrite IH, andb_assoc].
Qed.

Lemma isdecimal_with_equals (n v : string) :
  PyStr.isdecimal (n ++ "=" ++ v) = false.
Proof.
  assert (H : PyStr.all_digits (n ++ "=" ++ v) = false).
  { rewrite all_digits_app. cbn. apply andb_false_r. }
  destruct n; exact H.
Qed.

Lemma split1_app (c : ascii) (a b : string) :
  PyStr.has_char c a = false ->
  PyStr.split1 c (a ++ String c b) = [a; b].
Proof.
  induction a as [|x a IH]; simpl; intros H.
  - now rewrite Ascii.eqb_refl.
  - apply orb_false_iff in H as [Hx Ha]. now rewrite Hx, (IH Ha).
Qed.

(** X20. Wherever resolution reaches a path that starts with a search
    accessor [(n=payload)], an error of [b64decode] on the payload is the
    outcome of [get]: the payload is decoded before the node is looked
    at. *)
Lemma search_accessor_decode_error fuel self n payload rest node e :
  PyStr.has_char ")" n = false ->
  PyStr.has_char "=" n = false ->
  PyStr.has_char ")" payload = false ->
  Base64.b64decode payload = Raise e ->
  get (S fuel) self ("(" ++ n ++ "=" ++ payload ++ ")" ++ rest) node = Raise e.
Proof.
  intros Hn Heq Hp Hdec.
  set (k := n ++ "=" ++ payload).
  assert (Hk : PyStr.has_char ")" k = false).
  { unfold k. rewrite has_char_app, Hn. cbn. exact Hp. }
  replace ("(" ++ n ++ "=" ++ payload ++ ")" ++ rest)
    with (String "(" (k ++ String ")" rest))
    by (unfold k; cbn; now rewrite !append_assoc).
  set (key := String "(" (k ++ String ")" rest)).
  assert (Hopen : PyStr.find key arrayOpener = 0).
  { unfold PyStr.find, key, arrayOpener. cbn [PyStr.find_from].
    now rewrite prefix_char, Ascii.eqb_refl. }
  assert (Hclose : PyStr.find key arrayCloser = 1 + PyStr.len k).
  { unfold PyStr.find, key, arrayCloser. cbn [PyStr.find_from].
    rewrite prefix_char. change (Ascii.eqb "(" ")") with false. cbv iota.
    now rewrite (find_from_char _ _ _ Hk). }
  assert (Hsub : getSubArrayElement self (get fuel self) key
                   (if Py.truthy node then node else data self) = Raise e).
  { assert (Hslice : PyStr.slice key 1 (1 + PyStr.len k) = k) by apply slice_inside.
    unfold getSubArrayElement. cbv zeta. rewrite Hopen, Hclose.
    change (0 + 1) with 1. rewrite Hslice.
    unfold accessor_index, k. rewrite isdecimal_with_equals. cbn [negb].
    change (n ++ "=" ++ payload) with (n ++ String "=" payload).
    rewrite (split1_app _ _ _ Heq), Hdec. reflexivity. }
  cbn [get]. rewrite Hopen.
  replace (PyStr.len key <=? 0) with false
    by (unfold PyStr.len, key; cbn [String.length]; symmetry; apply Z.leb_gt; lia).
  destruct (find_from_range (separator self) key 0 ltac:(lia)) as [Hs|Hs];
    fold (PyStr.find key (separator self)) in Hs.
  - rewrite Hs. exact Hsub.
  - destruct (Z.eqb_spec (PyStr.find key (separator self)) (-1)) as [E|_]; [lia|].
    destruct (Z.ltb_spec (PyStr.find key (separator self)) 0) as [?|_]; [lia|].
    exact Hsub.
Qed.

(** ** Errors in rules *)

Lemma checkThresholds_from_app fuel self pre l :
  forall fa sa,
  checkThresholds_from fuel self (pre ++ l)%list fa sa =
    (acc <- checkThresholds_from fuel self pre fa sa ;;
     checkThresholds_from fuel self l (fst acc) (snd acc)).
Proof.
  induction pre as [|t pre IH]; intros fa sa; simpl; [reflexivity|].
  destruct (PyStr.split "," t) as [|k [|r [|]]]; try reflexivity.
  destruct (_getKeyAlias k) as [key alias].
  destruct (checkThreshold fuel self key alias r) as [res| |]; simpl;
    [apply IH | reflexivity | reflexivity].
Qed.

Lemma checkThreshold_raises fuel self key alias r e :
  get_key fuel (helper self) key = Raise e ->
  checkThreshold fuel self key alias r = Raise e.
Proof.
  intros H. unfold checkThreshold.
  destruct (range_bounds _) as [start end_]. now rewrite H.
Qed.

(** C6 as the code has it: when the path of a warning threshold rule
    raises the decode error of its search accessor, and the rules before
    it in the list evaluate, [checkThresholds] raises that error and so
    does the run: no rule after it is evaluated and no severity is
    computed. *)
Theorem decode_error_aborts_run
  fuel data args pre bad post k r key alias acc :
  key_threshold_warning args = Some (pre ++ bad :: post)%list ->
  checkThresholds fuel (processor_init data args) pre = Ok acc ->
  PyStr.split "," bad = [k; r] ->
  _getKeyAlias k = (key, alias) ->
  get_key fuel (helper (processor_init data args)) key = Raise BinasciiError ->
  checkThresholds fuel (processor_init data args) (pre ++ bad :: post)%list
    = Raise BinasciiError
  /\ check_data fuel args data = Raise BinasciiError.
Proof.
  intros Hw Hpre Hsplit Hka Hget.
  assert (H : checkThresholds fuel (processor_init data args) (pre ++ bad :: post)%list
              = Raise BinasciiError).
  { unfold checkThresholds in *. rewrite checkThresholds_from_app, Hpre.
    cbn [bind checkThresholds_from]. rewrite Hsplit, Hka.
    now rewrite (checkThreshold_raises _ _ _ _ _ _ Hget). }
  split; [exact H|].
  unfold check_data, check_run, checkWarning.
  cbn [rules processor_init]. rewrite Hw. unfold check_opt at 1.
  cbn [rules processor_init] in H. now rewrite H.
Qed.






(** ** Paths of plain keys

    Where every segment is a plain key and every node on the way is a
    mapping that has the next key, [get] is right: such a mapping is not
    empty, so it is never taken for the default argument. *)

Lemma find_from_absent (c : ascii) (s : string) :
  PyStr.has_char c s = false ->
  forall i, PyStr.find_from (String c "") s i = -1.
Proof.
  induction s as [|x s IH]; intros H i; [reflexivity|].
  cbn [PyStr.has_char] in H. apply orb_false_iff in H as [Hx Hs].
  cbn [PyStr.find_from]. now rewrite prefix_char, Hx, (IH Hs).
Qed.

Lemma substring_skip (a b : string) (m : nat) :
  substring (String.length a) m (a ++ b) = substring 0 m b.
Proof. induction a as [|x a IH]; simpl; [reflexivity | exact IH]. Qed.

Lemma slice_to_app (a b : string) : PyStr.slice_to (a ++ b) (PyStr.len a) = a.
Proof.
  unfold PyStr.slice_to, PyStr.slice, PyStr.clamp, PyStr.len.
  rewrite length_app. replace (0 <? 0) with false by reflexivity.
  destruct (Z.ltb_spec (Z.of_nat (String.length a)) 0) as [?|_]; [lia|].
  rewrite !Z.min_l by lia. rewrite Z.sub_0_r, Nat2Z.id.
  change (Z.to_nat 0) with 0%nat. apply substring_prefix.
Qed.

Lemma slice_from_app (a b : string) (c : ascii) :
  PyStr.slice_from (a ++ String c b) (PyStr.len a + 1) = b.
Proof.
  unfold PyStr.slice_from, PyStr.slice, PyStr.clamp, PyStr.len.
  rewrite length_app. cbn [String.length].
  destruct (Z.ltb_spec (Z.of_nat (String.length a) + 1) 0) as [?|_]; [lia|].
  destruct (Z.ltb_spec (Z.of_nat (String.length a + S (String.length b))) 0)
    as [?|_]; [lia|].
  rewrite Z.min_l, Z.min_id by lia.
  replace (Z.to_nat (Z.of_nat (String.length a) + 1)) with (String.length (a ++ String c "")).
  2:{ rewrite length_app. cbn [String.length]. lia. }
  replace (Z.to_nat _) with (String.length b) by lia.
  change (a ++ String c b) with (a ++ String c ("" ++ b)).
  replace (a ++ String c ("" ++ b)) with ((a ++ String c "") ++ b)
    by (now rewrite append_assoc).
  rewrite substring_skip. apply substring_all.
Qed.

Section PlainKeys.

Variable self : JsonHelper.
Variable c : ascii.
Hypothesis one_char : separator self = String c "".
Hypothesis not_opener : Ascii.eqb "(" c = false.

Lemma plain_path_no_opener (keys : list string) :
  Forall (plain c) keys ->
  PyStr.has_char "(" (PyStr.join (separator self) keys) = false.
Proof.
  rewrite one_char.
  induction keys as [|k [|k' rest] IH]; intros H; [reflexivity | |].
  - inversion H as [|? ? [_ Hk] _]; subst. exact Hk.
  - inversion H as [|? ? [_ Hk] Hrest]; subst.
    change (PyStr.join (String c "") (k :: k' :: rest))
      with (k ++ String c (PyStr.join (String c "") (k' :: rest))).
    rewrite has_char_app, Hk. cbn [PyStr.has_char orb].
    rewrite Ascii.eqb_sym, not_opener. exact (IH Hrest).
Qed.

Lemma child_truthy (node : json) (k : string) (v : json) :
  Spec.child node k = Some v -> Py.truthy node = true.
Proof. destruct node as [| | | | | |[|]]; simpl; congruence. Qed.

Lemma child_dict (node : json) (k : string) (v : json) :
  Spec.child node k = Some v ->
  Py.contains k node = Ok true /\ Py.getitem node k = Ok v.
Proof.
  destruct node; simpl; try discriminate. intros ->. now split.
Qed.

Lemma child_missing (d : list (string * json)) (k : string) :
  Spec.child (JDict d) k = None -> Py.contains k (JDict d) = Ok false.
Proof. simpl. now intros ->. Qed.

Lemma join_cons (sep x y : string) (l : list string) :
  PyStr.join sep (x :: y :: l) = x ++ sep ++ PyStr.join sep (y :: l).
Proof. reflexivity. Qed.

Lemma len_nonempty (s : string) : s <> "" -> (PyStr.len s <=? 0) = false.
Proof.
  intros H. destruct s; [congruence|].
  unfold PyStr.len. cbn [String.length]. apply Z.leb_gt. lia.
Qed.

(** The last key of a path: neither a separator nor an open marker is
    found, and the key is looked up in the node. *)
Lemma get_last_key fuel (last : string) (node : json) :
  plain c last -> last <> "" ->
  get (S fuel) self last node =
    (let data := if Py.truthy node then node else data self in
     b <- Py.contains last data ;;
     if b then v <- Py.getitem data last ;; Ok (Found v) else Ok NotFound).
Proof.
  intros [Hc Ho] Hne. cbn [get]. rewrite (len_nonempty _ Hne), one_char.
  unfold PyStr.find, arrayOpener.
  now rewrite (find_from_absent _ _ Hc), (find_from_absent _ _ Ho).
Qed.

(** A key followed by a separator: [getSubElement] looks the key up and
    recurses on the rest of the path. *)
Lemma get_first_key fuel (k rest : string) (node : json) :
  plain c k -> PyStr.has_char "(" rest = false ->
  get (S fuel) self (k ++ separator self ++ rest) node =
    (let data := if Py.truthy node then node else data self in
     b <- Py.contains k data ;;
     if b then child <- Py.getitem data k ;; get fuel self rest child
     else Ok NotFound).
Proof.
  intros [Hc Ho] Hrest. rewrite one_char.
  change (k ++ String c "" ++ rest) with (k ++ String c rest).
  assert (Hsep : PyStr.find (k ++ String c rest) (String c "") = PyStr.len k)
    by (unfold PyStr.find; now rewrite (find_from_char _ _ _ Hc)).
  assert (Hopn : PyStr.find (k ++ String c rest) arrayOpener = -1).
  { unfold PyStr.find, arrayOpener. apply find_from_absent.
    rewrite has_char_app, Ho. cbn [PyStr.has_char orb].
    now rewrite Ascii.eqb_sym, not_opener. }
  assert (Hlen : (PyStr.len (k ++ String c rest) <=? 0) = false).
  { apply len_nonempty. destruct k; discriminate. }
  cbn [get]. rewrite Hlen, one_char, Hsep, Hopn.
  replace (PyStr.len k =? -1) with false
    by (symmetry; apply Z.eqb_neq; unfold PyStr.len; lia).
  cbn [negb andb Z.eqb]. unfold getSubElement.
  now rewrite one_char, Hsep, slice_to_app, slice_from_app.
Qed.

(** X18. A path of plain keys that leads through nested mappings to a
    value is resolved to that value, whatever the value. *)
Lemma get_plain_path_found (keys : list string) :
  forall (last : string) (leaf node : json) (extra : nat),
  Forall (plain c) keys -> plain c last -> last <> "" ->
  Spec.walk (if Py.truthy node then node else data self) (keys ++ [last])%list
    = Some leaf ->
  get (S (List.length keys) + extra) self
      (PyStr.join (separator self) (keys ++ [last])%list) node
    = Ok (Found leaf).
Proof.
  induction keys as [|k ks IH]; intros last leaf node extra Hks Hlast Hne Hwalk.
  - cbn [app PyStr.join List.length Nat.add].
    rewrite (get_last_key _ _ _ Hlast Hne). cbv zeta.
    cbn [app Spec.walk] in Hwalk.
    destruct (Spec.child _ last) as [v|] eqn:E; [|discriminate].
    injection Hwalk as ->.
    destruct (child_dict _ _ _ E) as [-> ->]. reflexivity.
  - inversion Hks as [|? ? Hk Hks']; subst.
    assert (Hjoin : PyStr.join (separator self) ((k :: ks) ++ [last])%list
                    = k ++ separator self ++ PyStr.join (separator self) (ks ++ [last])%list).
    { cbn [app]. destruct ks; reflexivity. }
    rewrite Hjoin. cbn [List.length Nat.add].
    rewrite get_first_key;
      [|exact Hk | apply plain_path_no_opener, Forall_app; split; [exact Hks' | now constructor]].
    cbv zeta. cbn [app Spec.walk] in Hwalk.
    destruct (Spec.child _ k) as [child|] eqn:E; [|discriminate].
    destruct (child_dict _ _ _ E) as [-> ->]. cbn [bind].
    apply IH; try assumption.
    assert (Ht : Py.truthy child = true).
    { destruct ks; cbn [app Spec.walk] in Hwalk;
        destruct (Spec.child child _) eqn:E'; try discriminate;
        exact (child_truthy _ _ _ E'). }
    now rewrite Ht.
Qed.

(** X19. A path of plain keys that leads to a mapping that is not
    empty and lacks the next key is resolved to NotFound. *)
Lemma get_plain_path_missing (keys : list string) :
  forall (k : string) (more : list string) (d : list (string * json))
         (node : json) (extra : nat),
  Forall (plain c) keys -> plain c k -> Forall (plain c) more ->
  PyStr.join (separator self) (k :: more) <> "" ->
  Spec.walk (if Py.truthy node then node else data self) keys = Some (JDict d) ->
  d <> [] ->
  Spec.child (JDict d) k = None ->
  get (S (List.length keys) + extra) self
      (PyStr.join (separator self) (keys ++ k :: more)%list) node
    = Ok NotFound.
Proof.
  induction keys as [|k0 ks IH]; intros k more d node extra Hks Hk Hmore Hne Hwalk Hd Hmiss.
  - cbn [app List.length Nat.add]. cbn [Spec.walk] in Hwalk. injection Hwalk as Hnode.
    destruct more as [|k' more'].
    + cbn [PyStr.join] in *. rewrite (get_last_key _ _ _ Hk Hne). cbv zeta.
      now rewrite Hnode, (child_missing _ _ Hmiss).
    + rewrite join_cons, get_first_key;
        [|exact Hk | now apply plain_path_no_opener].
      cbv zeta. now rewrite Hnode, (child_missing _ _ Hmiss).
  - inversion Hks as [|? ? Hk0 Hks']; subst.
    assert (Hjoin : PyStr.join (separator self) ((k0 :: ks) ++ k :: more)%list
                    = k0 ++ separator self ++ PyStr.join (separator self) (ks ++ k :: more)%list).
    { cbn [app]. destruct ks; reflexivity. }
    rewrite Hjoin. cbn [List.length Nat.add].
    rewrite get_first_key;
      [|exact Hk0 | apply plain_path_no_opener, Forall_app; split; [exact Hks' | now constructor]].
    cbv zeta. cbn [Spec.walk] in Hwalk.
    destruct (Spec.child _ k0) as [child|] eqn:E; [|discriminate].
    destruct (child_dict _ _ _ E) as [-> ->]. cbn [bind].
    apply (IH k more d); try assumption.
    assert (Ht : Py.truthy child = true).
    { destruct ks as [|k1 ks1]; cbn [Spec.walk] in Hwalk.
      - injection Hwalk as ->. now destruct d.
      - destruct (Spec.child child k1) eqn:E'; [|discriminate].
        exact (child_truthy _ _ _ E'). }
    now rewrite Ht.
Qed.

End PlainKeys.

(** ** Nodes that test false *)

(** A node that tests false is replaced by the root of the document. *)
Lemma get_falsy_node fuel self key node :
  Py.truthy node = false ->
  get fuel self key node = get fuel self key (data self).
Proof.
  intros H. destruct fuel as [|fuel]; [reflexivity|].
  cbn [get]. rewrite H. now destruct (Py.truthy (data self)).
Qed.

(** C1 on the code: in [{"a": {}, "b": 1}] the path [a.b] addresses no
    node, since the mapping at [a] is empty, and the resolver of the
    specification answers NotFound; [get] answers Found with the value of
    the key [b] of the root, because the empty mapping tests false and
    the search for [b] restarts at the root. *)
Theorem get_finds_absent_path (fuel : nat) :
  Py.getitem empty_child_doc "a" = Ok (JDict [])
  /\ Py.contains "b" (JDict []) = Ok false
  /\ Spec.resolve empty_child_doc "a.b" "." = Ok NotFound
  /\ get_key (S (S fuel)) (mkHelper empty_child_doc ".") "a.b" = Ok (Found (JInt 1)).
Proof. repeat split; vm_compute; reflexivity. Qed.

(** Two more paths that address no node and are not answered NotFound:
    an index accessor without a prefix does not compare the index with
    the length, as the accessor with a prefix does, and a node that is a
    number is asked for a key. *)
Example get_raises_on_absent_path (fuel : nat) :
  Spec.resolve beans_doc "beans.(5).v" "." = Ok NotFound
  /\ get_key (S (S fuel)) (mkHelper beans_doc ".") "beans(5).v" = Ok NotFound
  /\ get_key (S (S fuel)) (mkHelper beans_doc ".") "beans.(5).v" = Raise IndexError
  /\ Spec.resolve beans_doc "metric.v" "." = Ok NotFound
  /\ get_key (S (S fuel)) (mkHelper beans_doc ".") "metric.v" = Raise TypeError.
Proof. repeat split; vm_compute; reflexivity. Qed.

(** ** The path after an accessor

    When the first close marker of the path is followed by the
    separator, the code recurses on the text after that separator; when
    the path has no close marker followed by the separator, it recurses
    on the text after the first close marker. *)

Lemma prefix_cons (a : ascii) (p : string) (x : ascii) (s : string) :
  prefix (String a p) (String x s) = Ascii.eqb x a && prefix p s.
Proof.
  cbn [prefix]. destruct (ascii_dec a x) as [->|H].
  - now rewrite Ascii.eqb_refl.
  - replace (Ascii.eqb x a) with false; [reflexivity|].
    symmetry. apply Ascii.eqb_neq. congruence.
Qed.

Lemma find_from_after (a : ascii) (p pre rest : string) :
  PyStr.has_char a pre = false ->
  forall i, PyStr.find_from (String a p) (pre ++ String a (p ++ rest)) i
            = i + PyStr.len pre.
Proof.
  unfold PyStr.len.
  induction pre as [|x pre IH]; intros H i.
  - cbn [append PyStr.find_from]. rewrite prefix_cons, Ascii.eqb_refl.
    replace (prefix p (p ++ rest)) with true; [simpl; lia|].
    symmetry. apply prefix_correct. apply substring_prefix.
  - cbn [PyStr.has_char] in H. apply orb_false_iff in H as [Hx Hpre].
    cbn [append PyStr.find_from]. rewrite prefix_cons, Hx, (IH Hpre).
    cbn [andb String.length]. lia.
Qed.

Lemma remainingKey_after_separator self (c : ascii) (pre rest : string) :
  separator self = String c "" ->
  PyStr.has_char ")" pre = false ->
  remainingKey_after self (pre ++ ")" ++ separator self ++ rest) = rest.
Proof.
  intros Hsep Hpre. unfold remainingKey_after, arrayCloser. rewrite Hsep.
  change (")" ++ String c "") with (String ")" (String c "")).
  change (pre ++ ")" ++ String c "" ++ rest)
    with (pre ++ String ")" (String c "" ++ rest)).
  unfold PyStr.find. rewrite (find_from_after _ _ _ _ Hpre).
  replace (0 + PyStr.len pre =? -1) with false
    by (symmetry; apply Z.eqb_neq; unfold PyStr.len; lia).
  replace (0 + PyStr.len pre + 2) with (PyStr.len (pre ++ ")") + 1)
    by (unfold PyStr.len; rewrite length_app; cbn [String.length]; lia).
  replace (pre ++ String ")" (String c "" ++ rest))
    with ((pre ++ ")") ++ String c rest)
    by (now rewrite append_assoc).
  apply slice_from_app.
Qed.

Lemma remainingKey_after_no_separator self (key : string) :
  PyStr.find key (arrayCloser ++ separator self) = -1 ->
  remainingKey_after self key
    = PyStr.slice_from key (PyStr.find key arrayCloser + 1).
Proof. intros H. unfold remainingKey_after. now rewrite H. Qed.

(** C2 on the code: for the path [a(0)(1).c] the accessor [(0)] is
    closed at index 3 and the text after it is [(1).c]; the code cuts
    after the first [")."] of the whole path, which closes [(1)], and
    recurses on [c]: the accessor [(1)] is dropped, and in
    [{"a": [[{"c": 1}, {"c": 2}]]}] the value 2 is not found. *)
Theorem remaining_key_drops_accessor (fuel : nat) :
  remainingKey_after (mkHelper nested_list_doc ".") "a(0)(1).c" = "c"
  /\ Spec.remaining "." "a(0)(1).c" = "(1).c"
  /\ Spec.resolve nested_list_doc "a(0)(1).c" "." = Ok (Found (JInt 2))
  /\ get_key (S (S fuel)) (mkHelper nested_list_doc ".") "a(0)(1).c" = Ok NotFound.
Proof. repeat split; vm_compute; reflexivity. Qed.

(** ** Counterexamples to the claims the code does not meet *)

(** C3 as stated fails: NaN is a value of [json.loads] and compares
    false with every bound, so it passes the single token [5] although
    it is not between 0 and 5; and with the field type [size] the token
    [5.5], which [float()] reads, raises [ValueError] when its text is
    formed. *)
Lemma nan_passes_single_token :
  checkThreshold 5 (str_processor (float_doc S754_nan)) "metric" "metric" "5"
    = Ok ("", " Value for key metric (nan) was in range '0 : 5'.")
  /\ PyFloat.le PyFloat.zero S754_nan = false
  /\ checkThreshold 5 (size_processor (metric_doc 5)) "metric" "metric" "5.5"
     = Raise ValueError.
Proof. repeat split; vm_compute; reflexivity. Qed.

(** C4 as stated fails: the value NaN passes the range [1:5] and passes
    its inversion [@1:5] too, and both evaluations return. *)
Lemma nan_passes_range_and_inversion :
  checkThreshold 5 (str_processor (float_doc S754_nan)) "metric" "metric" "1:5"
    = Ok ("", " Value for key metric (nan) was in range '1 : 5'.")
  /\ checkThreshold 5 (str_processor (float_doc S754_nan)) "metric" "metric" "@1:5"
     = Ok ("", " Value for key metric (nan) wasnot in range '1 : 5'.").
Proof. split; vm_compute; reflexivity. Qed.

(** C6 as stated fails: with the warning rules [beans.(name=A).v,1:4]
    and [metric,1:4] on a document whose [metric] is 5, the payload [A]
    is not base64; the second rule alone gives WARNING, but with the
    first rule before it the run raises and computes no severity. *)
Lemma decode_error_stops_the_run :
  check_data 10 (dash_w ["metric,1:4"] RulesHelper) beans_doc = Ok WARNING_CODE
  /\ checkThresholds 10 (str_processor beans_doc)
       ["beans.(name=A).v,1:4"; "metric,1:4"] = Raise BinasciiError
  /\ ~ (exists code,
          check_data 10 (dash_w ["beans.(name=A).v,1:4"; "metric,1:4"] RulesHelper)
            beans_doc = Ok code).
Proof.
  split; [vm_compute; reflexivity|].
  split; [vm_compute; reflexivity|].
  intros [code H]. vm_compute in H. discriminate H.
Qed.


(** C10 as stated fails: in [size] mode the text of the value is computed
    first, by [int()] of the sentinel, and a threshold rule on a key that
    is not found raises [TypeError] instead of returning a success. *)
Lemma missing_key_raises_in_size_mode :
  get_key 10 (helper (size_processor (metric_doc 5))) "nothere" = Ok NotFound
  /\ checkThreshold 10 (size_processor (metric_doc 5)) "nothere" "nothere" "5"
     = Raise TypeError.
Proof. split; vm_compute; reflexivity. Qed.

(** ** The theorems at concrete inputs *)

Lemma single_token_range_witness :
  checkThreshold 5 (str_processor (float_doc five_and_a_half)) "metric" "metric" "7.25"
  = checkThreshold 5 (str_processor (float_doc five_and_a_half)) "metric" "metric"
      ("0:" ++ "7.25")
  /\ exists f s,
       checkThreshold 5 (str_processor (float_doc five_and_a_half)) "metric" "metric"
         "7.25" = Ok (f, s)
       /\ (f = "" <->
           PyFloat.le PyFloat.zero five_and_a_half = true
           /\ PyFloat.le five_and_a_half (S754_finite false 8162774324609024 (-50))
              = true)
       /\ (PyFloat.lt five_and_a_half PyFloat.zero = true -> f <> "").
Proof.
  apply (single_token_range 5 (str_processor (float_doc five_and_a_half))
           "metric" "metric" "7.25" (JFloat five_and_a_half) five_and_a_half
           (S754_finite false 8162774324609024 (-50)) "5.5" "7.25");
    vm_compute; reflexivity.
Defined.

Lemma inverted_range_complements_witness :
  complementary
    (checkThreshold 5 (str_processor (float_doc five_and_a_half)) "metric" "metric" "1")
    (checkThreshold 5 (str_processor (float_doc five_and_a_half)) "metric" "metric"
       ("@" ++ "1"))
    (PyFloat.le PyFloat.zero five_and_a_half = true
     /\ PyFloat.le five_and_a_half (S754_finite false 4503599627370496 (-52)) = true)
  /\ complementary
       (checkThreshold 5 (str_processor (float_doc five_and_a_half)) "metric" "metric"
          ("1" ++ ":"))
       (checkThreshold 5 (str_processor (float_doc five_and_a_half)) "metric" "metric"
          ("@" ++ "1" ++ ":"))
       (PyFloat.le (S754_finite false 4503599627370496 (-52)) five_and_a_half = true)
  /\ complementary
       (checkThreshold 5 (str_processor (float_doc five_and_a_half)) "metric" "metric"
          ("~:" ++ "5.5"))
       (checkThreshold 5 (str_processor (float_doc five_and_a_half)) "metric" "metric"
          ("@" ++ "~:" ++ "5.5"))
       (PyFloat.le five_and_a_half five_and_a_half = true)
  /\ complementary
       (checkThreshold 5 (str_processor (float_doc five_and_a_half)) "metric" "metric"
          ("1" ++ ":" ++ "5.5"))
       (checkThreshold 5 (str_processor (float_doc five_and_a_half)) "metric" "metric"
          ("@" ++ "1" ++ ":" ++ "5.5"))
       (PyFloat.le (S754_finite false 4503599627370496 (-52)) five_and_a_half = true
        /\ PyFloat.le five_and_a_half five_and_a_half = true).
Proof.
  apply (inverted_range_complements 5 (str_processor (float_doc five_and_a_half))
           "metric" "metric" (JFloat five_and_a_half) five_and_a_half "1" "5.5"
           (S754_finite false 4503599627370496 (-52)) five_and_a_half);
    vm_compute; reflexivity.
Defined.

Lemma decode_error_aborts_run_witness :
  checkThresholds 5
    (processor_init beans_doc
       (dash_w ["metric,1:5"; "beans.(name=A).v,1:4"; "metric,1:4"] RulesHelper))
    (["metric,1:5"] ++ "beans.(name=A).v,1:4" :: ["metric,1:4"])%list
    = Raise BinasciiError
  /\ check_data 5
       (dash_w ["metric,1:5"; "beans.(name=A).v,1:4"; "metric,1:4"] RulesHelper)
       beans_doc = Raise BinasciiError.
Proof.
  apply (decode_error_aborts_run 5 beans_doc
           (dash_w ["metric,1:5"; "beans.(name=A).v,1:4"; "metric,1:4"] RulesHelper)
           ["metric,1:5"] "beans.(name=A).v,1:4" ["metric,1:4"]
           "beans.(name=A).v" "1:4" "beans.(name=A).v" "beans.(name=A).v"
           ("", " Value for key metric (5) was in range '1 : 5'."));
    reflexivity.
Defined.


Lemma six_part_metric_tiers_witness :
  checkMetrics 5
    (processor_init (metric_doc 5)
       (dash_m ["metric"; "metric" ++ "," ++ "s" ++ "," ++ "1:4" ++ "," ++ "1:5"
                            ++ "," ++ "6" ++ "," ++ "10"] RulesHelper))
  = Ok (fst (fst ("'metric'=5 ", "", ""))
          ++ "'" ++ "metric" ++ "'=" ++ Py.str (JInt 5) ++ "s"
          ++ ";" ++ "1:4" ++ ";" ++ "1:5" ++ ";" ++ "6" ++ ";" ++ "10" ++ " "
          ++ fst (fst ("", "", "")),
        snd (fst ("'metric'=5 ", "", ""))
          ++ fst (" Value for key metric (5) was outside the range '1 : 4'.", "")
          ++ snd (fst ("", "", "")),
        snd ("'metric'=5 ", "", "")
          ++ fst ("", " Value for key metric (5) was in range '1 : 5'.")
          ++ fst (" Value for key metric (5) was less than 6.", "")
          ++ fst ("", " Value for key metric (5) was in range ':10'.")
          ++ snd ("", "", "")).
Proof.
  apply (six_part_metric_tiers 5
           (processor_init (metric_doc 5)
              (dash_m ["metric"; "metric,s,1:4,1:5,6,10"] RulesHelper))
           "metric" "s" "1:4" "1:5" "6" "10" ["metric"] [] "metric" "metric" (JInt 5)
           (" Value for key metric (5) was outside the range '1 : 4'.", "")
           ("", " Value for key metric (5) was in range '1 : 5'.")
           (" Value for key metric (5) was less than 6.", "")
           ("", " Value for key metric (5) was in range ':10'.")
           ("'metric'=5 ", "", "") ("", "", ""));
    reflexivity.
Defined.

Lemma verdict_independent_of_field_type_witness :
  (" Value for key metric (2048) was outside the range '1 : 1000'." = "" <->
   " Value for key metric (2 KiB) was outside the range '1 bytes : 1000 bytes'." = "")
  /\ ("" = "" <-> "" = "").
Proof.
  apply (verdict_independent_of_field_type 5 (metric_doc 2048) RulesHelper
           "str" "size" ["metric,1:1000"] ["metric,2048"]
           " Value for key metric (2048) was outside the range '1 : 1000'." ""
           " Value for key metric (2 KiB) was outside the range '1 bytes : 1000 bytes'." ""
           "" " Value for key metric (2048) does match 2048."
           "" " Value for key metric (2 KiB) does match 2048.");
    reflexivity.
Defined.

Lemma missing_key_passes_in_str_mode_witness :
  exists s,
    checkThreshold 5 (str_processor (metric_doc 5)) "nothere" "nothere" "@~:5"
      = Ok ("", s) /\ s <> "".
Proof.
  apply (missing_key_passes_in_str_mode 5 (str_processor (metric_doc 5))
           "nothere" "nothere" "@~:5"); reflexivity.
Defined.

(** * Further properties of the code *)

(** ** Keys and aliases *)

(** X1. [_getKeyAlias] returns the text as key and as alias when it has
    no [>]; it splits [key>alias] at the [>] when there is exactly one;
    with two or more [>] it does not split at all, and the whole text is
    the key and the alias. *)
Theorem getKeyAlias_forms (k a b : string) :
  PyStr.has_char ">" k = false ->
  PyStr.has_char ">" a = false ->
  _getKeyAlias k = (k, k)
  /\ _getKeyAlias (k ++ ">" ++ a) = (k, a)
  /\ _getKeyAlias (k ++ ">" ++ a ++ ">" ++ b)
     = (k ++ ">" ++ a ++ ">" ++ b, k ++ ">" ++ a ++ ">" ++ b).
Proof.
  intros Hk Ha. unfold _getKeyAlias. repeat split.
  - now rewrite Hk.
  - rewrite has_char_app, Hk. cbn [append PyStr.has_char orb].
    rewrite Ascii.eqb_refl. cbn [orb].
    now rewrite (split_app _ _ _ Hk), (split_without _ _ Ha).
  - rewrite has_char_app, Hk. cbn [append PyStr.has_char orb].
    rewrite Ascii.eqb_refl. cbn [orb].
    rewrite (split_app _ _ _ Hk), (split_app _ _ _ Ha).
    destruct (PyStr.split ">" b) as [|h t] eqn:E; [|reflexivity].
    destruct b; simpl in E; [discriminate|].
    destruct (Ascii.eqb _ _); [discriminate|].
    destruct (PyStr.split ">" b); discriminate.
Qed.

(** ** Existence rules *)

Lemma join_empty_cons (x : string) (l : list string) :
  PyStr.join "" (x :: l) = x ++ PyStr.join "" l.
Proof. destruct l; simpl; [now rewrite append_nil_r | reflexivity]. Qed.

Lemma checkExists_from_texts fuel self (l : list string) :
  forall failure success,
  Forall (fun k => exists b,
            exists_ fuel (helper self) (fst (_getKeyAlias k)) = Ok b) l ->
  checkExists_from fuel self l failure success
  = Ok (failure ++ PyStr.join "" (map missing_text
                                   (filter (key_missing fuel (helper self)) l)),
        success).
Proof.
  induction l as [|k l IH]; intros failure success H.
  - simpl. now rewrite append_nil_r.
  - inversion H as [|? ? [b Hb] Hl]; subst.
    cbn [checkExists_from filter]. unfold key_missing at 1.
    assert (Ht : missing_text k = " Key " ++ snd (_getKeyAlias k) ++ " did not exist.")
      by reflexivity.
    destruct (_getKeyAlias k) as [key alias]. cbn [fst snd] in *.
    rewrite Hb. cbn [bind]. destruct b; cbn [negb].
    + now apply IH.
    + rewrite (IH _ _ Hl). cbn [map]. rewrite join_empty_cons, Ht.
      now rewrite !append_assoc.
Qed.

(** X2. When every lookup returns, [checkExists] returns, its success
    text is empty, and its failure text is the texts of the keys that
    are not found, by alias and in the order of the rules; so the
    failure text is empty exactly when every key is found. *)
Theorem checkExists_lists_missing_keys fuel self (l : list string) :
  Forall (fun k => exists b,
            exists_ fuel (helper self) (fst (_getKeyAlias k)) = Ok b) l ->
  checkExists fuel self l
    = Ok (PyStr.join "" (map missing_text
                           (filter (key_missing fuel (helper self)) l)), "")
  /\ (PyStr.join "" (map missing_text (filter (key_missing fuel (helper self)) l)) = ""
      <-> Forall (fun k => exists_ fuel (helper self) (fst (_getKeyAlias k)) = Ok true) l).
Proof.
  intros H. split.
  - unfold checkExists. now rewrite (checkExists_from_texts _ _ _ _ _ H).
  - induction l as [|k l IH]; [now split|].
    inversion H as [|? ? [b Hb] Hl]; subst.
    cbn [filter]. unfold key_missing at 1 3. rewrite Hb.
    destruct b.
    + rewrite (IH Hl). split; [now constructor | now inversion 1].
    + cbn [map]. rewrite join_empty_cons. split.
      * intros E. apply app_empty in E as [E _]. unfold missing_text in E.
        cbn [append] in E. discriminate E.
      * inversion 1; congruence.
Qed.

(** ** Equality rules *)

Lemma rule_split (k v : string) :
  PyStr.has_char "," k = false -> PyStr.has_char "," v = false ->
  PyStr.split "," (k ++ "," ++ v) = [k; v].
Proof.
  intros Hk Hv. change (k ++ "," ++ v) with (k ++ String "," v).
  now rewrite (split_app _ _ _ Hk), (split_without _ _ Hv).
Qed.

(** X3. In [str] mode an equality rule on a key that is not found is a
    failure, with the sentinel shown as the value: a missing key fails an
    equality rule, where it passes a threshold rule. *)
Theorem equality_missing_key_fails fuel self k v key alias :
  field_type (rules self) = "str" ->
  PyStr.has_char "," k = false -> PyStr.has_char "," v = false ->
  _getKeyAlias k = (key, alias) ->
  get_key fuel (helper self) key = Ok NotFound ->
  checkEquality fuel self [k ++ "," ++ v]
  = Ok (" Value for key " ++ alias ++ " ((None, 'not_found')) did not match "
          ++ v ++ ".", "").
Proof.
  intros Hft Hk Hv Hka Hget. unfold checkEquality. cbn [checkEquality_from].
  rewrite (rule_split k v Hk Hv), Hka, Hget. unfold th, equals, exists_.
  rewrite Hft, Hget. reflexivity.
Qed.

Lemma has_char_join (c s : ascii) (l : list string) :
  Ascii.eqb s c = false ->
  Forall (fun x => PyStr.has_char c x = false) l ->
  PyStr.has_char c (PyStr.join (String s "") l) = false.
Proof.
  intros Hs. induction l as [|x [|y l] IH]; intros H; [reflexivity | |].
  - now inversion H.
  - inversion H as [|? ? Hx Hl]; subst.
    change (PyStr.join (String s "") (x :: y :: l))
      with (x ++ String s (PyStr.join (String s "") (y :: l))).
    rewrite has_char_app, Hx. cbn [PyStr.has_char orb]. rewrite Hs. exact (IH Hl).
Qed.

(** The alternatives of an equality rule are read back by [split]. *)
Lemma split_join (c : ascii) (l : list string) :
  l <> [] ->
  Forall (fun x => PyStr.has_char c x = false) l ->
  PyStr.split c (PyStr.join (String c "") l) = l.
Proof.
  induction l as [|x [|y l] IH]; intros Hne H; [congruence | |].
  - inversion H; subst. now apply split_without.
  - inversion H as [|? ? Hx Hl]; subst.
    change (PyStr.join (String c "") (x :: y :: l))
      with (x ++ String c (PyStr.join (String c "") (y :: l))).
    rewrite (split_app _ _ _ Hx), IH; [reflexivity | discriminate | exact Hl].
Qed.

Lemma existsb_eqb_In (s : string) (l : list string) :
  existsb (String.eqb s) l = true <-> In s l.
Proof.
  rewrite existsb_exists. split.
  - intros (x & Hin & E). apply String.eqb_eq in E. now subst.
  - intros Hin. exists s. split; [exact Hin | apply String.eqb_refl].
Qed.

(** X4. In [str] mode an equality rule [key,v1:v2:...] on a key that is
    found returns, and it passes exactly when the text of the value is
    one of the alternatives between the colons. *)
Theorem equality_rule_alternatives fuel self k alts key alias x :
  field_type (rules self) = "str" ->
  PyStr.has_char "," k = false ->
  alts <> [] ->
  Forall (fun a => PyStr.has_char ":" a = false) alts ->
  Forall (fun a => PyStr.has_char "," a = false) alts ->
  _getKeyAlias k = (key, alias) ->
  get_key fuel (helper self) key = Ok (Found x) ->
  exists f s,
    checkEquality fuel self [k ++ "," ++ PyStr.join ":" alts] = Ok (f, s)
    /\ (f = "" <-> In (Py.str x) alts)
    /\ (s = "" <-> ~ In (Py.str x) alts).
Proof.
  intros Hft Hk Hne Hcolon Hcomma Hka Hget.
  unfold checkEquality. cbn [checkEquality_from].
  rewrite (rule_split k _ Hk (has_char_join "," ":" alts eq_refl Hcomma)), Hka, Hget.
  unfold th, equals, exists_. rewrite Hft, Hget. cbn [bind].
  rewrite TypeHelper_str. cbn [bind Py.str_lookup].
  rewrite (split_join _ _ Hne Hcolon).
  destruct (existsb (String.eqb (Py.str x)) alts) eqn:E; cbn [negb].
  - apply existsb_eqb_In in E. do 2 eexists. split; [reflexivity|].
    split; split; try tauto; try discriminate.
  - assert (~ In (Py.str x) alts)
      by (intros Hin; apply existsb_eqb_In in Hin; congruence).
    do 2 eexists. split; [reflexivity|].
    split; split; try tauto; try discriminate.
Qed.

(** ** Lists of rules *)

Lemma checkThresholds_from_acc fuel self (l : list string) :
  forall fa sa,
  checkThresholds_from fuel self l fa sa
  = (r <- checkThresholds_from fuel self l "" "" ;;
     Ok (fa ++ fst r, sa ++ snd r)).
Proof.
  induction l as [|t l IH]; intros fa sa.
  - simpl. now rewrite !append_nil_r.
  - cbn [checkThresholds_from].
    destruct (PyStr.split "," t) as [|k [|r [|]]]; try reflexivity.
    destruct (_getKeyAlias k) as [key alias].
    destruct (checkThreshold fuel self key alias r) as [[rf rs]| |];
      cbn [bind fst snd]; try reflexivity.
    rewrite (IH (fa ++ rf) (sa ++ rs)), (IH ("" ++ rf) ("" ++ rs)).
    destruct (checkThresholds_from fuel self l "" "") as [[f s]| |];
      cbn [bind fst snd append]; try reflexivity.
    now rewrite !append_assoc.
Qed.

Lemma checkEquality_from_acc fuel self (l : list string) :
  forall fa sa,
  checkEquality_from fuel self l fa sa
  = (r <- checkEquality_from fuel self l "" "" ;;
     Ok (fa ++ fst r, sa ++ snd r)).
Proof.
  induction l as [|t l IH]; intros fa sa.
  - simpl. now rewrite !append_nil_r.
  - cbn [checkEquality_from].
    destruct (PyStr.split "," t) as [|k [|v [|]]]; try reflexivity.
    destruct (_getKeyAlias k) as [key alias].
    destruct (get_key fuel (helper self) key) as [r| |]; cbn [bind]; try reflexivity.
    destruct (th self r) as [kv| |]; cbn [bind]; try reflexivity.
    destruct (equals fuel (helper self) key v) as [[|]| |]; cbn [bind negb];
      try reflexivity.
    + rewrite (IH fa (sa ++ _)), (IH "" ("" ++ _)).
      destruct (checkEquality_from fuel self l "" "") as [[f s]| |];
        cbn [bind fst snd]; try reflexivity.
      now rewrite (append_assoc sa).
    + rewrite (IH (fa ++ _) sa), (IH ("" ++ _) "").
      destruct (checkEquality_from fuel self l "" "") as [[f s]| |];
        cbn [bind fst snd]; try reflexivity.
      now rewrite (append_assoc fa).
Qed.

Lemma checkExists_from_acc fuel self (l : list string) :
  forall fa sa,
  checkExists_from fuel self l fa sa
  = (r <- checkExists_from fuel self l "" "" ;;
     Ok (fa ++ fst r, sa ++ snd r)).
Proof.
  induction l as [|t l IH]; intros fa sa.
  - simpl. now rewrite !append_nil_r.
  - cbn [checkExists_from].
    destruct (_getKeyAlias t) as [key alias].
    destruct (exists_ fuel (helper self) key) as [[|]| |]; cbn [bind negb];
      try reflexivity.
    + apply IH.
    + rewrite (IH (fa ++ _) sa), (IH ("" ++ _) "").
      destruct (checkExists_from fuel self l "" "") as [[f s]| |];
        cbn [bind fst snd]; try reflexivity.
      now rewrite (append_assoc fa).
Qed.

(** X5. Rules are evaluated one after the other and independently: the
    texts of a list of threshold, equality or existence rules are the
    texts of its first part followed by the texts of the rest. *)
Theorem rule_lists_compose fuel self l1 l2 tf1 ts1 tf2 ts2
  e1 e2 ef1 es1 ef2 es2 x1 x2 xf1 xs1 xf2 xs2 :
  checkThresholds fuel self l1 = Ok (tf1, ts1) ->
  checkThresholds fuel self l2 = Ok (tf2, ts2) ->
  checkEquality fuel self e1 = Ok (ef1, es1) ->
  checkEquality fuel self e2 = Ok (ef2, es2) ->
  checkExists fuel self x1 = Ok (xf1, xs1) ->
  checkExists fuel self x2 = Ok (xf2, xs2) ->
  checkThresholds fuel self (l1 ++ l2)%list = Ok (tf1 ++ tf2, ts1 ++ ts2)
  /\ checkEquality fuel self (e1 ++ e2)%list = Ok (ef1 ++ ef2, es1 ++ es2)
  /\ checkExists fuel self (x1 ++ x2)%list = Ok (xf1 ++ xf2, xs1 ++ xs2).
Proof.
  unfold checkThresholds, checkEquality, checkExists.
  intros T1 T2 E1 E2 X1 X2. repeat split.
  - rewrite checkThresholds_from_app, T1. cbn [bind fst snd].
    now rewrite checkThresholds_from_acc, T2.
  - clear - E1 E2. revert ef1 es1 E1.
    assert (G : forall fa sa,
      checkEquality_from fuel self (e1 ++ e2)%list fa sa
      = (acc <- checkEquality_from fuel self e1 fa sa ;;
         checkEquality_from fuel self e2 (fst acc) (snd acc))).
    { induction e1 as [|t l IH]; intros fa sa; [reflexivity|].
      cbn [app checkEquality_from].
      destruct (PyStr.split "," t) as [|k [|v [|]]]; try reflexivity.
      destruct (_getKeyAlias k) as [key alias].
      destruct (get_key fuel (helper self) key) as [r| |]; cbn [bind]; try reflexivity.
      destruct (th self r) as [kv| |]; cbn [bind]; try reflexivity.
      destruct (equals fuel (helper self) key v) as [[|]| |]; cbn [bind negb];
        try reflexivity; apply IH. }
    intros ef1 es1 E1. rewrite G, E1. cbn [bind fst snd].
    now rewrite checkEquality_from_acc, E2.
  - clear - X1 X2. revert xf1 xs1 X1.
    assert (G : forall fa sa,
      checkExists_from fuel self (x1 ++ x2)%list fa sa
      = (acc <- checkExists_from fuel self x1 fa sa ;;
         checkExists_from fuel self x2 (fst acc) (snd acc))).
    { induction x1 as [|t l IH]; intros fa sa; [reflexivity|].
      cbn [app checkExists_from].
      destruct (_getKeyAlias t) as [key alias].
      destruct (exists_ fuel (helper self) key) as [[|]| |]; cbn [bind negb];
        try reflexivity; apply IH. }
    intros xf1 xs1 X1. rewrite G, X1. cbn [bind fst snd].
    now rewrite checkExists_from_acc, X2.
Qed.

(** ** The run *)

Lemma check_run_parts fuel args data nagios :
  check_run fuel args data = Ok nagios ->
  exists w c m,
    checkWarning fuel (processor_init data args) = Ok w
    /\ checkCritical fuel (processor_init data args) = Ok c
    /\ checkMetrics fuel (processor_init data args) = Ok m
    /\ nagios = mkNagios (snd w ++ snd c) (fst (fst m))
                  (fst w ++ snd (fst m)) (fst c ++ snd m) "".
Proof.
  unfold check_run.
  destruct (checkWarning _ _) as [w| |]; cbn [bind]; try discriminate.
  destruct (checkCritical _ _) as [c| |]; cbn [bind]; try discriminate.
  destruct (checkMetrics _ _) as [m| |]; cbn [bind]; try discriminate.
  intros [= <-]. exists w, c, m. repeat split.
  unfold append_metrics, append_critical, append_warning, nagios_init.
  cbn [status_message performance_data warning_message critical_message
       unknown_message append].
  now rewrite !append_nil_r.
Qed.

(** X6. A run over a fetched document that returns never has an unknown
    text, so its code is never UNKNOWN: its warning text is the failures
    of the warning rules followed by those of the warning ranges of the
    metrics, its critical text is the failures of the critical rules
    followed by those of the critical ranges and bounds of the metrics,
    and its status text is the successes of the warning rules followed
    by those of the critical rules. *)
Theorem run_texts fuel args data nagios :
  check_run fuel args data = Ok nagios ->
  exists w c m,
    checkWarning fuel (processor_init data args) = Ok w
    /\ checkCritical fuel (processor_init data args) = Ok c
    /\ checkMetrics fuel (processor_init data args) = Ok m
    /\ nagios = mkNagios (snd w ++ snd c) (fst (fst m))
                  (fst w ++ snd (fst m)) (fst c ++ snd m) ""
    /\ getCode nagios <> UNKNOWN_CODE.
Proof.
  intros Hrun.
  destruct (check_run_parts _ _ _ _ Hrun) as (w & c & m & Hw & Hc & Hm & ->).
  exists w, c, m. repeat split; try assumption.
  unfold getCode. cbn [unknown_message critical_message warning_message].
  change (nonempty "") with false. cbv iota.
  unfold CRITICAL_CODE, WARNING_CODE, OK_CODE, UNKNOWN_CODE.
  destruct (nonempty _); [discriminate|]. destruct (nonempty _); discriminate.
Qed.

(** ** Performance data *)

Lemma metric_range_grows fuel self key alias b range_of text metrics r :
  metric_range fuel self key alias b range_of text metrics = Ok r ->
  exists t, snd r = metrics ++ t.
Proof.
  unfold metric_range. destruct b as [b|].
  - destruct (checkThreshold _ _ _ _ _) as [res| |]; cbn [bind]; try discriminate.
    intros [= <-]. cbn [snd]. now exists (";" ++ b).
  - intros [= <-]. exists "". cbn [snd]. now rewrite append_nil_r.
Qed.

Lemma checkMetrics_from_blank fuel self (l : list string) :
  forall metrics warning critical r,
  checkMetrics_from fuel self l metrics warning critical = Ok r ->
  exists t, fst (fst r) = metrics ++ t /\ (l <> [] -> t <> "").
Proof.
  induction l as [|m l IH]; intros metrics warning critical r.
  - simpl. intros [= <-]. exists "". cbn [fst]. rewrite append_nil_r. now split.
  - cbn [checkMetrics_from].
    destruct (_getKeyAlias _) as [key alias].
    destruct (exists_ _ _ _) as [[|]| |]; cbn [bind]; try discriminate.
    + destruct (get_key _ _ _) as [v| |]; cbn [bind]; try discriminate.
      set (m0 := if nonempty (m_uom (parse_metric m)) then _ else _).
      assert (H0 : exists t, m0 = metrics ++ t).
      { unfold m0. destruct (nonempty _); eexists; rewrite ?append_assoc; reflexivity. }
      destruct H0 as [t0 H0].
      destruct (metric_range _ _ _ _ _ _ warning m0) as [r1| |] eqn:E1;
        cbn [bind]; try discriminate.
      destruct (metric_range _ _ _ _ _ _ critical (snd r1)) as [r2| |] eqn:E2;
        cbn [bind]; try discriminate.
      destruct (metric_range _ _ _ _ (m_minimum _) _ _ (snd r2)) as [r3| |] eqn:E3;
        cbn [bind]; try discriminate.
      destruct (metric_range _ _ _ _ (m_maximum _) _ _ (snd r3)) as [r4| |] eqn:E4;
        cbn [bind]; try discriminate.
      apply metric_range_grows in E1 as [t1 E1], E2 as [t2 E2],
        E3 as [t3 E3], E4 as [t4 E4].
      intros H. apply IH in H as (t & Ht & _).
      exists (t0 ++ t1 ++ t2 ++ t3 ++ t4 ++ " " ++ t). split.
      * rewrite Ht, E4, E3, E2, E1, H0. now rewrite !append_assoc.
      * intros _ E. do 5 (apply app_empty in E as [_ E]). discriminate E.
    + intros H. apply IH in H as (t & Ht & _).
      exists (" " ++ t). split.
      * rewrite Ht. now rewrite !append_assoc.
      * discriminate.
Qed.

(** X7. Every metric spec, whether its key is found or not, adds at
    least a blank to the performance data: a run that is given a metric
    spec and returns has performance data, and its message ends with
    [|] and that data. *)
Theorem metric_spec_gives_performance_data fuel args data nagios m l :
  metric_list args = Some (m :: l) ->
  check_run fuel args data = Ok nagios ->
  performance_data nagios <> ""
  /\ getMessage nagios
     = message_prefix (getCode nagios) ++ ":" ++ status_message nagios
         ++ critical_message nagios ++ warning_message nagios
         ++ "|" ++ performance_data nagios.
Proof.
  intros Hm Hrun.
  destruct (check_run_parts _ _ _ _ Hrun) as (w & c & r & _ & _ & Hr & ->).
  unfold checkMetrics in Hr. cbn [rules processor_init] in Hr. rewrite Hm in Hr.
  apply checkMetrics_from_blank in Hr as (t & Ht & Hne).
  cbn [append] in Ht.
  assert (Hp : fst (fst r) <> "") by (rewrite Ht; apply Hne; discriminate).
  split; [exact Hp|].
  unfold getMessage. cbn [performance_data status_message critical_message
                          warning_message unknown_message].
  apply nonempty_true in Hp. rewrite Hp.
  now rewrite append_nil_r, !append_assoc.
Qed.

(** ** Units *)

Lemma get_size_units (b : Z) (base : Z) (u5 u4 u3 u2 u1 u0 : string) :
  1 < base -> 1 <= b < base ^ 6 -> Py.exact b = true ->
  exists f sfx,
    In (f, sfx) [(base ^ 5, u5); (base ^ 4, u4); (base ^ 3, u3);
                 (base ^ 2, u2); (base ^ 1, u1); (base ^ 0, u0)]
    /\ get_size b (base ^ 5, u5)
         [(base ^ 4, u4); (base ^ 3, u3); (base ^ 2, u2); (base ^ 1, u1); (base ^ 0, u0)]
       = Ok (PyStr.of_Z (b / f) ++ sfx)
    /\ 1 <= b / f < base.
Proof.
  intros Hbase Hb Hex. unfold get_size. rewrite Hex.
  assert (P : forall n, 0 <= n -> 0 < base ^ n) by (intros; apply Z.pow_pos_nonneg; lia).
  assert (Q : forall n, 0 <= n -> base ^ (n + 1) = base * base ^ n)
    by (intros; rewrite Z.pow_add_r by lia; rewrite Z.pow_1_r; lia).
  assert (R : forall n, 0 <= n -> base ^ n <= b < base ^ (n + 1) ->
                Z.quot b (base ^ n) = b / base ^ n /\ 1 <= b / base ^ n < base).
  { intros n Hn [Hlo Hhi]. pose proof (P n Hn).
    rewrite Z.quot_div_nonneg by lia. split; [reflexivity|]. split.
    - apply Z.div_le_lower_bound; lia.
    - apply Z.div_lt_upper_bound; [lia|]. rewrite Z.mul_comm, <- Q by lia. exact Hhi. }
  cbv zeta. cbn [pick_factor fst].
  destruct (Z.leb_spec (base ^ 5) b) as [H5|H5].
  { destruct (R 5 ltac:(lia) ltac:(change (5+1) with 6; lia)) as [E ?].
    exists (base ^ 5), u5. cbn [fst snd In]. rewrite E. auto 10. }
  destruct (Z.leb_spec (base ^ 4) b) as [H4|H4].
  { destruct (R 4 ltac:(lia) ltac:(change (4+1) with 5; lia)) as [E ?].
    exists (base ^ 4), u4. cbn [fst snd In]. rewrite E. auto 10. }
  destruct (Z.leb_spec (base ^ 3) b) as [H3|H3].
  { destruct (R 3 ltac:(lia) ltac:(change (3+1) with 4; lia)) as [E ?].
    exists (base ^ 3), u3. cbn [fst snd In]. rewrite E. auto 10. }
  destruct (Z.leb_spec (base ^ 2) b) as [H2|H2].
  { destruct (R 2 ltac:(lia) ltac:(change (2+1) with 3; lia)) as [E ?].
    exists (base ^ 2), u2. cbn [fst snd In]. rewrite E. auto 10. }
  destruct (Z.leb_spec (base ^ 1) b) as [H1|H1].
  { destruct (R 1 ltac:(lia) ltac:(change (1+1) with 2; lia)) as [E ?].
    exists (base ^ 1), u1. cbn [fst snd In]. rewrite E. auto 10. }
  destruct (Z.leb_spec (base ^ 0) b) as [H0|H0].
  { destruct (R 0 ltac:(lia) ltac:(change (0+1) with 1; lia)) as [E ?].
    exists (base ^ 0), u0. cbn [fst snd In]. rewrite E. auto 10. }
  rewrite Z.pow_0_r in H0. lia.
Qed.

(** X8. For a value [b] from 1 up to 2^53, [TypeHelper] in [size] mode
    shows [b] divided (and truncated) by the largest power of 1024 that
    [b] reaches, so the number shown is at least 1 and below 1024; in
    [SI] mode the same holds with powers of 1000. *)
Theorem TypeHelper_picks_largest_unit (b : Z) :
  1 <= b <= 2 ^ 53 ->
  (exists f sfx,
     In (f, sfx) size_units
     /\ TypeHelper (Found (JInt b)) "size" = Ok (PyStr.of_Z (b / f) ++ sfx)
     /\ 1 <= b / f < 1024)
  /\ (exists f sfx,
        In (f, sfx) si_units
        /\ TypeHelper (Found (JInt b)) "SI" = Ok (PyStr.of_Z (b / f) ++ sfx)
        /\ 1 <= b / f < 1000).
Proof.
  intros Hb.
  assert (Hex : Py.exact b = true).
  { unfold Py.exact. apply andb_true_iff. split; apply Z.leb_le; lia. }
  split.
  - apply (get_size_units b 1024 " PiB" " TiB" " GiB" " MiB" " KiB" " bytes");
      [lia | | exact Hex].
    change (1024 ^ 6) with 1152921504606846976.
    change (2 ^ 53) with 9007199254740992 in Hb. lia.
  - apply (get_size_units b 1000 "P" "T" "G" "M" "K" "B"); [lia | | exact Hex].
    change (1000 ^ 6) with 1000000000000000000.
    change (2 ^ 53) with 9007199254740992 in Hb. lia.
Qed.

(** X9. A value that is zero or negative is never scaled: from -2^53 to
    0 it is shown whole with the smallest unit. *)
Theorem TypeHelper_does_not_scale_below_one (b : Z) :
  - 2 ^ 53 <= b <= 0 ->
  TypeHelper (Found (JInt b)) "size" = Ok (PyStr.of_Z b ++ " bytes")
  /\ TypeHelper (Found (JInt b)) "SI" = Ok (PyStr.of_Z b ++ "B").
Proof.
  intros Hb.
  assert (Hex : Py.exact b = true).
  { unfold Py.exact. apply andb_true_iff. split; apply Z.leb_le; lia. }
  assert (L : forall f : Z, 0 < f -> (f <=? b) = false)
    by (intros; apply Z.leb_gt; lia).
  split; unfold TypeHelper, get_size; cbn [String.eqb Ascii.eqb Bool.eqb bind
    Py.int_lookup Py.int PyStr.lower PyStr.lower_char];
    rewrite Hex; cbn [pick_factor fst snd];
    rewrite !L by reflexivity; cbn [snd fst]; now rewrite Z.quot_1_r.
Qed.

(** ** The outcome of the fetch *)

(** X10. An HTTP error ends the program with the code UNKNOWN and a URL
    error with the code CRITICAL, whatever rules were given; no rule is
    evaluated, and the message is the label of the code, the name of the
    error with its code or reason, and the URL. *)
Theorem fetch_errors_decide_the_code fuel e args code reason :
  program fuel e args (HTTPError_raised code)
  = Ok ("UNKNOWN:HTTPError[" ++ PyStr.of_Z code ++ "], url:" ++ build_url e,
        UNKNOWN_CODE)
  /\ program fuel e args (URLError_raised reason)
     = Ok ("CRITICAL:URLError[" ++ reason ++ "], url:" ++ build_url e,
           CRITICAL_CODE).
Proof.
  split; unfold program; cbn [bind]; unfold getMessage, getCode, append_unknown,
    append_critical, nagios_init;
    cbn [status_message performance_data warning_message critical_message
         unknown_message].
  - replace (nonempty ("" ++ "HTTPError[" ++ PyStr.of_Z code ++ "], url:" ++ build_url e))
      with true by reflexivity.
    change (nonempty "") with false. cbv iota.
    rewrite !append_nil_r. reflexivity.
  - replace (nonempty ("" ++ "URLError[" ++ reason ++ "], url:" ++ build_url e))
      with true by reflexivity.
    change (nonempty "") with false. cbv iota.
    rewrite !append_nil_r. reflexivity.
Qed.

(** ** Index accessors *)

Lemma all_digits_no_char (x : ascii) (s : string) :
  PyStr.is_digit x = false -> PyStr.all_digits s = true ->
  PyStr.has_char x s = false.
Proof.
  intros Hx. induction s as [|c s IH]; simpl; [reflexivity|].
  intros H. apply andb_true_iff in H as [Hc Hs]. rewrite (IH Hs), orb_false_r.
  destruct (Ascii.eqb_spec c x) as [->|]; [congruence | reflexivity].
Qed.

Lemma isdecimal_all_digits (s : string) :
  PyStr.isdecimal s = true -> PyStr.all_digits s = true.
Proof. destruct s; [discriminate | trivial]. Qed.

Lemma len_app (a b : string) : PyStr.len (a ++ b) = PyStr.len a + PyStr.len b.
Proof. unfold PyStr.len. rewrite length_app. lia. Qed.

Lemma len_nonneg (s : string) : 0 <= PyStr.len s.
Proof. unfold PyStr.len. lia. Qed.

(** The text between an open marker and what follows the text. *)
Lemma slice_middle (a k r : string) (o : ascii) :
  PyStr.slice (a ++ String o (k ++ r)) (PyStr.len a + 1) (PyStr.len a + 1 + PyStr.len k)
  = k.
Proof.
  unfold PyStr.slice, PyStr.clamp.
  rewrite len_app. change (String o (k ++ r)) with (String o "" ++ (k ++ r)).
  rewrite !len_app. change (PyStr.len (String o "")) with 1.
  pose proof (len_nonneg a). pose proof (len_nonneg k). pose proof (len_nonneg r).
  destruct (Z.ltb_spec (PyStr.len a + 1) 0) as [?|_]; [lia|].
  destruct (Z.ltb_spec (PyStr.len a + 1 + PyStr.len k) 0) as [?|_]; [lia|].
  rewrite !Z.min_l by lia.
  replace (Z.to_nat (PyStr.len a + 1)) with (String.length (a ++ String o ""))
    by (rewrite length_app; unfold PyStr.len; cbn [String.length]; lia).
  replace (Z.to_nat (PyStr.len a + 1 + PyStr.len k - (PyStr.len a + 1)))
    with (String.length k) by (unfold PyStr.len; lia).
  rewrite <- append_assoc, substring_skip. apply substring_prefix.
Qed.

Lemma substring_none (n : nat) (s : string) : substring n 0 s = "".
Proof.
  revert n. induction s as [|x s IH]; intros [|n]; simpl; try reflexivity. apply IH.
Qed.

Lemma slice_from_end (s : string) (i : Z) :
  PyStr.len s <= i -> PyStr.slice_from s i = "".
Proof.
  intros H. unfold PyStr.slice_from, PyStr.slice, PyStr.clamp.
  pose proof (len_nonneg s).
  destruct (Z.ltb_spec i 0) as [?|_]; [lia|].
  destruct (Z.ltb_spec (PyStr.len s) 0) as [?|_]; [lia|].
  rewrite (Z.min_r i (PyStr.len s)) by lia. rewrite Z.min_id, Z.sub_diag.
  apply substring_none.
Qed.

Lemma string_get_none (n : nat) (s : string) :
  String.get n s = None <-> (String.length s <= n)%nat.
Proof.
  revert n. induction s as [|x s IH]; intros [|n]; simpl;
    try (split; [lia | reflexivity]); try (split; [discriminate | lia]).
  rewrite IH. lia.
Qed.

Lemma digits_acc_nonneg (s : string) :
  forall acc, 0 <= acc -> 0 <= PyStr.digits_acc s acc.
Proof.
  induction s as [|x s IH]; intros acc Hacc; cbn [PyStr.digits_acc]; [exact Hacc|].
  destruct (PyStr.is_digit x) eqn:E; apply IH; [|exact Hacc].
  unfold PyStr.is_digit in E. cbv zeta in E. apply andb_true_iff in E as [E _].
  apply Z.leb_le in E. unfold PyStr.digit_val. lia.
Qed.

Lemma slice_to_zero (s : string) : PyStr.slice_to s 0 = "".
Proof.
  unfold PyStr.slice_to, PyStr.slice, PyStr.clamp. pose proof (len_nonneg s).
  replace (0 <? 0) with false by reflexivity. rewrite Z.min_l by lia.
  cbn. now destruct s.
Qed.

(** A close marker at the end of the text is not followed by a
    separator. *)
Lemma find_from_closing (c : ascii) (pre : string) :
  PyStr.has_char ")" pre = false ->
  forall i, PyStr.find_from (String ")" (String c "")) (pre ++ ")") i = -1.
Proof.
  induction pre as [|x pre IH]; intros H i.
  - cbn [append PyStr.find_from]. rewrite !prefix_cons. cbn [prefix andb Ascii.eqb Bool.eqb].
    reflexivity.
  - cbn [PyStr.has_char] in H. apply orb_false_iff in H as [Hx Hpre].
    cbn [append PyStr.find_from]. rewrite prefix_cons, Hx. cbn [andb]. now apply IH.
Qed.

Section Accessors.

Variable self : JsonHelper.
Variable c : ascii.
Hypothesis one_char : separator self = String c "".

(** A path that starts with an open marker goes to
    [getSubArrayElement]. *)
Lemma get_at_accessor fuel (s : string) (node : json) :
  get (S fuel) self (String "(" s) node
  = getSubArrayElement self (get fuel self) (String "(" s)
      (if Py.truthy node then node else data self).
Proof.
  assert (Hopen : PyStr.find (String "(" s) arrayOpener = 0).
  { unfold PyStr.find, arrayOpener. cbn [PyStr.find_from].
    now rewrite prefix_char, Ascii.eqb_refl. }
  cbn [get]. rewrite Hopen.
  replace (PyStr.len (String "(" s) <=? 0) with false
    by (unfold PyStr.len; cbn [String.length]; symmetry; apply Z.leb_gt; lia).
  destruct (find_from_range (separator self) (String "(" s) 0 ltac:(lia)) as [Hs|Hs];
    fold (PyStr.find (String "(" s) (separator self)) in Hs.
  - now rewrite Hs.
  - destruct (Z.eqb_spec (PyStr.find (String "(" s) (separator self)) (-1)) as [E|_]; [lia|].
    now destruct (Z.ltb_spec (PyStr.find (String "(" s) (separator self)) 0) as [?|_]; [lia|].
Qed.

(** X11. An index accessor without a prefix, at the end of the path and
    on a list: an index inside the list gives the element, except that
    an element that tests false (0, false, null, an empty text, list or
    mapping) gives the whole document instead; an index outside the list
    raises [IndexError], for the index is not compared with the
    length. *)
Theorem index_accessor_at_end fuel (k : string) (l : list json) (node : json) :
  PyStr.isdecimal k = true ->
  PyStr.len k <= Py.max_str_digits ->
  (if Py.truthy node then node else data self) = JList l ->
  existsb (Py.is_str "") l = false ->
  get (S (S fuel)) self ("(" ++ k ++ ")") node
  = match nth_error l (Z.to_nat (PyStr.digits_value k)) with
    | Some e => Ok (Found (if Py.truthy e then e else data self))
    | None => Raise IndexError
    end.
Proof.
  intros Hk Hlen Hnode Hempty.
  pose proof (isdecimal_all_digits _ Hk) as Hd.
  assert (Hclose : PyStr.has_char ")" k = false) by now apply all_digits_no_char.
  change ("(" ++ k ++ ")") with (String "(" (k ++ String ")" "")).
  rewrite get_at_accessor, Hnode. set (key := String "(" (k ++ String ")" "")).
  assert (Hopen : PyStr.find key arrayOpener = 0).
  { unfold PyStr.find, key, arrayOpener. cbn [PyStr.find_from].
    now rewrite prefix_char, Ascii.eqb_refl. }
  assert (Hfc : PyStr.find key arrayCloser = 1 + PyStr.len k).
  { unfold PyStr.find, key, arrayCloser. cbn [PyStr.find_from].
    rewrite prefix_char. change (Ascii.eqb "(" ")") with false. cbv iota.
    now rewrite (find_from_char _ _ _ Hclose). }
  assert (Hslice : PyStr.slice key 1 (1 + PyStr.len k) = k) by apply slice_inside.
  assert (Hrem : remainingKey_after self key = "").
  { unfold remainingKey_after, arrayCloser. rewrite one_char.
    change (")" ++ String c "") with (String ")" (String c "")).
    assert (E : PyStr.find key (String ")" (String c "")) = -1).
    { unfold PyStr.find, key.
      change (String "(" (k ++ String ")" "")) with (("(" ++ k) ++ ")").
      apply find_from_closing. exact Hclose. }
    rewrite E. cbn [Z.eqb]. fold arrayCloser. rewrite Hfc.
    apply slice_from_end. unfold key, PyStr.len. cbn [String.length].
    rewrite length_app. cbn [String.length]. lia. }
  unfold getSubArrayElement. cbv zeta. rewrite Hopen, Hfc, Hrem, slice_to_zero.
  change (0 + 1) with 1. rewrite Hslice.
  unfold accessor_index. rewrite Hk. cbn [negb].
  destruct (Z.ltb_spec Py.max_str_digits (PyStr.len k)) as [?|_]; [lia|].
  cbn [bind Py.contains]. rewrite Hempty. cbn [Py.truthy String.eqb negb Py.getindex].
  destruct (nth_error l _) as [e|]; reflexivity.
Qed.

(** X12. An index accessor with a prefix, followed by the separator and
    the rest of the path, on a mapping: when the prefix is the key of a
    list, an index inside the list continues with the element and the
    rest of the path, and an index outside the list is NotFound; when
    the prefix is not a key of the mapping, the path is NotFound. *)
Theorem index_accessor_with_prefix fuel (sub k rest : string)
  (d : list (string * json)) (node : json) :
  Ascii.eqb "(" c = false -> Ascii.eqb ")" c = false ->
  PyStr.is_digit c = false ->
  sub <> "" ->
  PyStr.has_char c sub = false -> PyStr.has_char "(" sub = false ->
  PyStr.has_char ")" sub = false ->
  PyStr.isdecimal k = true ->
  PyStr.len k <= Py.max_str_digits ->
  (if Py.truthy node then node else data self) = JDict d ->
  get (S fuel) self (sub ++ "(" ++ k ++ ")" ++ separator self ++ rest) node
  = match Py.assoc sub d with
    | Some (JList l) =>
        match nth_error l (Z.to_nat (PyStr.digits_value k)) with
        | Some e => get fuel self rest e
        | None => Ok NotFound
        end
    | Some (JDict x) =>
        if PyStr.digits_value k <? Z.of_nat (List.length x)
        then Raise KeyError else Ok NotFound
    | Some (JStr s) =>
        match String.get (Z.to_nat (PyStr.digits_value k)) s with
        | Some ch => get fuel self rest (JStr (String ch ""))
        | None => Ok NotFound
        end
    | Some _ => Raise TypeError
    | None => Ok NotFound
    end.
Proof.
  intros Ho Hc Hdig Hsub Hsc Hso Hsp Hk Hlen Hnode.
  pose proof (isdecimal_all_digits _ Hk) as Hd.
  pose proof (all_digits_no_char ")" k eq_refl Hd) as Hkp.
  pose proof (all_digits_no_char c k Hdig Hd) as Hkc.
  pose proof (all_digits_no_char "(" k eq_refl Hd) as Hko.
  rewrite one_char. set (key := sub ++ "(" ++ k ++ ")" ++ String c "" ++ rest).
  set (pre := sub ++ "(" ++ k).
  assert (Hprep : PyStr.has_char ")" pre = false).
  { unfold pre. rewrite has_char_app, Hsp. cbn. exact Hkp. }
  assert (Hprec : PyStr.has_char c (pre ++ ")") = false).
  { unfold pre. rewrite !has_char_app, Hsc. cbn [append PyStr.has_char orb].
    rewrite Ho, Hkc, Hc. reflexivity. }
  assert (K1 : key = sub ++ String "(" (k ++ String ")" (String c rest))) by reflexivity.
  assert (K2 : key = pre ++ String ")" (String c rest))
    by (unfold key, pre; cbn; now rewrite !append_assoc).
  assert (K3 : key = (pre ++ ")") ++ String c rest)
    by (rewrite K2; now rewrite append_assoc).
  assert (K4 : key = pre ++ ")" ++ separator self ++ rest)
    by (rewrite K2, one_char; reflexivity).
  assert (Hopen : PyStr.find key arrayOpener = PyStr.len sub).
  { unfold PyStr.find, arrayOpener. rewrite K1. now rewrite (find_from_char _ _ _ Hso). }
  assert (Hsep : PyStr.find key (String c "") = PyStr.len pre + 1).
  { unfold PyStr.find. rewrite K3, (find_from_char _ _ _ Hprec), len_app. reflexivity. }
  assert (Hfc : PyStr.find key arrayCloser = PyStr.len sub + 1 + PyStr.len k).
  { unfold PyStr.find, arrayCloser. rewrite K2, (find_from_char _ _ _ Hprep).
    unfold pre. rewrite len_app. change ("(" ++ k) with (String "(" "" ++ k).
    rewrite len_app. change (PyStr.len (String "(" "")) with 1. lia. }
  assert (Hrem : remainingKey_after self key = rest).
  { rewrite K4. now apply (remainingKey_after_separator self c). }
  assert (Hpre_len : PyStr.len pre = PyStr.len sub + 1 + PyStr.len k).
  { unfold pre. rewrite len_app. change ("(" ++ k) with (String "(" "" ++ k).
    rewrite len_app. change (PyStr.len (String "(" "")) with 1. lia. }
  pose proof (len_nonneg sub). pose proof (len_nonneg k).
  assert (Hklen : (PyStr.len key <=? 0) = false).
  { apply len_nonempty. rewrite K1. destruct sub; [congruence | discriminate]. }
  cbn [get]. rewrite Hklen, one_char, Hsep, Hopen, Hnode.
  replace (PyStr.len pre + 1 =? -1) with false by (symmetry; apply Z.eqb_neq; lia).
  replace (PyStr.len sub =? -1) with false by (symmetry; apply Z.eqb_neq; lia).
  replace (PyStr.len pre + 1 <? PyStr.len sub) with false
    by (symmetry; apply Z.ltb_ge; lia).
  cbn [negb andb].
  unfold getSubArrayElement. cbv zeta. rewrite Hopen, Hfc, Hrem.
  replace (PyStr.slice_to key (PyStr.len sub)) with sub
    by (symmetry; rewrite K1; apply slice_to_app).
  replace (PyStr.slice key (PyStr.len sub + 1) (PyStr.len sub + 1 + PyStr.len k))
    with k by (symmetry; rewrite K1; apply slice_middle).
  unfold accessor_index. rewrite Hk. cbn [negb].
  destruct (Z.ltb_spec Py.max_str_digits (PyStr.len k)) as [?|_]; [lia|].
  cbn [bind Py.contains Py.getitem].
  assert (Hidx : 0 <= PyStr.digits_value k) by (apply digits_acc_nonneg; lia).
  destruct (Py.assoc sub d) as [[| | | |s|l|x]|]; cbn [bind Py.len Py.getindex];
    try reflexivity.
  - unfold PyStr.len.
    destruct (Z.ltb_spec (PyStr.digits_value k) (Z.of_nat (String.length s))) as [Hin|Hout].
    + destruct (String.get _ s) eqn:E; [reflexivity|].
      apply string_get_none in E. lia.
    + assert (E : String.get (Z.to_nat (PyStr.digits_value k)) s = None)
        by (apply string_get_none; lia).
      now rewrite E.
  - destruct (Z.ltb_spec (PyStr.digits_value k) (Z.of_nat (List.length l))) as [Hin|Hout].
    + destruct (nth_error l _) eqn:E; [reflexivity|].
      apply nth_error_None in E. lia.
    + assert (E : nth_error l (Z.to_nat (PyStr.digits_value k)) = None)
        by (apply nth_error_None; lia).
      now rewrite E.
  - destruct sub; [congruence | reflexivity].
Qed.

End Accessors.

(** ** Search accessors *)

Section Search.

Variable self : JsonHelper.
Variable fuel : nat.
Variables n v : string.

Lemma getindex_middle (p : list json) (e : json) (q : list json) :
  Py.getindex (JList (p ++ e :: q)) (Z.of_nat (List.length p)) = Ok e.
Proof.
  cbn [Py.getindex]. rewrite Nat2Z.id, nth_error_app2 by lia.
  now rewrite Nat.sub_diag.
Qed.

Lemma search_first (before : list json) (e : json) (after : list json) :
  Forall (differs self fuel n v) before -> matches self fuel n v e ->
  forall p,
  search (get fuel self) n v (JList (p ++ before ++ e :: after))
    (Z.of_nat (List.length p)) (List.length (before ++ e :: after))
  = Ok (Some (Z.of_nat (List.length p + List.length before))).
Proof.
  intros Hb (r & Hr & Er). induction before as [|x before IH]; intros p.
  - cbn [app List.length search]. rewrite getindex_middle. cbn [bind].
    rewrite Hr. cbn [bind]. rewrite Er. now rewrite Nat.add_0_r.
  - inversion Hb as [|? ? (rx & Hx & Ex) Hb']; subst.
    cbn [app List.length search]. rewrite getindex_middle. cbn [bind].
    rewrite Hx. cbn [bind]. rewrite Ex.
    replace (p ++ x :: before ++ e :: after)%list
      with ((p ++ [x]) ++ before ++ e :: after)%list
      by (now rewrite <- app_assoc).
    replace (Z.of_nat (List.length p) + 1) with (Z.of_nat (List.length (p ++ [x])))
      by (rewrite List.length_app; cbn [List.length]; lia).
    rewrite (IH Hb'). rewrite List.length_app. cbn [List.length]. do 3 f_equal. lia.
Qed.

Lemma search_none (l : list json) :
  Forall (differs self fuel n v) l ->
  forall p,
  search (get fuel self) n v (JList (p ++ l))
    (Z.of_nat (List.length p)) (List.length l) = Ok None.
Proof.
  induction l as [|x l IH]; intros Hl p; [reflexivity|].
  inversion Hl as [|? ? (rx & Hx & Ex) Hl']; subst.
  cbn [List.length search]. rewrite getindex_middle. cbn [bind].
  rewrite Hx. cbn [bind]. rewrite Ex.
  replace (p ++ x :: l)%list with ((p ++ [x]) ++ l)%list by (now rewrite <- app_assoc).
  replace (Z.of_nat (List.length p) + 1) with (Z.of_nat (List.length (p ++ [x])))
    by (rewrite List.length_app; cbn [List.length]; lia).
  now apply IH.
Qed.

Variable c : ascii.
Hypothesis one_char : separator self = String c "".

Variables payload rest : string.
Variable bytes : list Z.
Hypothesis n_close : PyStr.has_char ")" n = false.
Hypothesis n_equals : PyStr.has_char "=" n = false.
Hypothesis payload_close : PyStr.has_char ")" payload = false.
Hypothesis payload_bytes : Base64.b64decode payload = Ok bytes.
Hypothesis bytes_text : Base64.decode bytes = Ok v.

(** What [getSubArrayElement] does with the outcome of the search, on a
    list with no empty text among its elements. *)
Lemma search_accessor_steps (l : list json) (node : json) :
  (if Py.truthy node then node else data self) = JList l ->
  existsb (Py.is_str "") l = false ->
  get (S fuel) self ("(" ++ n ++ "=" ++ payload ++ ")" ++ separator self ++ rest) node
  = (found <- search (get fuel self) n v (JList l) 0 (List.length l) ;;
     match found with
     | None => Ok NotFound
     | Some index =>
         elem <- Py.getindex (JList l) index ;; get fuel self rest elem
     end).
Proof.
  intros Hnode Hempty.
  set (k := n ++ "=" ++ payload).
  assert (Hk : PyStr.has_char ")" k = false).
  { unfold k. rewrite has_char_app, n_close. cbn. exact payload_close. }
  replace ("(" ++ n ++ "=" ++ payload ++ ")" ++ separator self ++ rest)
    with (String "(" (k ++ String ")" (separator self ++ rest)))
    by (unfold k; cbn; now rewrite !append_assoc).
  rewrite get_at_accessor, Hnode.
  set (key := String "(" (k ++ String ")" (separator self ++ rest))).
  assert (Hopen : PyStr.find key arrayOpener = 0).
  { unfold PyStr.find, key, arrayOpener. cbn [PyStr.find_from].
    now rewrite prefix_char, Ascii.eqb_refl. }
  assert (Hfc : PyStr.find key arrayCloser = 1 + PyStr.len k).
  { unfold PyStr.find, key, arrayCloser. cbn [PyStr.find_from].
    rewrite prefix_char. change (Ascii.eqb "(" ")") with false. cbv iota.
    now rewrite (find_from_char _ _ _ Hk). }
  assert (Hslice : PyStr.slice key 1 (1 + PyStr.len k) = k) by apply slice_inside.
  assert (Hrem : remainingKey_after self key = rest).
  { unfold key.
    change (String "(" (k ++ String ")" (separator self ++ rest)))
      with (("(" ++ k) ++ ")" ++ separator self ++ rest).
    apply (remainingKey_after_separator self c); [exact one_char|].
    cbn. exact Hk. }
  unfold getSubArrayElement. cbv zeta. rewrite Hopen, Hfc, Hrem, slice_to_zero.
  change (0 + 1) with 1. rewrite Hslice.
  unfold accessor_index, k. rewrite isdecimal_with_equals. cbn [negb].
  change (n ++ "=" ++ payload) with (n ++ String "=" payload).
  rewrite (split1_app _ _ _ n_equals), payload_bytes. cbn [bind].
  rewrite bytes_text. cbn [bind Py.len]. rewrite Nat2Z.id.
  destruct (search _ _ _ _ _ _) as [[index|]| |]; cbn [bind]; try reflexivity.
  cbn [Py.contains bind]. rewrite Hempty. reflexivity.
Qed.

(** X13. A search accessor [(n=payload)] on a list continues with the
    first element in which [n] resolves to a value whose text is the
    decoded payload, and with the rest of the path; the elements before
    it are those that resolve [n] to another text. *)
Theorem search_accessor_first_match (before : list json) (e : json)
  (after : list json) (node : json) :
  (if Py.truthy node then node else data self) = JList (before ++ e :: after) ->
  existsb (Py.is_str "") (before ++ e :: after) = false ->
  Forall (differs self fuel n v) before -> matches self fuel n v e ->
  get (S fuel) self ("(" ++ n ++ "=" ++ payload ++ ")" ++ separator self ++ rest) node
  = get fuel self rest e.
Proof.
  intros Hnode Hempty Hb He.
  rewrite (search_accessor_steps _ _ Hnode Hempty).
  pose proof (search_first before e after Hb He []) as S. cbn [app List.length] in S.
  change (Z.of_nat 0) with 0 in S. rewrite S. cbn [bind].
  rewrite Nat.add_0_l. now rewrite (getindex_middle before e after).
Qed.

(** X14. A search accessor on a list in which every element resolves
    [n] to a text other than the decoded payload is NotFound. *)
Theorem search_accessor_no_match (l : list json) (node : json) :
  (if Py.truthy node then node else data self) = JList l ->
  existsb (Py.is_str "") l = false ->
  Forall (differs self fuel n v) l ->
  get (S fuel) self ("(" ++ n ++ "=" ++ payload ++ ")" ++ separator self ++ rest) node
  = Ok NotFound.
Proof.
  intros Hnode Hempty Hl.
  rewrite (search_accessor_steps _ _ Hnode Hempty).
  pose proof (search_none l Hl []) as S. cbn [app List.length] in S.
  change (Z.of_nat 0) with 0 in S. now rewrite S.
Qed.

End Search.

(** ** The bands of the range forms, on [checkThreshold] *)

Section RangeForms.

Variable fuel : nat.
Variable self : JsonRuleProcessor.
Variables key alias : string.
Variable v : json.
Variable x : spec_float.
Variable kv : string.
Hypothesis Hget : get_key fuel (helper self) key = Ok (Found v).
Hypothesis Hx : Py.float v = Ok x.
Hypothesis x_number : PyFloat.is_nan x = false.
Hypothesis Hkv : th self (Found v) = Ok kv.

(** [checkThreshold] returns when its tests return and the texts it
    shows can be computed. *)
Lemma checkThreshold_returns (r : string) (b : bool) :
  threshold_fails fuel (helper self) key r = Ok b ->
  (let (start, end_) :=
     range_bounds (if PyStr.startswith r "@" then PyStr.slice_from r 1 else r) in
   (Py.is_str "~" start = false -> exists t, th self (Found start) = Ok t)
   /\ ((Py.is_str "~" start = false -> Py.is_str "infinity" end_ = false) ->
       exists t, th self (Found end_) = Ok t)) ->
  exists f s, checkThreshold fuel self key alias r = Ok (f, s)
              /\ (f = "" <-> b = false).
Proof.
  intros Hfails Hth.
  assert (G : exists f s, checkThreshold fuel self key alias r = Ok (f, s)).
  { revert Hfails Hth. unfold threshold_fails, checkThreshold.
    destruct (range_bounds _) as [start end_]. rewrite Hget. cbn [bind].
    rewrite Hkv. cbn [bind]. intros Hfails [Hs He].
    destruct (Py.is_str "~" start).
    - destruct He as [te Hte]; [discriminate|]. rewrite Hte. cbn [bind].
      eapply if_elif_else_returns; eauto.
    - destruct (Hs eq_refl) as [ts Hts]. rewrite Hts. cbn [bind].
      destruct (Py.is_str "infinity" end_).
      + eapply if_elif_else_returns; eauto.
      + destruct He as [te Hte]; [reflexivity|]. rewrite Hte. cbn [bind].
        eapply if_elif_else_returns; eauto. }
  destruct G as (f & s & E). exists f, s. split; [exact E|].
  apply checkThreshold_fails in E as (b' & Hb' & Hiff).
  rewrite Hfails in Hb'. now injection Hb' as <-.
Qed.

(** X15. For a value that [float()] converts to a number [x] and bounds
    that it converts to numbers [a] and [b], none of them NaN, when
    [TypeHelper] forms the texts of the value and of the bounds (as it
    always does for the field type [str]), both checks return: the
    range [A:B] passes exactly when [a <= x <= b], and the inverted
    range [@A:B] passes exactly when [x < a] or [x > b]. *)
Theorem closed_range_band (A B : string) (a b : spec_float) (ta tb : string) :
  PyStr.has_char ":" A = false -> PyStr.has_char ":" B = false ->
  PyStr.startswith A "@" = false ->
  Py.float (JStr A) = Ok a -> PyFloat.is_nan a = false ->
  Py.float (JStr B) = Ok b -> PyFloat.is_nan b = false ->
  th self (Found (JStr A)) = Ok ta ->
  th self (Found (JStr B)) = Ok tb ->
  (exists f s, checkThreshold fuel self key alias (A ++ ":" ++ B) = Ok (f, s)
               /\ (f = "" <-> PyFloat.le a x = true /\ PyFloat.le x b = true))
  /\ (exists f s, checkThreshold fuel self key alias ("@" ++ A ++ ":" ++ B) = Ok (f, s)
                  /\ (f = "" <-> PyFloat.lt x a = true \/ PyFloat.gt x b = true)).
Proof.
  intros HA HB Hat Ha Han Hb Hbn Hta Htb.
  destruct (band_between fuel (helper self) key v x Hget Hx A B a b HA HB Hat Ha Hb)
    as [P I].
  pose proof (numeric_nonempty B b Hb) as Hne.
  destruct (outside_between x x_number a b Han Hbn) as [Hin _].
  split.
  - destruct (checkThreshold_returns _ _ P) as (f & s & E & Hiff).
    { rewrite (startswith_range A B Hat), (range_bounds_pair A B HA HB), Hne. eauto. }
    exists f, s. split; [exact E|]. now rewrite Hiff, Hin.
  - destruct (checkThreshold_returns _ _ I) as (f & s & E & Hiff).
    { rewrite startswith_at. change ("@" ++ A ++ ":" ++ B) with (String "@" (A ++ ":" ++ B)).
      rewrite slice_from_cons, (range_bounds_pair A B HA HB), Hne. eauto. }
    exists f, s. split; [exact E|].
    rewrite Hiff, (lt_not_ge x a x_number Han), (gt_not_le x b x_number Hbn).
    destruct (PyFloat.ge x a), (PyFloat.le x b); cbn; intuition congruence.
Qed.

(** X16. For a value that [float()] converts to a number [x] and a
    bound that it converts to a number [a], neither of them NaN, when
    [TypeHelper] forms the texts of the value and of the bound (as it
    always does for the field type [str]), the four checks return: [A:]
    passes exactly when [a <= x] and [@A:] exactly when [x < a]; [~:A]
    passes exactly when [x <= a] and [@~:A] exactly when [x > a]. *)
Theorem open_range_bands (A : string) (a : spec_float) (ta : string) :
  PyStr.has_char ":" A = false ->
  PyStr.startswith A "@" = false ->
  Py.float (JStr A) = Ok a -> PyFloat.is_nan a = false ->
  th self (Found (JStr A)) = Ok ta ->
  (exists f s, checkThreshold fuel self key alias (A ++ ":") = Ok (f, s)
               /\ (f = "" <-> PyFloat.le a x = true))
  /\ (exists f s, checkThreshold fuel self key alias ("@" ++ A ++ ":") = Ok (f, s)
                  /\ (f = "" <-> PyFloat.lt x a = true))
  /\ (exists f s, checkThreshold fuel self key alias ("~:" ++ A) = Ok (f, s)
                  /\ (f = "" <-> PyFloat.le x a = true))
  /\ (exists f s, checkThreshold fuel self key alias ("@" ++ "~:" ++ A) = Ok (f, s)
                  /\ (f = "" <-> PyFloat.gt x a = true)).
Proof.
  intros HA Hat Ha Han Hta.
  destruct (band_from fuel (helper self) key v x Hget Hx A a HA Hat Ha) as [P I].
  destruct (band_upto fuel (helper self) key v x Hget Hx A a HA Ha) as [P' I'].
  pose proof (numeric_nonempty A a Ha) as Hne.
  pose proof (numeric_not_tilde A a Ha) as Htilde.
  destruct (outside_from x x_number a Han) as [Hfrom _].
  destruct (outside_upto x x_number a Han) as [Hupto _].
  split; [|split; [|split]].
  - destruct (checkThreshold_returns _ _ P) as (f & s & E & Hiff).
    { change (A ++ ":") with (A ++ ":" ++ "").
      rewrite (startswith_range A "" Hat), (range_bounds_pair A "" HA eq_refl).
      cbn [nonempty String.eqb negb]. split; [eauto|].
      intros H. specialize (H Htilde). discriminate H. }
    exists f, s. split; [exact E|]. now rewrite Hiff, Hfrom.
  - destruct (checkThreshold_returns _ _ I) as (f & s & E & Hiff).
    { rewrite startswith_at. change ("@" ++ A ++ ":") with (String "@" (A ++ ":" ++ "")).
      rewrite slice_from_cons, (range_bounds_pair A "" HA eq_refl).
      cbn [nonempty String.eqb negb]. split; [eauto|].
      intros H. specialize (H Htilde). discriminate H. }
    exists f, s. split; [exact E|].
    rewrite Hiff, (lt_not_ge x a x_number Han).
    destruct (PyFloat.ge x a); cbn; intuition congruence.
  - destruct (checkThreshold_returns _ _ P') as (f & s & E & Hiff).
    { change ("~:" ++ A) with ("~" ++ ":" ++ A).
      replace (PyStr.startswith ("~" ++ ":" ++ A) "@") with false by reflexivity.
      rewrite (range_bounds_pair "~" A eq_refl HA), Hne.
      split; [discriminate | eauto]. }
    exists f, s. split; [exact E|]. now rewrite Hiff, Hupto.
  - destruct (checkThreshold_returns _ _ I') as (f & s & E & Hiff).
    { rewrite startswith_at. change ("@" ++ "~:" ++ A) with (String "@" ("~" ++ ":" ++ A)).
      rewrite slice_from_cons, (range_bounds_pair "~" A eq_refl HA), Hne.
      split; [discriminate | eauto]. }
    exists f, s. split; [exact E|].
    rewrite Hiff, (gt_not_le x a x_number Han).
    destruct (PyFloat.le x a); cbn; intuition congruence.
Qed.

(** X21. When the key resolves to a value that [float()] converts and
    whose text [TypeHelper] forms, and [float()] reads both bounds of a
    range [A:B], an exception that [TypeHelper] raises on the text of
    the lower bound is raised by the check, whatever the verdict: with
    the field type [size] or [SI], a bound with a fraction is read by
    [float()] and refused by [int()]. *)
Theorem bound_text_error_raises (A B : string) (a b : spec_float) (e : exn) :
  PyStr.has_char ":" A = false -> PyStr.has_char ":" B = false ->
  PyStr.startswith A "@" = false ->
  Py.float (JStr A) = Ok a ->
  Py.float (JStr B) = Ok b ->
  th self (Found (JStr A)) = Raise e ->
  checkThreshold fuel self key alias (A ++ ":" ++ B) = Raise e
  /\ checkThreshold fuel self key alias ("@" ++ A ++ ":" ++ B) = Raise e.
Proof.
  intros HA HB Hat Ha Hb Hta.
  pose proof (numeric_nonempty B b Hb) as Hne.
  pose proof (numeric_not_tilde A a Ha) as Htilde.
  split.
  - unfold checkThreshold.
    rewrite (startswith_range A B Hat), (range_bounds_pair A B HA HB), Hne, Hget.
    cbn [bind]. rewrite Hkv. cbn [bind]. rewrite Htilde, Hta.
    unfold lt, gt, gte, lte.
    rewrite !(compare_numbers fuel (helper self) key v x Hget Hx _ (JStr A) a Ha).
    destruct (Py.is_str "infinity" (JStr B)); cbn [and_then negb bind if_elif_else].
    + destruct (PyFloat.lt x a); reflexivity.
    + rewrite !(compare_numbers fuel (helper self) key v x Hget Hx _ (JStr B) b Hb).
      destruct (PyFloat.lt x a), (PyFloat.gt x b); reflexivity.
  - unfold checkThreshold. rewrite startswith_at.
    change ("@" ++ A ++ ":" ++ B) with (String "@" (A ++ ":" ++ B)).
    rewrite slice_from_cons, (range_bounds_pair A B HA HB), Hne, Hget.
    cbn [bind]. rewrite Hkv. cbn [bind]. rewrite Htilde, Hta.
    unfold lt, gt, gte, lte.
    rewrite !(compare_numbers fuel (helper self) key v x Hget Hx _ (JStr A) a Ha).
    destruct (Py.is_str "infinity" (JStr B)); cbn [and_then negb bind if_elif_else].
    + destruct (PyFloat.ge x a); reflexivity.
    + rewrite !(compare_numbers fuel (helper self) key v x Hget Hx _ (JStr B) b Hb).
      destruct (PyFloat.ge x a), (PyFloat.le x b); reflexivity.
Qed.

End RangeForms.

(** ** Message and exit code *)

(** X17. Whatever the outcome of the fetch and whatever the rules, when
    the program prints a message it starts with the label of the exit
    code and a colon, and the exit code is one of 0, 1, 2 and 3. *)
Theorem message_label_matches_exit_code fuel e args outcome msg code :
  program fuel e args outcome = Ok (msg, code) ->
  (exists rest, msg = message_prefix code ++ ":" ++ rest)
  /\ (code = OK_CODE \/ code = WARNING_CODE \/ code = CRITICAL_CODE
      \/ code = UNKNOWN_CODE).
Proof.
  unfold program.
  match goal with
  | |- (nagios <- ?c ;; _) = _ -> _ => destruct c as [nagios| |]
  end; cbn [bind]; try discriminate.
  intros [= <- <-]. split.
  - unfold getMessage. destruct (nonempty (performance_data nagios));
      eexists; rewrite !append_assoc; reflexivity.
  - unfold getCode.
    destruct (nonempty (unknown_message nagios)), (nonempty (critical_message nagios)),
      (nonempty (warning_message nagios)); auto.
Qed.

(** ** The further properties at concrete inputs *)

Lemma getKeyAlias_forms_witness :
  _getKeyAlias "a" = ("a", "a")
  /\ _getKeyAlias ("a" ++ ">" ++ "b") = ("a", "b")
  /\ _getKeyAlias ("a" ++ ">" ++ "b" ++ ">" ++ "c")
     = ("a" ++ ">" ++ "b" ++ ">" ++ "c", "a" ++ ">" ++ "b" ++ ">" ++ "c").
Proof.
  apply (getKeyAlias_forms "a" "b" "c"); reflexivity.
Defined.

Lemma checkExists_lists_missing_keys_witness :
  checkExists 5 (str_processor (metric_doc 5)) ["metric"; "nothere>gone"; "metric>m"]
  = Ok (PyStr.join ""
          (map missing_text
             (filter (key_missing 5 (helper (str_processor (metric_doc 5))))
                ["metric"; "nothere>gone"; "metric>m"])), "")
  /\ (PyStr.join ""
        (map missing_text
           (filter (key_missing 5 (helper (str_processor (metric_doc 5))))
              ["metric"; "nothere>gone"; "metric>m"])) = ""
      <-> Forall (fun k => exists_ 5 (helper (str_processor (metric_doc 5)))
                             (fst (_getKeyAlias k)) = Ok true)
            ["metric"; "nothere>gone"; "metric>m"]).
Proof.
  apply (checkExists_lists_missing_keys 5 (str_processor (metric_doc 5))
           ["metric"; "nothere>gone"; "metric>m"]).
  repeat constructor; eexists; reflexivity.
Defined.

Lemma equality_missing_key_fails_witness :
  checkEquality 5 (str_processor (metric_doc 5)) ["nothere>gone" ++ "," ++ "6"]
  = Ok (" Value for key " ++ "gone" ++ " ((None, 'not_found')) did not match "
          ++ "6" ++ ".", "").
Proof.
  apply (equality_missing_key_fails 5 (str_processor (metric_doc 5))
           "nothere>gone" "6" "nothere" "gone"); reflexivity.
Defined.

Lemma equality_rule_alternatives_witness :
  exists f s,
    checkEquality 5 (str_processor (metric_doc 5))
      ["metric" ++ "," ++ PyStr.join ":" ["4"; "5"]] = Ok (f, s)
    /\ (f = "" <-> In (Py.str (JInt 5)) ["4"; "5"])
    /\ (s = "" <-> ~ In (Py.str (JInt 5)) ["4"; "5"]).
Proof.
  apply (equality_rule_alternatives 5 (str_processor (metric_doc 5))
           "metric" ["4"; "5"] "metric" "metric" (JInt 5));
    try reflexivity; try discriminate; repeat constructor.
Defined.

Lemma rule_lists_compose_witness :
  checkThresholds 5 (str_processor (metric_doc 5)) (["metric,1:4"] ++ ["metric,5"])%list
  = Ok (" Value for key metric (5) was outside the range '1 : 4'." ++ "",
        "" ++ " Value for key metric (5) was in range '0 : 5'.")
  /\ checkEquality 5 (str_processor (metric_doc 5)) (["metric,6"] ++ ["metric,5"])%list
     = Ok (" Value for key metric (5) did not match 6." ++ "",
           "" ++ " Value for key metric (5) does match 5.")
  /\ checkExists 5 (str_processor (metric_doc 5)) (["nothere"] ++ ["metric"])%list
     = Ok (" Key nothere did not exist." ++ "", "" ++ "").
Proof.
  apply (rule_lists_compose 5 (str_processor (metric_doc 5))
           ["metric,1:4"] ["metric,5"]
           " Value for key metric (5) was outside the range '1 : 4'." ""
           "" " Value for key metric (5) was in range '0 : 5'."
           ["metric,6"] ["metric,5"]
           " Value for key metric (5) did not match 6." ""
           "" " Value for key metric (5) does match 5."
           ["nothere"] ["metric"]
           " Key nothere did not exist." "" "" "");
    reflexivity.
Defined.

Lemma run_texts_witness :
  exists w c m,
    checkWarning 5 (processor_init (metric_doc 5)
                      (dash_m ["metric,,1:4,1:5"] (dash_w ["metric,1:4"] RulesHelper)))
      = Ok w
    /\ checkCritical 5 (processor_init (metric_doc 5)
                          (dash_m ["metric,,1:4,1:5"] (dash_w ["metric,1:4"] RulesHelper)))
       = Ok c
    /\ checkMetrics 5 (processor_init (metric_doc 5)
                         (dash_m ["metric,,1:4,1:5"] (dash_w ["metric,1:4"] RulesHelper)))
       = Ok m
    /\ mkNagios "" "'metric'=5;1:4;1:5 "
         " Value for key metric (5) was outside the range '1 : 4'. Value for key metric (5) was outside the range '1 : 4'."
         "" ""
       = mkNagios (snd w ++ snd c) (fst (fst m))
           (fst w ++ snd (fst m)) (fst c ++ snd m) ""
    /\ getCode
         (mkNagios "" "'metric'=5;1:4;1:5 "
            " Value for key metric (5) was outside the range '1 : 4'. Value for key metric (5) was outside the range '1 : 4'."
            "" "")
       <> UNKNOWN_CODE.
Proof.
  apply (run_texts 5
           (dash_m ["metric,,1:4,1:5"] (dash_w ["metric,1:4"] RulesHelper))
           (metric_doc 5)); reflexivity.
Defined.

Lemma metric_spec_gives_performance_data_witness :
  performance_data (mkNagios "" " " "" "" "") <> ""
  /\ getMessage (mkNagios "" " " "" "" "")
     = message_prefix (getCode (mkNagios "" " " "" "" "")) ++ ":"
         ++ status_message (mkNagios "" " " "" "" "")
         ++ critical_message (mkNagios "" " " "" "" "")
         ++ warning_message (mkNagios "" " " "" "" "")
         ++ "|" ++ performance_data (mkNagios "" " " "" "" "").
Proof.
  apply (metric_spec_gives_performance_data 5 (dash_m ["nothere"] RulesHelper)
           (metric_doc 5) (mkNagios "" " " "" "" "") "nothere" []); reflexivity.
Defined.

Lemma TypeHelper_picks_largest_unit_witness :
  (exists f sfx,
     In (f, sfx) size_units
     /\ TypeHelper (Found (JInt 1536)) "size" = Ok (PyStr.of_Z (1536 / f) ++ sfx)
     /\ 1 <= 1536 / f < 1024)
  /\ exists f sfx,
       In (f, sfx) si_units
       /\ TypeHelper (Found (JInt 1536)) "SI" = Ok (PyStr.of_Z (1536 / f) ++ sfx)
       /\ 1 <= 1536 / f < 1000.
Proof.
  apply (TypeHelper_picks_largest_unit 1536); lia.
Defined.

Lemma TypeHelper_does_not_scale_below_one_witness :
  TypeHelper (Found (JInt (-5))) "size" = Ok (PyStr.of_Z (-5) ++ " bytes")
  /\ TypeHelper (Found (JInt (-5))) "SI" = Ok (PyStr.of_Z (-5) ++ "B").
Proof.
  apply (TypeHelper_does_not_scale_below_one (-5)); lia.
Defined.

Lemma index_accessor_at_end_witness :
  get 2 (mkHelper (JList [JInt 0; JInt 5]) ".") ("(" ++ "0" ++ ")") (JStr "")
  = match nth_error [JInt 0; JInt 5] (Z.to_nat (PyStr.digits_value "0")) with
    | Some e => Ok (Found (if Py.truthy e then e
                           else data (mkHelper (JList [JInt 0; JInt 5]) ".")))
    | None => Raise IndexError
    end.
Proof.
  apply (index_accessor_at_end (mkHelper (JList [JInt 0; JInt 5]) ".") "."
           eq_refl 0 "0" [JInt 0; JInt 5] (JStr "")); try reflexivity.
  vm_compute; discriminate.
Defined.

Lemma index_accessor_with_prefix_witness :
  get 5 (mkHelper beans_doc ".")
    ("beans" ++ "(" ++ "1" ++ ")" ++ separator (mkHelper beans_doc ".") ++ "v")
    (JStr "")
  = get 4 (mkHelper beans_doc ".") "v" bean_AB.
Proof.
  apply (index_accessor_with_prefix (mkHelper beans_doc ".") "." eq_refl 4
           "beans" "1" "v"
           [("beans", JList [bean_x; bean_AB]); ("metric", JInt 5)] (JStr ""));
    try reflexivity; discriminate.
Defined.

Lemma search_accessor_first_match_witness :
  get 5 (mkHelper beans_doc ".")
    ("(" ++ "name" ++ "=" ++ "QUI=" ++ ")" ++ separator (mkHelper beans_doc ".") ++ "v")
    (JList [bean_x; bean_AB])
  = get 4 (mkHelper beans_doc ".") "v" bean_AB.
Proof.
  apply (search_accessor_first_match (mkHelper beans_doc ".") 4 "name" "AB" "."
           eq_refl "QUI=" "v" [65; 66] eq_refl eq_refl eq_refl eq_refl eq_refl
           [bean_x] bean_AB [] (JList [bean_x; bean_AB])); try reflexivity.
  - constructor; [eexists; split; reflexivity | constructor].
  - eexists; split; reflexivity.
Defined.

Lemma search_accessor_no_match_witness :
  get 5 (mkHelper beans_doc ".")
    ("(" ++ "name" ++ "=" ++ "QUJD" ++ ")" ++ separator (mkHelper beans_doc ".") ++ "v")
    (JList [bean_x; bean_AB])
  = Ok NotFound.
Proof.
  apply (search_accessor_no_match (mkHelper beans_doc ".") 4 "name" "ABC" "."
           eq_refl "QUJD" "v" [65; 66; 67] eq_refl eq_refl eq_refl eq_refl eq_refl
           [bean_x; bean_AB] (JList [bean_x; bean_AB])); try reflexivity.
  repeat (constructor; [eexists; split; reflexivity |]). constructor.
Defined.

Lemma closed_range_band_witness :
  (exists f s,
     checkThreshold 5 (str_processor (float_doc five_and_a_half)) "metric" "metric"
       ("1" ++ ":" ++ "5.5") = Ok (f, s)
     /\ (f = "" <->
         PyFloat.le (S754_finite false 4503599627370496 (-52)) five_and_a_half = true
         /\ PyFloat.le five_and_a_half five_and_a_half = true))
  /\ exists f s,
       checkThreshold 5 (str_processor (float_doc five_and_a_half)) "metric" "metric"
         ("@" ++ "1" ++ ":" ++ "5.5") = Ok (f, s)
       /\ (f = "" <->
           PyFloat.lt five_and_a_half (S754_finite false 4503599627370496 (-52)) = true
           \/ PyFloat.gt five_and_a_half five_and_a_half = true).
Proof.
  apply (closed_range_band 5 (str_processor (float_doc five_and_a_half))
           "metric" "metric" (JFloat five_and_a_half) five_and_a_half "5.5"
           eq_refl eq_refl eq_refl eq_refl "1" "5.5"
           (S754_finite false 4503599627370496 (-52)) five_and_a_half "1" "5.5");
    vm_compute; reflexivity.
Defined.

Lemma open_range_bands_witness :
  (exists f s,
     checkThreshold 5 (str_processor (metric_doc 5)) "metric" "metric" ("5.5" ++ ":")
       = Ok (f, s)
     /\ (f = "" <->
         PyFloat.le five_and_a_half (S754_finite false 5629499534213120 (-50)) = true))
  /\ (exists f s,
        checkThreshold 5 (str_processor (metric_doc 5)) "metric" "metric"
          ("@" ++ "5.5" ++ ":") = Ok (f, s)
        /\ (f = "" <->
            PyFloat.lt (S754_finite false 5629499534213120 (-50)) five_and_a_half
            = true))
  /\ (exists f s,
        checkThreshold 5 (str_processor (metric_doc 5)) "metric" "metric"
          ("~:" ++ "5.5") = Ok (f, s)
        /\ (f = "" <->
            PyFloat.le (S754_finite false 5629499534213120 (-50)) five_and_a_half
            = true))
  /\ exists f s,
       checkThreshold 5 (str_processor (metric_doc 5)) "metric" "metric"
         ("@" ++ "~:" ++ "5.5") = Ok (f, s)
       /\ (f = "" <->
           PyFloat.gt (S754_finite false 5629499534213120 (-50)) five_and_a_half
           = true).
Proof.
  apply (open_range_bands 5 (str_processor (metric_doc 5)) "metric" "metric"
           (JInt 5) (S754_finite false 5629499534213120 (-50)) "5"
           eq_refl eq_refl eq_refl eq_refl "5.5" five_and_a_half "5.5");
    vm_compute; reflexivity.
Defined.

Lemma bound_text_error_raises_witness :
  checkThreshold 5 (size_processor (metric_doc 5)) "metric" "metric"
    ("1.5" ++ ":" ++ "9") = Raise ValueError
  /\ checkThreshold 5 (size_processor (metric_doc 5)) "metric" "metric"
       ("@" ++ "1.5" ++ ":" ++ "9") = Raise ValueError.
Proof.
  apply (bound_text_error_raises 5 (size_processor (metric_doc 5)) "metric" "metric"
           (JInt 5) (S754_finite false 5629499534213120 (-50)) "5 bytes"
           eq_refl eq_refl eq_refl "1.5" "9"
           (S754_finite false 6755399441055744 (-52))
           (S754_finite false 5066549580791808 (-49)) ValueError);
    vm_compute; reflexivity.
Defined.

Lemma message_label_matches_exit_code_witness :
  (exists rest,
     "WARNING: Value for key metric (5) was outside the range '1 : 4'."
     = message_prefix 1 ++ ":" ++ rest)
  /\ (1 = OK_CODE \/ 1 = WARNING_CODE \/ 1 = CRITICAL_CODE \/ 1 = UNKNOWN_CODE).
Proof.
  apply (message_label_matches_exit_code 5 sample_endpoint
           (dash_w ["metric,1:4"] RulesHelper) (Loaded (metric_doc 5))
           "WARNING: Value for key metric (5) was outside the range '1 : 4'." 1);
    reflexivity.
Defined.

Lemma get_plain_path_found_witness :
  get (S (List.length ["a"]) + 0) (mkHelper deep_doc ".")
    (PyStr.join (separator (mkHelper deep_doc ".")) (["a"] ++ ["b"])%list) (JStr "")
  = Ok (Found (JInt 0)).
Proof.
  apply (get_plain_path_found (mkHelper deep_doc ".") "." eq_refl eq_refl
           ["a"] "b" (JInt 0) (JStr "") 0%nat);
    try reflexivity; try discriminate; repeat (constructor || split).
Defined.

Lemma get_plain_path_missing_witness :
  get (S (List.length ["a"]) + 0) (mkHelper deep_doc ".")
    (PyStr.join (separator (mkHelper deep_doc ".")) (["a"] ++ "x" :: ["y"])%list)
    (JStr "")
  = Ok NotFound.
Proof.
  apply (get_plain_path_missing (mkHelper deep_doc ".") "." eq_refl eq_refl
           ["a"] "x" ["y"] [("b", JInt 0)] (JStr "") 0%nat);
    try reflexivity; try discriminate; repeat (constructor || split).
Defined.

Lemma search_accessor_decode_error_witness :
  get 5 (mkHelper beans_doc ".") ("(" ++ "name" ++ "=" ++ "A" ++ ")" ++ ".v")
    (JList [bean_x; bean_AB])
  = Raise BinasciiError.
Proof.
  apply (search_accessor_decode_error 4 (mkHelper beans_doc ".") "name" "A" ".v"
           (JList [bean_x; bean_AB]) BinasciiError); reflexivity.
Defined.
